(** * CPodesIntegratorRep: the State Bridge callbacks and the stepTo controller

    A shallow embedding of [trunk/Integrator/src/CPodesIntegratorRep.cpp].

    - [Real] values are compared, copied and minimised by the controller, so
      a time is a rational or [Infinity]; the order and [std::min] are the
      ones the source uses.  NaN is not modelled.  The file does arithmetic
      on them in two places only, the difference in [project] and the product
      handed to [projInit]; both are floating-point operations and are left
      uninterpreted.
    - The external solver ([CPodes]) and the simulated [System] are consumed
      through their interfaces: they are records of functions, and every
      theorem holds for all of them.
    - [catch(...)] is modelled with the [Exc] type: a call that can raise
      returns [Threw] or [Val]. *)

From Stdlib Require Import String ZArith QArith List Bool Lia Lqa.
Import ListNotations.
Open Scope Z_scope.

(* ------------------------------------------------------------------ *)
(** ** Real numbers as the controller uses them *)

Inductive Real : Type :=
| Finite (q : Q)
| Infinity.

(** [a <= b] *)
Definition Rleb (a b : Real) : bool :=
  match a, b with
  | _, Infinity => true
  | Infinity, Finite _ => false
  | Finite x, Finite y => Qle_bool x y
  end.

(** [a < b], that is [!(b <= a)] on a total order *)
Definition Rltb (a b : Real) : bool := negb (Rleb b a).

(** [a == b] *)
Definition Reqb (a b : Real) : bool := Rleb a b && Rleb b a.

(** [std::min(a, b)]: [(b < a) ? b : a] *)
Definition Rmin (a b : Real) : Real := if Rltb b a then b else a.

Definition Rle (a b : Real) : Prop := Rleb a b = true.
Definition Rlt (a b : Real) : Prop := Rltb a b = true.

Definition Vector : Type := list Q.

(** A [Vector] constructed with [n] elements and then filled by the solver:
    its size stays [n]. *)
Definition filled (n : nat) (v : Vector) : Vector :=
  firstn n v ++ repeat 0%Q (n - length v).

(** The exact difference [a - b], element by element: what the concrete
    runs below use for [Vector]'s [operator-]. *)
Fixpoint vsub (a b : Vector) : Vector :=
  match a, b with
  | x :: a', y :: b' => (x - y)%Q :: vsub a' b'
  | _, _ => []
  end.

(* ------------------------------------------------------------------ *)
(** ** Exceptions *)

Inductive Exc (A : Type) : Type :=
| Threw
| Val (a : A).
Arguments Threw {A}.
Arguments Val {A} a.

Definition bindE {A B} (m : Exc A) (k : A -> Exc B) : Exc B :=
  match m with
  | Threw => Threw
  | Val a => k a
  end.

Notation "x <- m ;; k" := (bindE m (fun x => k))
  (at level 61, m at next level, right associativity).

(** [try { body } catch (...) { return handler; } rest] *)
Definition try_catch {A B} (body : Exc A) (handler : B) (rest : A -> B) : B :=
  match body with
  | Threw => handler
  | Val a => rest a
  end.

(* ------------------------------------------------------------------ *)
(** ** The simulated system's State and System interfaces *)

Inductive Stage : Type :=
| StageEmpty | StageTopology | StageModel | StageInstance | StageTime
| StagePosition | StageVelocity | StageDynamics | StageAcceleration
| StageReport.

(** What realizing a State computes: its derived vectors. *)
Record Cache : Type := mkCache {
  cYDot : Vector;
  cYErr : Vector;
  cEvents : Vector
}.

Record State : Type := mkState {
  sTime : Real;
  sY : Vector;
  sDiscrete : list Q;
  sNEvents : nat;
  sCache : Cache
}.

Definition updTime (s : State) (t : Real) : State :=
  mkState t (sY s) (sDiscrete s) (sNEvents s) (sCache s).
Definition updY (s : State) (y : Vector) : State :=
  mkState (sTime s) y (sDiscrete s) (sNEvents s) (sCache s).
Definition withCache (s : State) (c : Cache) : State :=
  mkState (sTime s) (sY s) (sDiscrete s) (sNEvents s) c.

Definition getTime (s : State) : Real := sTime s.
Definition getY (s : State) : Vector := sY s.
Definition getYDot (s : State) : Vector := cYDot (sCache s).
Definition getYErr (s : State) : Vector := cYErr (sCache s).
Definition getEvents (s : State) : Vector := cEvents (sCache s).
Definition getNEvents (s : State) : nat := sNEvents s.

(** The [System] calls the callbacks make.  [realize] takes a [const State&]
    and fills its cache; [project] takes a [State&] and a [Vector& err] and
    may move both: [sys_project] is what it leaves when it returns, and
    [sys_project_err] is what [err] holds when it raises. *)
Record System : Type := mkSystem {
  realize : State -> Stage -> Exc Cache;
  calcYUnitWeights : State -> Exc Vector;
  calcYErrUnitTolerances : State -> Exc Vector;
  sys_project : State -> Real -> Vector -> Vector -> Vector -> Exc (State * Vector);
  sys_project_err : State -> Real -> Vector -> Vector -> Vector -> Vector
}.

(* ------------------------------------------------------------------ *)
(** ** The CPodes interface *)

(** The result codes of [CPodes.h], a header that is not part of this file;
    the controller only compares them, so they are taken as they come. *)
Record Codes : Type := mkCodes {
  Success : Z;
  RecoverableError : Z;
  TooMuchWork : Z;
  TstopReturn : Z;
  RootReturn : Z
}.

Inductive StepMode : Type := Normal | OneStep | NormalTstop | OneStepTstop.

(** What [cpodes->step(tMax, &tret, yout, ypout, mode)] hands back. *)
Record StepOut (S : Type) : Type := mkStepOut {
  so_res : Z;
  so_tret : Real;
  so_yout : Vector;
  so_next : S
}.
Arguments mkStepOut {S}.
Arguments so_res {S}.
Arguments so_tret {S}.
Arguments so_yout {S}.
Arguments so_next {S}.

(** The solver with internal state [S].  [cp_step] sees the Advanced State
    because the solver evaluates the State Bridge callbacks on it. *)
Record CPodes (S : Type) : Type := mkCPodes {
  cp_step : S -> State -> Real -> StepMode -> StepOut S;
  cp_getDky : S -> Real -> Z -> Vector;
  cp_getRootInfo : S -> list Z
}.
Arguments mkCPodes {S}.
Arguments cp_step {S}.
Arguments cp_getDky {S}.
Arguments cp_getRootInfo {S}.

(* ------------------------------------------------------------------ *)
(** ** The integrator object *)

Inductive SuccessfulStepStatus : Type :=
| ReachedReportTime
| ReachedEventTrigger
| ReachedScheduledEvent
| TimeHasAdvanced
| ReachedStepLimit
| EndOfSimulation
| StartOfContinuousInterval.

Inductive TerminationReason : Type :=
| ReachedFinalTime.

Inductive StepCommunicationStatus : Type :=
| InvalidStepCommunicationStatus
| StepHasBeenReturnedNoEvent
| StepHasBeenReturnedWithEvent
| FinalTimeHasBeenReturned.

Inductive EventTrigger : Type :=
| AnySignChange.

(** The arguments of the last [setTriggeredEvents] call. *)
Record TriggeredEvents : Type := mkTriggeredEvents {
  te_tLow : Real;
  te_tHigh : Real;
  te_eventIds : list Z;
  te_eventTimes : list Real;
  te_eventTransitions : list EventTrigger
}.

(** How a call of [stepTo] ends: with a status, or with
    [SimTK_THROW2(Integrator::StepFailed, time, ...)]. *)
Inductive Outcome : Type :=
| Returned (status : SuccessfulStepStatus)
| StepFailed (time : Real).

(** The members of [CPodesIntegratorRep] and of its base [IntegratorRep]
    that [stepTo] and the callbacks touch.  [stepCalls] is not a member: it
    records the arguments of every [cpodes->step] call, latest first, so that
    "the solver is (not) invoked" is a statement about the model. *)
Record IntegRep (S : Type) : Type := mkInteg {
  advancedState : State;
  interpolatedState : State;
  useInterpolatedState : bool;
  startOfContinuousInterval : bool;
  pendingReturnCode : Z;
  previousStartTime : Real;
  previousTimeReturned : Real;
  savedY : Vector;
  cpodes : S;
  userFinalTime : Real;
  userReturnEveryInternalStep : Z;
  constraintToleranceInUse : Real;
  stepCommunicationStatus : StepCommunicationStatus;
  terminationReason : option TerminationReason;
  triggeredEvents : option TriggeredEvents;
  stepCalls : list (Real * StepMode)
}.
Arguments mkInteg {S}.
Arguments advancedState {S}.
Arguments interpolatedState {S}.
Arguments useInterpolatedState {S}.
Arguments startOfContinuousInterval {S}.
Arguments pendingReturnCode {S}.
Arguments previousStartTime {S}.
Arguments previousTimeReturned {S}.
Arguments savedY {S}.
Arguments cpodes {S}.
Arguments userFinalTime {S}.
Arguments userReturnEveryInternalStep {S}.
Arguments constraintToleranceInUse {S}.
Arguments stepCommunicationStatus {S}.
Arguments terminationReason {S}.
Arguments triggeredEvents {S}.
Arguments stepCalls {S}.

Section Setters.
Context {S : Type}.
Implicit Type r : IntegRep S.

Definition set_advancedState r v :=
  mkInteg v (interpolatedState r) (useInterpolatedState r)
    (startOfContinuousInterval r) (pendingReturnCode r) (previousStartTime r)
    (previousTimeReturned r) (savedY r) (cpodes r) (userFinalTime r)
    (userReturnEveryInternalStep r) (constraintToleranceInUse r)
    (stepCommunicationStatus r) (terminationReason r) (triggeredEvents r)
    (stepCalls r).
Definition set_interpolatedState r v :=
  mkInteg (advancedState r) v (useInterpolatedState r)
    (startOfContinuousInterval r) (pendingReturnCode r) (previousStartTime r)
    (previousTimeReturned r) (savedY r) (cpodes r) (userFinalTime r)
    (userReturnEveryInternalStep r) (constraintToleranceInUse r)
    (stepCommunicationStatus r) (terminationReason r) (triggeredEvents r)
    (stepCalls r).
Definition setUseInterpolatedState r v :=
  mkInteg (advancedState r) (interpolatedState r) v
    (startOfContinuousInterval r) (pendingReturnCode r) (previousStartTime r)
    (previousTimeReturned r) (savedY r) (cpodes r) (userFinalTime r)
    (userReturnEveryInternalStep r) (constraintToleranceInUse r)
    (stepCommunicationStatus r) (terminationReason r) (triggeredEvents r)
    (stepCalls r).
Definition set_startOfContinuousInterval r v :=
  mkInteg (advancedState r) (interpolatedState r) (useInterpolatedState r)
    v (pendingReturnCode r) (previousStartTime r)
    (previousTimeReturned r) (savedY r) (cpodes r) (userFinalTime r)
    (userReturnEveryInternalStep r) (constraintToleranceInUse r)
    (stepCommunicationStatus r) (terminationReason r) (triggeredEvents r)
    (stepCalls r).
Definition set_pendingReturnCode r v :=
  mkInteg (advancedState r) (interpolatedState r) (useInterpolatedState r)
    (startOfContinuousInterval r) v (previousStartTime r)
    (previousTimeReturned r) (savedY r) (cpodes r) (userFinalTime r)
    (userReturnEveryInternalStep r) (constraintToleranceInUse r)
    (stepCommunicationStatus r) (terminationReason r) (triggeredEvents r)
    (stepCalls r).
Definition set_previousStartTime r v :=
  mkInteg (advancedState r) (interpolatedState r) (useInterpolatedState r)
    (startOfContinuousInterval r) (pendingReturnCode r) v
    (previousTimeReturned r) (savedY r) (cpodes r) (userFinalTime r)
    (userReturnEveryInternalStep r) (constraintToleranceInUse r)
    (stepCommunicationStatus r) (terminationReason r) (triggeredEvents r)
    (stepCalls r).
Definition set_previousTimeReturned r v :=
  mkInteg (advancedState r) (interpolatedState r) (useInterpolatedState r)
    (startOfContinuousInterval r) (pendingReturnCode r) (previousStartTime r)
    v (savedY r) (cpodes r) (userFinalTime r)
    (userReturnEveryInternalStep r) (constraintToleranceInUse r)
    (stepCommunicationStatus r) (terminationReason r) (triggeredEvents r)
    (stepCalls r).
Definition set_savedY r v :=
  mkInteg (advancedState r) (interpolatedState r) (useInterpolatedState r)
    (startOfContinuousInterval r) (pendingReturnCode r) (previousStartTime r)
    (previousTimeReturned r) v (cpodes r) (userFinalTime r)
    (userReturnEveryInternalStep r) (constraintToleranceInUse r)
    (stepCommunicationStatus r) (terminationReason r) (triggeredEvents r)
    (stepCalls r).
(** the solver object after a [step] call with arguments [call] *)
Definition set_cpodes r (v : S) (call : Real * StepMode) : IntegRep S :=
  mkInteg (advancedState r) (interpolatedState r) (useInterpolatedState r)
    (startOfContinuousInterval r) (pendingReturnCode r) (previousStartTime r)
    (previousTimeReturned r) (savedY r) v (userFinalTime r)
    (userReturnEveryInternalStep r) (constraintToleranceInUse r)
    (stepCommunicationStatus r) (terminationReason r) (triggeredEvents r)
    (call :: stepCalls r).
Definition setStepCommunicationStatus r v :=
  mkInteg (advancedState r) (interpolatedState r) (useInterpolatedState r)
    (startOfContinuousInterval r) (pendingReturnCode r) (previousStartTime r)
    (previousTimeReturned r) (savedY r) (cpodes r) (userFinalTime r)
    (userReturnEveryInternalStep r) (constraintToleranceInUse r)
    v (terminationReason r) (triggeredEvents r)
    (stepCalls r).
Definition set_terminationReason r v :=
  mkInteg (advancedState r) (interpolatedState r) (useInterpolatedState r)
    (startOfContinuousInterval r) (pendingReturnCode r) (previousStartTime r)
    (previousTimeReturned r) (savedY r) (cpodes r) (userFinalTime r)
    (userReturnEveryInternalStep r) (constraintToleranceInUse r)
    (stepCommunicationStatus r) (Some v) (triggeredEvents r)
    (stepCalls r).
Definition setTriggeredEvents r tLow tHigh ids times transitions :=
  mkInteg (advancedState r) (interpolatedState r) (useInterpolatedState r)
    (startOfContinuousInterval r) (pendingReturnCode r) (previousStartTime r)
    (previousTimeReturned r) (savedY r) (cpodes r) (userFinalTime r)
    (userReturnEveryInternalStep r) (constraintToleranceInUse r)
    (stepCommunicationStatus r) (terminationReason r)
    (Some (mkTriggeredEvents tLow tHigh ids times transitions))
    (stepCalls r).

Definition getAdvancedState r : State := advancedState r.
Definition getInterpolatedState r : State := interpolatedState r.
Definition getAdvancedTime r : Real := getTime (advancedState r).
Definition getConstraintToleranceInUse r : Real := constraintToleranceInUse r.
End Setters.

(** What the file takes from outside: the result codes, the simulated
    system, the solver, two members of the base class [IntegratorRep] whose
    bodies are not in this file, and [Vector]'s [operator-].
    [realizeStateDerivatives] takes a [const State&]: it can only fill the
    cache.  Here it is the cache it computes when the realization it forces
    succeeds; the section on failing realizations below has [stepTo] again
    with a realization that can raise.  [findEventIds] rewrites the list of
    trigger indices into event ids, reading the Advanced State. *)
Record Env (S : Type) : Type := mkEnv {
  codes : Codes;
  system : System;
  solver : CPodes S;
  realizeStateDerivatives : State -> Cache;
  findEventIds : State -> list Z -> list Z;
  vectorMinus : Vector -> Vector -> Vector
}.
Arguments mkEnv {S}.
Arguments codes {S}.
Arguments system {S}.
Arguments solver {S}.
Arguments realizeStateDerivatives {S}.
Arguments findEventIds {S}.
Arguments vectorMinus {S}.

Section Model.
Context {S : Type}.
Variable env : Env S.
Implicit Type integ : IntegRep S.

(* ---------------------------------------------------------------- *)
(** ** CPodesSystemImpl: the four callbacks

    Each callback returns what the solver sees (the [int] and the
    reference arguments it may have written) together with the integrator
    object it was given by reference.  [State advanced = ...] copy
    constructs a local State. *)

(** [int explicitODE(Real t, const Vector& y, Vector& ydot) const] *)
Definition explicitODE integ (t : Real) (y ydot : Vector)
  : Exc (Z * Vector) * IntegRep S :=
  let advanced := advancedState integ in
  let advanced := updY advanced y in
  let advanced := updTime advanced t in
  try_catch (realize (system env) advanced StageAcceleration)
    (Val (RecoverableError (codes env), ydot), integ)
    (fun c =>
       let advanced := withCache advanced c in
       let ydot := getYDot advanced in
       (Val (Success (codes env), ydot), integ)).

(** [int constraint(Real t, const Vector& y, Vector& yerr) const] *)
Definition constraint integ (t : Real) (y yerr : Vector)
  : Exc (Z * Vector) * IntegRep S :=
  let advanced := advancedState integ in
  let advanced := updY advanced y in
  let advanced := updTime advanced t in
  try_catch (realize (system env) advanced StageVelocity)
    (Val (RecoverableError (codes env), yerr), integ)
    (fun c =>
       let advanced := withCache advanced c in
       let yerr := getYErr advanced in
       (Val (Success (codes env), yerr), integ)).

(** The [try] block of [project]: the tolerance, the realization, the two
    weight vectors and the projection; it yields the projected State and
    the error estimate. *)
Definition project_try integ (advanced : State) (err : Vector)
  : Exc (State * Vector) :=
  let tol := getConstraintToleranceInUse integ in
  c <- realize (system env) advanced StagePosition ;;
  let advanced := withCache advanced c in
  yUnitWeights <- calcYUnitWeights (system env) advanced ;;
  unitTolerances <- calcYErrUnitTolerances (system env) advanced ;;
  sys_project (system env) advanced tol yUnitWeights unitTolerances err.

(** What [err] holds when the [try] block of [project] has raised: it is
    touched by the projection only. *)
Definition project_err integ (advanced : State) (err : Vector) : Vector :=
  let tol := getConstraintToleranceInUse integ in
  match realize (system env) advanced StagePosition with
  | Threw => err
  | Val c =>
      let advanced := withCache advanced c in
      match calcYUnitWeights (system env) advanced with
      | Threw => err
      | Val yUnitWeights =>
          match calcYErrUnitTolerances (system env) advanced with
          | Threw => err
          | Val unitTolerances =>
              sys_project_err (system env) advanced tol yUnitWeights
                unitTolerances err
          end
      end
  end.

(** [int project(Real t, const Vector& y, Vector& ycorr, Real epsProj,
    Vector& err) const]; the result carries [ycorr] and [err]. *)
Definition project integ (t : Real) (y ycorr : Vector) (epsProj : Real)
  (err : Vector) : Exc (Z * (Vector * Vector)) * IntegRep S :=
  let advanced := advancedState integ in
  let advanced := updY advanced y in
  let advanced := updTime advanced t in
  try_catch (project_try integ advanced err)
    (Val (RecoverableError (codes env), (ycorr, project_err integ advanced err)),
     integ)
    (fun '(advanced, err) =>
       let ycorr := vectorMinus env (getY advanced) y in
       (Val (Success (codes env), (ycorr, err)), integ)).

(** [int root(Real t, const Vector& y, const Vector& yp, Vector& gout)
    const] *)
Definition root integ (t : Real) (y yp gout : Vector)
  : Exc (Z * Vector) * IntegRep S :=
  let advanced := advancedState integ in
  let advanced := updY advanced y in
  let advanced := updTime advanced t in
  try_catch (realize (system env) advanced StageAcceleration)
    (Val (RecoverableError (codes env), gout), integ)
    (fun c =>
       let advanced := withCache advanced c in
       let gout := getEvents advanced in
       (Val (Success (codes env), gout), integ)).

(* ---------------------------------------------------------------- *)
(** ** createInterpolatedState *)

Definition createInterpolatedState integ (t : Real) : IntegRep S :=
  let advanced := getAdvancedState integ in
  let interp := advanced in
  let yout :=
    filled (length (getY advanced)) (cp_getDky (solver env) (cpodes integ) t 0) in
  let interp := updY interp yout in
  let interp := updTime interp t in
  set_interpolatedState integ interp.

(** [realizeStateDerivatives(getAdvancedState())] *)
Definition realizeAdvanced integ : IntegRep S :=
  set_advancedState integ
    (withCache (advancedState integ)
       (realizeStateDerivatives env (advancedState integ))).

(** [realizeStateDerivatives(getInterpolatedState())] *)
Definition realizeInterpolated integ : IntegRep S :=
  set_interpolatedState integ
    (withCache (interpolatedState integ)
       (realizeStateDerivatives env (interpolatedState integ))).

(* ---------------------------------------------------------------- *)
(** ** stepTo *)

(** Lines 218-220: the scheduled event time in use and the ceiling. *)
Definition eventTimeInUse (scheduledEventTime : Real) : Real :=
  if Rleb scheduledEventTime (Finite 0) then Infinity else scheduledEventTime.

Definition ceiling (reportTime scheduledEventTime : Real) : Real :=
  Rmin reportTime (eventTimeInUse scheduledEventTime).

(** Lines 221-233. *)
Definition stepMode integ : StepMode :=
  if negb (Reqb (userFinalTime integ) (Finite (-1))) then
    if userReturnEveryInternalStep integ =? 1 then OneStepTstop else NormalTstop
  else
    if userReturnEveryInternalStep integ =? 1 then OneStep else Normal.

(** Lines 238-261: obtain [res] and [tret], from the solver or from the
    pending result, and commit them to the Advanced State. *)
Definition obtainResult integ (tMax : Real) (mode : StepMode)
  : Z * Real * IntegRep S :=
  let '(res, tret, integ) :=
    if pendingReturnCode integ =? -1 then
      let integ := set_previousStartTime integ (getAdvancedTime integ) in
      let n := length (getY (getAdvancedState integ)) in
      let out := cp_step (solver env) (cpodes integ) (advancedState integ) tMax mode in
      let integ := set_cpodes integ (so_next out) (tMax, mode) in
      let yout := filled n (so_yout out) in
      let res := so_res out in
      let tret := so_tret out in
      let integ := set_advancedState integ (updY (advancedState integ) yout) in
      let integ := set_previousTimeReturned integ tret in
      (res, tret, integ)
    else
      let res := pendingReturnCode integ in
      let tret := previousTimeReturned integ in
      let integ :=
        if (0 <? length (savedY integ))%nat
        then set_advancedState integ (updY (advancedState integ) (savedY integ))
        else integ in
      let integ := set_pendingReturnCode integ (-1) in
      (res, tret, integ) in
  let integ := set_advancedState integ (updTime (advancedState integ) tret) in
  let integ := realizeAdvanced integ in
  (res, tret, integ).

(** Lines 329-335: the indices [i < nevents] with [eventFlags[i] == 1]. *)
Definition firedIndices (nevents : nat) (eventFlags : list Z) : list Z :=
  map Z.of_nat
    (filter (fun i => nth i eventFlags 0 =? 1) (seq 0 nevents)).

(** One turn of the [while (true)] loop. *)
Inductive Turn : Type :=
| Done (o : Outcome) (integ : IntegRep S)
| Again (integ : IntegRep S).

(** Lines 281-287: generate an interpolated state if necessary. *)
Definition overshootCheck integ (tMax tret : Real) : IntegRep S :=
  if Rltb tMax tret then
    let integ := setUseInterpolatedState integ true in
    let integ := createInterpolatedState integ tMax in
    realizeInterpolated integ
  else setUseInterpolatedState integ false.

(** Lines 308-311: back up the advanced state to the event time. *)
Definition backUpToEvent integ (scheduledEventTime : Real) : IntegRep S :=
  let integ := set_savedY integ (getY (getAdvancedState integ)) in
  let integ :=
    set_advancedState integ
      (updY (advancedState integ) (getY (getInterpolatedState integ))) in
  let integ :=
    set_advancedState integ
      (updTime (advancedState integ) scheduledEventTime) in
  realizeAdvanced integ.

(** Lines 329-347: the triggered events are handed over. *)
Definition reportTriggers integ (tret : Real) : IntegRep S :=
  let nevents := getNEvents (getAdvancedState integ) in
  let eventFlags := cp_getRootInfo (solver env) (cpodes integ) in
  let eventIds := firedIndices nevents eventFlags in
  let eventIds := findEventIds env (getAdvancedState integ) eventIds in
  let eventTimes := map (fun _ => tret) eventIds in
  let eventTransitions := map (fun _ => AnySignChange) eventIds in
  setTriggeredEvents integ (previousStartTime integ) tret
    eventIds eventTimes eventTransitions.

(** Lines 263-355, after [res] and [tret] are known. *)
Definition decide integ (reportTime scheduledEventTime tMax : Real)
  (res : Z) (tret : Real) : Turn :=
  if res =? TooMuchWork (codes env) then
    let integ := setStepCommunicationStatus integ StepHasBeenReturnedNoEvent in
    Done (Returned ReachedStepLimit) integ
  else if res <? 0 then
    Done (StepFailed (getTime (getAdvancedState integ))) integ
  else
    let integ := overshootCheck integ tMax tret in
    if Rleb reportTime tret && Rleb reportTime scheduledEventTime then
      let integ := set_savedY integ [] in
      let integ := set_pendingReturnCode integ res in
      let integ := setStepCommunicationStatus integ StepHasBeenReturnedNoEvent in
      Done (Returned ReachedReportTime) integ
    else if Rleb scheduledEventTime tret then
      let integ :=
        if Rltb scheduledEventTime tret
        then backUpToEvent integ scheduledEventTime
        else integ in
      let integ := set_pendingReturnCode integ res in
      let integ := setStepCommunicationStatus integ StepHasBeenReturnedWithEvent in
      Done (Returned ReachedScheduledEvent) integ
    else if res =? TstopReturn (codes env) then
      let integ := setStepCommunicationStatus integ FinalTimeHasBeenReturned in
      let integ := set_terminationReason integ ReachedFinalTime in
      Done (Returned EndOfSimulation) integ
    else if res =? RootReturn (codes env) then
      let integ := reportTriggers integ tret in
      let integ := setStepCommunicationStatus integ StepHasBeenReturnedWithEvent in
      Done (Returned ReachedEventTrigger) integ
    else if userReturnEveryInternalStep integ =? 1 then
      let integ := setStepCommunicationStatus integ StepHasBeenReturnedNoEvent in
      Done (Returned TimeHasAdvanced) integ
    else Again integ.

Definition turn integ (reportTime scheduledEventTime tMax : Real)
  (mode : StepMode) : Turn :=
  let '(res, tret, integ) := obtainResult integ tMax mode in
  decide integ reportTime scheduledEventTime tMax res tret.

(** The [while (true)] loop, run for at most [fuel] turns; [None] when the
    turns are used up before the loop returns. *)
Fixpoint stepLoop (fuel : nat) integ (reportTime scheduledEventTime tMax : Real)
  (mode : StepMode) : option Outcome * IntegRep S :=
  match fuel with
  | O => (None, integ)
  | Datatypes.S fuel' =>
      match turn integ reportTime scheduledEventTime tMax mode with
      | Done o integ' => (Some o, integ')
      | Again integ' =>
          stepLoop fuel' integ' reportTime scheduledEventTime tMax mode
      end
  end.

(** [Integrator::SuccessfulStepStatus stepTo(Real reportTime,
    Real scheduledEventTime)].  The three [assert]s are the caller's
    obligations and compile to nothing in a release build. *)
Definition stepTo (fuel : nat) integ (reportTime scheduledEventTime : Real)
  : option Outcome * IntegRep S :=
  if startOfContinuousInterval integ then
    let integ := set_startOfContinuousInterval integ false in
    (Some (Returned StartOfContinuousInterval), integ)
  else
    let scheduledEventTime := eventTimeInUse scheduledEventTime in
    let tMax := Rmin reportTime scheduledEventTime in
    let mode := stepMode integ in
    stepLoop fuel integ reportTime scheduledEventTime tMax mode.

End Model.

(* ------------------------------------------------------------------ *)
(** ** stepTo when a realization fails

    [realizeStateDerivatives] forces a realization of the State it is
    given, and a realization can raise.  [stepTo] has no [try]: an exception
    raised at line 261, 284 or 311 leaves [stepTo], with the members as they
    are at that line.  The definitions of this section are [stepTo] once
    more, with [realizeStateDerivatives] as a function that may raise; where
    it does not raise they are the definitions above. *)

(** How a call of [stepTo] ends: as above, or with the exception of a
    realization. *)
Inductive Exit : Type :=
| Finished (o : Outcome)
| RealizeFailed.

Section FailingRealization.
Context {S : Type}.
Variable env : Env S.
Variable realizeDerivatives : State -> Exc Cache.
Implicit Type integ : IntegRep S.

(** What a step that realizes leaves: the integrator object with the cache
    filled, or the object as it was when the realization raised. *)
Inductive Realization : Type :=
| Realized (integ : IntegRep S)
| Raised (integ : IntegRep S).

(** [realizeStateDerivatives(getAdvancedState())] *)
Definition realizeAdvancedExn integ : Realization :=
  match realizeDerivatives (advancedState integ) with
  | Threw => Raised integ
  | Val c =>
      Realized (set_advancedState integ (withCache (advancedState integ) c))
  end.

(** [realizeStateDerivatives(getInterpolatedState())] *)
Definition realizeInterpolatedExn integ : Realization :=
  match realizeDerivatives (interpolatedState integ) with
  | Threw => Raised integ
  | Val c =>
      Realized
        (set_interpolatedState integ (withCache (interpolatedState integ) c))
  end.

(** Lines 238-260: [res] and [tret], from the solver or from the pending
    result, with the returned time committed and nothing realized yet. *)
Definition obtainUnrealized integ (tMax : Real) (mode : StepMode)
  : Z * Real * IntegRep S :=
  let '(res, tret, integ) :=
    if pendingReturnCode integ =? -1 then
      let integ := set_previousStartTime integ (getAdvancedTime integ) in
      let n := length (getY (getAdvancedState integ)) in
      let out := cp_step (solver env) (cpodes integ) (advancedState integ) tMax mode in
      let integ := set_cpodes integ (so_next out) (tMax, mode) in
      let yout := filled n (so_yout out) in
      let res := so_res out in
      let tret := so_tret out in
      let integ := set_advancedState integ (updY (advancedState integ) yout) in
      let integ := set_previousTimeReturned integ tret in
      (res, tret, integ)
    else
      let res := pendingReturnCode integ in
      let tret := previousTimeReturned integ in
      let integ :=
        if (0 <? length (savedY integ))%nat
        then set_advancedState integ (updY (advancedState integ) (savedY integ))
        else integ in
      let integ := set_pendingReturnCode integ (-1) in
      (res, tret, integ) in
  let integ := set_advancedState integ (updTime (advancedState integ) tret) in
  (res, tret, integ).

(** One turn of the loop: it returns, it goes round again, or a
    realization raises. *)
Inductive TurnExn : Type :=
| DoneExn (e : Exit) (integ : IntegRep S)
| AgainExn (integ : IntegRep S).

(** Lines 281-287. *)
Definition overshootCheckExn integ (tMax tret : Real) : Realization :=
  if Rltb tMax tret then
    let integ := setUseInterpolatedState integ true in
    let integ := createInterpolatedState env integ tMax in
    realizeInterpolatedExn integ
  else Realized (setUseInterpolatedState integ false).

(** Lines 308-311. *)
Definition backUpToEventExn integ (scheduledEventTime : Real)
  : Realization :=
  let integ := set_savedY integ (getY (getAdvancedState integ)) in
  let integ :=
    set_advancedState integ
      (updY (advancedState integ) (getY (getInterpolatedState integ))) in
  let integ :=
    set_advancedState integ
      (updTime (advancedState integ) scheduledEventTime) in
  realizeAdvancedExn integ.

(** Lines 263-355, after [res] and [tret] are known and the Advanced State
    is realized. *)
Definition decideExn integ (reportTime scheduledEventTime tMax : Real)
  (res : Z) (tret : Real) : TurnExn :=
  if res =? TooMuchWork (codes env) then
    let integ := setStepCommunicationStatus integ StepHasBeenReturnedNoEvent in
    DoneExn (Finished (Returned ReachedStepLimit)) integ
  else if res <? 0 then
    DoneExn (Finished (StepFailed (getTime (getAdvancedState integ)))) integ
  else
    match overshootCheckExn integ tMax tret with
    | Raised integ => DoneExn RealizeFailed integ
    | Realized integ =>
        if Rleb reportTime tret && Rleb reportTime scheduledEventTime then
          let integ := set_savedY integ [] in
          let integ := set_pendingReturnCode integ res in
          let integ := setStepCommunicationStatus integ StepHasBeenReturnedNoEvent in
          DoneExn (Finished (Returned ReachedReportTime)) integ
        else if Rleb scheduledEventTime tret then
          match
            (if Rltb scheduledEventTime tret
             then backUpToEventExn integ scheduledEventTime
             else Realized integ)
          with
          | Raised integ => DoneExn RealizeFailed integ
          | Realized integ =>
              let integ := set_pendingReturnCode integ res in
              let integ :=
                setStepCommunicationStatus integ StepHasBeenReturnedWithEvent in
              DoneExn (Finished (Returned ReachedScheduledEvent)) integ
          end
        else if res =? TstopReturn (codes env) then
          let integ := setStepCommunicationStatus integ FinalTimeHasBeenReturned in
          let integ := set_terminationReason integ ReachedFinalTime in
          DoneExn (Finished (Returned EndOfSimulation)) integ
        else if res =? RootReturn (codes env) then
          let integ := reportTriggers env integ tret in
          let integ := setStepCommunicationStatus integ StepHasBeenReturnedWithEvent in
          DoneExn (Finished (Returned ReachedEventTrigger)) integ
        else if userReturnEveryInternalStep integ =? 1 then
          let integ := setStepCommunicationStatus integ StepHasBeenReturnedNoEvent in
          DoneExn (Finished (Returned TimeHasAdvanced)) integ
        else AgainExn integ
    end.

(** The integrator object a turn leaves behind. *)
Definition turnStateExn (t : TurnExn) : IntegRep S :=
  match t with
  | DoneExn _ integ => integ
  | AgainExn integ => integ
  end.

Definition turnExn integ (reportTime scheduledEventTime tMax : Real)
  (mode : StepMode) : TurnExn :=
  let '(res, tret, integ) := obtainUnrealized integ tMax mode in
  match realizeAdvancedExn integ with
  | Raised integ => DoneExn RealizeFailed integ
  | Realized integ => decideExn integ reportTime scheduledEventTime tMax res tret
  end.

Fixpoint stepLoopExn (fuel : nat) integ (reportTime scheduledEventTime tMax : Real)
  (mode : StepMode) : option Exit * IntegRep S :=
  match fuel with
  | O => (None, integ)
  | Datatypes.S fuel' =>
      match turnExn integ reportTime scheduledEventTime tMax mode with
      | DoneExn e integ' => (Some e, integ')
      | AgainExn integ' =>
          stepLoopExn fuel' integ' reportTime scheduledEventTime tMax mode
      end
  end.

Definition stepToExn (fuel : nat) integ (reportTime scheduledEventTime : Real)
  : option Exit * IntegRep S :=
  if startOfContinuousInterval integ then
    let integ := set_startOfContinuousInterval integ false in
    (Some (Finished (Returned StartOfContinuousInterval)), integ)
  else
    let scheduledEventTime := eventTimeInUse scheduledEventTime in
    let tMax := Rmin reportTime scheduledEventTime in
    let mode := stepMode integ in
    stepLoopExn fuel integ reportTime scheduledEventTime tMax mode.

End FailingRealization.

(* ------------------------------------------------------------------ *)
(** ** A scripted solver and a small system, for concrete runs *)

Module Scenario.

(** The codes as [CPodes.h] declares them. *)
Definition cpodesCodes : Codes := mkCodes 0 9999 (-1) 1 2.

(** The solver's state: the results it will return, in order, and the
    root flags it reports. *)
Record Script : Type := mkScript {
  results : list (Z * Q * Vector);
  rootInfo : list Z
}.

Definition scriptedStep (s : Script) (advanced : State) (tMax : Real)
  (mode : StepMode) : StepOut Script :=
  match results s with
  | (res, t, y) :: rest => mkStepOut res (Finite t) y (mkScript rest (rootInfo s))
  | [] => mkStepOut 0 tMax (sY advanced) s
  end.

(** Dense output: the vector at time [t] is [[t]]. *)
Definition scriptedDky (s : Script) (t : Real) (k : Z) : Vector :=
  match t with
  | Finite q => [q]
  | Infinity => [0%Q]
  end.

Definition scriptedSolver : CPodes Script :=
  mkCPodes scriptedStep scriptedDky rootInfo.

(** A system whose realization fails below time zero. *)
Definition derivs (s : State) : Cache := mkCache (sY s) [] (sY s).

Definition failingBelowZero (s : State) : Exc Cache :=
  if Rltb (sTime s) (Finite 0) then Threw else Val (derivs s).

Definition smallSystem : System :=
  mkSystem (fun s _ => failingBelowZero s)
    (fun s => Val (map (fun _ => 1%Q) (sY s)))
    (fun s => Val [])
    (fun s tol w u err => Val (s, err))
    (fun s tol w u err => err).

Definition scenarioEnv : Env Script :=
  mkEnv cpodesCodes smallSystem scriptedSolver derivs (fun _ ids => ids) vsub.

(** A solver that advances by [k] tenths at every step, whatever ceiling
    it is given, and leaves the vector alone. *)
Definition strideStep (k : nat) (advanced : State) (tMax : Real)
  (mode : StepMode) : StepOut nat :=
  let tret :=
    match sTime advanced with
    | Finite q => Finite (q + (Z.of_nat k # 10))
    | Infinity => Infinity
    end in
  mkStepOut 0 tret (sY advanced) k.

Definition strideSolver : CPodes nat :=
  mkCPodes strideStep (fun _ t _ => scriptedDky (mkScript [] []) t 0)
    (fun _ => []).

Definition strideEnv : Env nat :=
  mkEnv cpodesCodes smallSystem strideSolver derivs (fun _ ids => ids) vsub.

Definition state0 (t : Q) (y : Vector) (nevents : nat) : State :=
  mkState (Finite t) y [] nevents (mkCache [] [] []).

(** An initialized integrator at time [t] with vector [y]: no pending
    result, [everyStep] as [userReturnEveryInternalStep], no final time. *)
Definition integ0 (t : Q) (y : Vector) (nevents : nat) (everyStep : Z)
  (start : bool) (s : Script) : IntegRep Script :=
  mkInteg (state0 t y nevents) (state0 t y nevents) false start (-1)
    (Finite 0) (Finite 0) [] s (Finite (-1)) everyStep (Finite (1 # 1000))
    InvalidStepCommunicationStatus None None [].

(** The same integrator over the striding solver. *)
Definition strideInteg (t : Q) (y : Vector) (everyStep : Z) (k : nat)
  : IntegRep nat :=
  mkInteg (state0 t y 0) (state0 t y 0) false false (-1)
    (Finite 0) (Finite 0) [] k (Finite (-1)) everyStep (Finite (1 # 1000))
    InvalidStepCommunicationStatus None None [].

(** The runs used below: the solver's script, from time 0 with vector
    [[1]], no pending result. *)
Definition idleInteg : IntegRep Script :=
  integ0 0 [1%Q] 0 0 false (mkScript [] []).
Definition startInteg : IntegRep Script :=
  integ0 0 [1%Q] 0 0 true (mkScript [(0, 1%Q, [5%Q])] []).
Definition limitInteg : IntegRep Script :=
  integ0 0 [1%Q] 0 0 false (mkScript [(-1, 1 # 2, [5%Q])] []).
Definition failInteg : IntegRep Script :=
  integ0 0 [1%Q] 0 0 false (mkScript [(-27, 1 # 2, [5%Q])] []).
Definition tieInteg : IntegRep Script :=
  integ0 0 [1%Q] 0 0 false (mkScript [(0, 1%Q, [5%Q])] []).
Definition overshootInteg : IntegRep Script :=
  integ0 0 [1%Q] 0 0 false
    (mkScript [(0, 17 # 10, [5%Q]); (0, 2%Q, [6%Q])] []).
Definition rootInteg : IntegRep Script :=
  integ0 0 [1%Q] 4 0 false (mkScript [(2, 3%Q, [5%Q])] [1; -1; 1; 1]).

(** A system whose realization fails after time 1/4. *)
Definition failingAfterQuarter (s : State) : Exc Cache :=
  if Rltb (Finite (1 # 4)) (sTime s) then Threw else Val (derivs s).

Definition singularSystem : System :=
  mkSystem (fun s _ => failingAfterQuarter s)
    (fun s => Val (map (fun _ => 1%Q) (sY s)))
    (fun s => Val [])
    (fun s tol w u err => Val (s, err))
    (fun s tol w u err => err).

Definition singularEnv : Env Script :=
  mkEnv cpodesCodes singularSystem scriptedSolver derivs (fun _ ids => ids)
    vsub.

(** [realizeStateDerivatives] as the realization of Stage::Acceleration by
    the system of [e]. *)
Definition realizeBy (e : Env Script) (s : State) : Exc Cache :=
  realize (system e) s StageAcceleration.


End Scenario.

(* ------------------------------------------------------------------ *)
(** ** Observations on runs *)


Section Observations.
Context {S : Type}.
Variable env : Env S.

(** The integrator object a loop turn leaves behind. *)
Definition turnState (t : Turn (S := S)) : IntegRep S :=
  match t with
  | Done _ integ => integ
  | Again integ => integ
  end.

(** The time of the latest solver result the controller holds: the
    Advanced State's time when a fresh solver call is due, the saved
    returned time when a result is pending. *)
Definition solverTime (integ : IntegRep S) : Real :=
  if pendingReturnCode integ =? -1 then getAdvancedTime integ
  else previousTimeReturned integ.

(** The time the next loop turn starts from: where the solver is started
    when a fresh call is due, where the pending result's step started
    otherwise. *)
Definition turnStartTime (integ : IntegRep S) : Real :=
  if pendingReturnCode integ =? -1 then getAdvancedTime integ
  else previousStartTime integ.

(** A sequence of [stepTo] calls, each given [fuel] turns; [None] when one
    of them does not return within its turns. *)
Fixpoint stepToCalls (fuel : nat) (integ : IntegRep S)
  (calls : list (Real * Real)) : option (IntegRep S) :=
  match calls with
  | [] => Some integ
  | (reportTime, scheduledEventTime) :: rest =>
      match stepTo env fuel integ reportTime scheduledEventTime with
      | (Some _, integ') => stepToCalls fuel integ' rest
      | (None, _) => None
      end
  end.

(** Lines 291-354 on a result that has passed the error checks: the turn
    returns when the returned time reaches the report time, the report time
    being the nearer boundary, or the event time, when the result is
    TstopReturn or RootReturn, and when every internal step is to be
    notified; otherwise the loop goes round again. *)
Definition turnReturns (integ : IntegRep S) (res : Z)
  (tret reportTime eventTime : Real) : bool :=
  (Rleb reportTime tret && Rleb reportTime eventTime)
  || Rleb eventTime tret
  || (res =? TstopReturn (codes env))
  || (res =? RootReturn (codes env))
  || (userReturnEveryInternalStep integ =? 1).

(** The time of the State the integrator delivers: the Interpolated
    State's when it is in use, the Advanced State's otherwise. *)
Definition deliveredTime (integ : IntegRep S) : Real :=
  if useInterpolatedState integ then sTime (interpolatedState integ)
  else sTime (advancedState integ).

(** The solver call the loop turn that starts at [integ] makes, when it
    makes one, returns a time that is not before the Advanced State's. *)
Definition turnAdvances (integ : IntegRep S) (tMax : Real) (mode : StepMode)
  : bool :=
  if pendingReturnCode integ =? -1 then
    Rleb (sTime (advancedState integ))
      (so_tret (cp_step (solver env) (cpodes integ) (advancedState integ)
                  tMax mode))
  else true.

(** The same of every solver call made in the first [fuel] turns of the
    loop started at [integ]. *)
Fixpoint loopAdvances (fuel : nat) (integ : IntegRep S)
  (reportTime eventTime tMax : Real) (mode : StepMode) : bool :=
  match fuel with
  | O => true
  | Datatypes.S fuel' =>
      turnAdvances integ tMax mode
      && match turn env integ reportTime eventTime tMax mode with
         | Done _ _ => true
         | Again integ' =>
             loopAdvances fuel' integ' reportTime eventTime tMax mode
         end
  end.

(** The same of every solver call made by one call of [stepTo]. *)
Definition callAdvances (fuel : nat) (integ : IntegRep S)
  (reportTime scheduledEventTime : Real) : bool :=
  if startOfContinuousInterval integ then true
  else
    loopAdvances fuel integ reportTime (eventTimeInUse scheduledEventTime)
      (ceiling reportTime scheduledEventTime) (stepMode integ).

(** [check] holds of every call of a sequence, at the integrator object the
    call is made on. *)
Fixpoint callsAll (check : IntegRep S -> Real -> Real -> bool) (fuel : nat)
  (integ : IntegRep S) (calls : list (Real * Real)) : bool :=
  match calls with
  | [] => true
  | (reportTime, scheduledEventTime) :: rest =>
      check integ reportTime scheduledEventTime
      && match stepTo env fuel integ reportTime scheduledEventTime with
         | (Some _, integ') => callsAll check fuel integ' rest
         | (None, _) => true
         end
  end.

(** Every solver call made in the sequence returns a time that is not
    before the time of the Advanced State it is started from. *)
Definition callsAdvance (fuel : nat) (integ : IntegRep S)
  (calls : list (Real * Real)) : bool :=
  callsAll (callAdvances fuel) fuel integ calls.

(** The caller's side: no call of the sequence asks for a report time or an
    event time before the time of the State the integrator delivers when
    the call is made. *)
Definition callsAhead (fuel : nat) (integ : IntegRep S)
  (calls : list (Real * Real)) : bool :=
  callsAll
    (fun integ reportTime scheduledEventTime =>
       Rleb (deliveredTime integ) (ceiling reportTime scheduledEventTime))
    fuel integ calls.

(** What holds of the times between calls: the Advanced State is not
    ahead of the latest solver result, and an Interpolated State in use
    lies before that result, not after the Advanced State, and was left by
    a call that stashed a result that had passed the error checks. *)
Record TimesOrdered (integ : IntegRep S) : Prop := mkTimesOrdered {
  advanced_le_solver : Rle (getAdvancedTime integ) (solverTime integ);
  interp_lt_solver :
    useInterpolatedState integ = true ->
    Rlt (sTime (interpolatedState integ)) (solverTime integ);
  interp_le_advanced :
    useInterpolatedState integ = true ->
    Rle (sTime (interpolatedState integ)) (getAdvancedTime integ);
  interp_has_pending :
    useInterpolatedState integ = true ->
    0 <= pendingReturnCode integ
    /\ pendingReturnCode integ <> TooMuchWork (codes env)
}.

(** What holds of the start of the solver step behind a pending result: it
    is not after the Interpolated State in use, nor after the Advanced
    State. *)
Definition StartOrdered (integ : IntegRep S) : Prop :=
  (useInterpolatedState integ = true ->
   Rle (previousStartTime integ) (sTime (interpolatedState integ)))
  /\ (pendingReturnCode integ <> -1 ->
      Rle (previousStartTime integ) (sTime (advancedState integ))).
End Observations.

(* ------------------------------------------------------------------ *)
(** ** Construction, initialization and re-initialization *)

Inductive ODEType : Type := ExplicitODE.
Inductive LinearMultistepMethod : Type := BDF | Adams.
Inductive NonlinearSystemIterationType : Type := Newton | Functional.

(** The parameter and configuration calls on the solver whose result the
    file ignores.  [projInit] is given the product
    [getAccuracyInUse()*getConstraintWeightsInUse()], which is formed in
    floating point: the call is recorded with the two operands. *)
Inductive Setting : Type :=
| setInitStep (h : Real)
| setMinStep (h : Real)
| setMaxStep (h : Real)
| setStopTime (t : Real)
| setMaxNumSteps (n : Z)
| setProjFrequency (n : Z)
| lapackDense (ny : nat)
| setNonlinConvCoef (c : Q)
| projInit (accuracy : Q) (constraintWeights : Vector)
| lapackDenseProj (nc ny : nat)
| projDefine
| rootInit (nevents : nat).

(** Everything the file asks of the solver apart from [step], [getDky] and
    [getRootInfo]. *)
Inductive Command : Type :=
| newCPodes (ode : ODEType) (method : LinearMultistepMethod)
    (iterationType : NonlinearSystemIterationType)
| configure (setting : Setting)
| initCPodes (t : Real) (y ydot : Vector) (relTol absTol : Real)
| reInitCPodes (t : Real) (y ydot : Vector) (relTol absTol : Real).

(** The solver's side of those calls.  [cps_init] and [cps_reInit] are given
    the callbacks' view of the integrator, its Advanced State. *)
Record CPodesSetup (S : Type) : Type := mkCPodesSetup {
  cps_new : ODEType -> LinearMultistepMethod -> NonlinearSystemIterationType -> S;
  cps_configure : S -> Setting -> S;
  cps_init : S -> State -> Real -> Vector -> Vector -> Real -> Real -> Z * S;
  cps_reInit : S -> State -> Real -> Vector -> Vector -> Real -> Real -> S
}.
Arguments mkCPodesSetup {S}.
Arguments cps_new {S}.
Arguments cps_configure {S}.
Arguments cps_init {S}.
Arguments cps_reInit {S}.

(** What the user has set on the base class; -1 stands for "not set". *)
Record UserSettings : Type := mkUserSettings {
  userInitStepSize : Real;
  userMinStepSize : Real;
  userMaxStepSize : Real;
  userInternalStepLimit : Z;
  userProjectEveryStep : Z;
  relTol : Real;
  absTol : Real;
  accuracyInUse : Q;
  constraintWeightsInUse : Vector
}.

(** The whole [CPodesIntegratorRep]: the members [stepTo] works on, and the
    ones only construction and initialization touch.  [commands] is not a
    member: it records the calls made on the solver, latest first. *)
Record Rep (S : Type) : Type := mkRep {
  core : IntegRep S;
  initialized : bool;
  useCpodesProjection : bool;
  method : LinearMultistepMethod;
  user : UserSettings;
  commands : list Command
}.
Arguments mkRep {S}.
Arguments core {S}.
Arguments initialized {S}.
Arguments useCpodesProjection {S}.
Arguments method {S}.
Arguments user {S}.
Arguments commands {S}.

(** What the file takes from outside for these operations: the solver's
    setup calls and two accessors of [State] that the record above does not
    carry. *)
Record SetupEnv (S : Type) : Type := mkSetupEnv {
  setup : CPodesSetup S;
  getSystemStage : State -> Stage;
  getNYErr : State -> nat
}.
Arguments mkSetupEnv {S}.
Arguments setup {S}.
Arguments getSystemStage {S}.
Arguments getNYErr {S}.

(** The stages in the order of their declaration. *)
Definition stageIndex (g : Stage) : nat :=
  match g with
  | StageEmpty => 0 | StageTopology => 1 | StageModel => 2
  | StageInstance => 3 | StageTime => 4 | StagePosition => 5
  | StageVelocity => 6 | StageDynamics => 7 | StageAcceleration => 8
  | StageReport => 9
  end.

(** [a < b] on stages *)
Definition stage_ltb (a b : Stage) : bool :=
  (stageIndex a <? stageIndex b)%nat.

Inductive InitializationFailure : Type :=
| FailedToCalculateYdot
| InitFailed.

(** What can leave the operations below. *)
Inductive SetupException : Type :=
| InitializationFailed (why : InitializationFailure)
| SystemException
| ApiArgcheckFailed.

Section Lifecycle.
Context {S : Type}.
Variable env : Env S.
Variable senv : SetupEnv S.
Implicit Type rep : Rep S.

Definition set_core rep (c : IntegRep S) : Rep S :=
  mkRep c (initialized rep) (useCpodesProjection rep) (method rep) (user rep)
    (commands rep).
Definition set_initialized rep (b : bool) : Rep S :=
  mkRep (core rep) b (useCpodesProjection rep) (method rep) (user rep)
    (commands rep).
Definition set_useCpodesProjection rep (b : bool) : Rep S :=
  mkRep (core rep) (initialized rep) b (method rep) (user rep) (commands rep).
Definition set_method rep (m : LinearMultistepMethod) : Rep S :=
  mkRep (core rep) (initialized rep) (useCpodesProjection rep) m (user rep)
    (commands rep).

(** The solver object is replaced by [v], reached by the call [c]. *)
Definition with_cpodes rep (v : S) (c : Command) : Rep S :=
  let r := core rep in
  mkRep
    (mkInteg (advancedState r) (interpolatedState r) (useInterpolatedState r)
       (startOfContinuousInterval r) (pendingReturnCode r)
       (previousStartTime r) (previousTimeReturned r) (savedY r) v
       (userFinalTime r) (userReturnEveryInternalStep r)
       (constraintToleranceInUse r) (stepCommunicationStatus r)
       (terminationReason r) (triggeredEvents r) (stepCalls r))
    (initialized rep) (useCpodesProjection rep) (method rep) (user rep)
    (c :: commands rep).

(** [cpodes->set...(...)] and the other calls whose result is dropped. *)
Definition send rep (setting : Setting) : Rep S :=
  with_cpodes rep (cps_configure (setup senv) (cpodes (core rep)) setting)
    (configure setting).

(** [void init(method, iterationType)] *)
Definition init rep (m : LinearMultistepMethod)
  (iterationType : NonlinearSystemIterationType) : Rep S :=
  let rep :=
    with_cpodes rep (cps_new (setup senv) ExplicitODE m iterationType)
      (newCPodes ExplicitODE m iterationType) in
  let rep := set_initialized rep false in
  set_useCpodesProjection rep false.

(** The constructor without an iteration type, on the object as the base
    class constructor left it. *)
Definition construct rep (m : LinearMultistepMethod) : Rep S :=
  let rep := set_method rep m in
  init rep m (match m with Adams => Functional | BDF => Newton end).

(** The constructor with an iteration type. *)
Definition constructWith rep (m : LinearMultistepMethod)
  (iterationType : NonlinearSystemIterationType) : Rep S :=
  let rep := set_method rep m in
  init rep m iterationType.

(** [void initializeIntegrationParameters()] *)
Definition initializeIntegrationParameters rep : Rep S :=
  let u := user rep in
  let rep :=
    if negb (Reqb (userInitStepSize u) (Finite (-1)))
    then send rep (setInitStep (userInitStepSize u)) else rep in
  let rep :=
    if negb (Reqb (userMinStepSize u) (Finite (-1)))
    then send rep (setMinStep (userMinStepSize u)) else rep in
  let rep :=
    if negb (Reqb (userMaxStepSize u) (Finite (-1)))
    then send rep (setMaxStep (userMaxStepSize u)) else rep in
  let rep :=
    if negb (Reqb (userFinalTime (core rep)) (Finite (-1)))
    then send rep (setStopTime (userFinalTime (core rep))) else rep in
  let rep :=
    if negb (userInternalStepLimit u =? -1)
    then send rep (setMaxNumSteps (userInternalStepLimit u)) else rep in
  if negb (userProjectEveryStep u =? -1) then
    if userProjectEveryStep u =? 1 then send rep (setProjFrequency 1) else rep
  else rep.

(** [void reconstructForNewModel()] *)
Definition reconstructForNewModel rep : Rep S :=
  let rep := set_initialized rep false in
  with_cpodes rep (cps_new (setup senv) ExplicitODE BDF Newton)
    (newCPodes ExplicitODE BDF Newton).

(** [void methodInitialize(const State& state)]: how it ends, [None] for a
    normal return, and the object it leaves. *)
Definition methodInitialize rep (state : State)
  : option SetupException * Rep S :=
  let rep :=
    if stage_ltb (getSystemStage senv state) StageModel
    then reconstructForNewModel rep else rep in
  let rep := initializeIntegrationParameters rep in
  let rep := set_initialized rep true in
  let rep := set_core rep (set_pendingReturnCode (core rep) (-1)) in
  let rep := set_core rep (set_previousStartTime (core rep) (Finite 0)) in
  match realize (system env) state StageVelocity with
  | Threw => (Some SystemException, rep)
  | Val c =>
      let state := withCache state c in
      let ny := length (getY state) in
      let nc := getNYErr senv state in
      let ydot := repeat 0%Q ny in
      match fst (explicitODE env (core rep) (getTime state) (getY state) ydot) with
      | Threw => (Some SystemException, rep)
      | Val (code, ydot) =>
          if negb (code =? Success (codes env)) then
            (Some (InitializationFailed FailedToCalculateYdot), rep)
          else
            let '(retval, solver') :=
              cps_init (setup senv) (cpodes (core rep))
                (advancedState (core rep)) (getTime state) (getY state) ydot
                (relTol (user rep)) (absTol (user rep)) in
            let rep :=
              with_cpodes rep solver'
                (initCPodes (getTime state) (getY state) ydot
                   (relTol (user rep)) (absTol (user rep))) in
            if negb (retval =? Success (codes env)) then
              (Some (InitializationFailed InitFailed), rep)
            else
              let rep := send rep (lapackDense ny) in
              let rep := send rep (setNonlinConvCoef (1 # 100)) in
              let rep :=
                if useCpodesProjection rep then
                  let rep :=
                    send rep
                      (projInit (accuracyInUse (user rep))
                         (constraintWeightsInUse (user rep))) in
                  send rep (lapackDenseProj nc ny)
                else send rep projDefine in
              let rep := send rep (rootInit (getNEvents state)) in
              (None, rep)
      end
  end.


(** [void setUseCPodesProjection()]: [SimTK_APIARGCHECK_ALWAYS] throws
    unless its condition, [!initialized], holds. *)
Definition setUseCPodesProjection rep : option SetupException * Rep S :=
  if negb (initialized rep) then (None, set_useCpodesProjection rep true)
  else (Some ApiArgcheckFailed, rep).

(** [const char* getMethodName() const] *)
Definition getMethodName rep : string :=
  match method rep with
  | BDF => "CPodesBDF"%string
  | Adams => "CPodesAdams"%string
  end.

(** [int getMethodMinOrder() const] *)
Definition getMethodMinOrder rep : Z := 1.

(** [int getMethodMaxOrder() const] *)
Definition getMethodMaxOrder rep : Z :=
  match method rep with
  | BDF => 5
  | Adams => 12
  end.

(** [bool methodHasErrorControl() const] *)
Definition methodHasErrorControl rep : bool := true.

(** The step modes that make the solver stop at its stop time. *)
Definition isTstopMode (mode : StepMode) : bool :=
  match mode with
  | NormalTstop | OneStepTstop => true
  | Normal | OneStep => false
  end.

(** Every member but the solver object is the same in [rep'] as in [rep]. *)
Definition sameButSolver rep rep' : Prop :=
  advancedState (core rep') = advancedState (core rep)
  /\ interpolatedState (core rep') = interpolatedState (core rep)
  /\ useInterpolatedState (core rep') = useInterpolatedState (core rep)
  /\ startOfContinuousInterval (core rep') = startOfContinuousInterval (core rep)
  /\ pendingReturnCode (core rep') = pendingReturnCode (core rep)
  /\ previousStartTime (core rep') = previousStartTime (core rep)
  /\ savedY (core rep') = savedY (core rep)
  /\ userFinalTime (core rep') = userFinalTime (core rep)
  /\ userReturnEveryInternalStep (core rep')
     = userReturnEveryInternalStep (core rep)
  /\ stepCalls (core rep') = stepCalls (core rep)
  /\ initialized rep' = initialized rep
  /\ useCpodesProjection rep' = useCpodesProjection rep
  /\ method rep' = method rep
  /\ user rep' = user rep
  /\ previousTimeReturned (core rep') = previousTimeReturned (core rep)
  /\ constraintToleranceInUse (core rep') = constraintToleranceInUse (core rep)
  /\ stepCommunicationStatus (core rep') = stepCommunicationStatus (core rep)
  /\ terminationReason (core rep') = terminationReason (core rep)
  /\ triggeredEvents (core rep') = triggeredEvents (core rep).

End Lifecycle.

(* ------------------------------------------------------------------ *)
(** ** More concrete runs *)

Module Runs.
Import Scenario.

(** Per-step notification on: one internal step to 1/2, report time 1. *)
Definition everyStepInteg : IntegRep Script :=
  integ0 0 [1%Q] 0 1 false (mkScript [(0, 1 # 2, [5%Q])] []).

(** Two internal steps, to 1/2 and to 1, with no notification in between. *)
Definition twoStepInteg : IntegRep Script :=
  integ0 0 [1%Q] 0 0 false
    (mkScript [(0, 1 # 2, [5%Q]); (0, 1%Q, [6%Q])] []).

(** The solver reaches its stop time 1 where the report time is. *)
Definition stopAtReportInteg : IntegRep Script :=
  integ0 0 [1%Q] 0 0 false (mkScript [(1, 1%Q, [5%Q])] []).

(** A user stop time of 10. *)
Definition finalTimeInteg : IntegRep Script :=
  mkInteg (state0 0 [1%Q] 0) (state0 0 [1%Q] 0) false false (-1)
    (Finite 0) (Finite 0) [] (mkScript [] []) (Finite 10) 0
    (Finite (1 # 1000)) InvalidStepCommunicationStatus None None [].

(** A pending report at 1 with a vector of two components. *)
Definition pendingInteg : IntegRep Script :=
  mkInteg (state0 1 [5%Q; 7%Q] 0) (state0 1 [5%Q; 7%Q] 0) false false 0
    (Finite 0) (Finite 1) [] (mkScript [(0, 2%Q, [6%Q; 8%Q])] [])
    (Finite (-1)) 0 (Finite (1 # 1000)) StepHasBeenReturnedNoEvent None None
    [(Finite 1, Normal)].

(** A system that realizes every stage but Acceleration. *)
Definition noAccelerationSystem : System :=
  mkSystem
    (fun s g =>
       match g with
       | StageAcceleration => Threw
       | _ => Val (derivs s)
       end)
    (fun s => Val (map (fun _ => 1%Q) (sY s)))
    (fun s => Val [])
    (fun s tol w u err => Val (s, err))
    (fun s tol w u err => err).

Definition noAccelerationEnv : Env Script :=
  mkEnv cpodesCodes noAccelerationSystem scriptedSolver derivs
    (fun _ ids => ids) vsub.

(** A solver set-up that accepts everything, on states at Stage::Model. *)
Definition scriptedSetup : CPodesSetup Script :=
  mkCPodesSetup (fun _ _ _ => mkScript [] []) (fun s _ => s)
    (fun s _ _ _ _ _ _ => (0, s)) (fun s _ _ _ _ _ _ => s).

Definition scenarioSetup : SetupEnv Script :=
  mkSetupEnv scriptedSetup (fun _ => StageModel) (fun _ => 0%nat).

(** Nothing set by the user. *)
Definition userUnset : UserSettings :=
  mkUserSettings (Finite (-1)) (Finite (-1)) (Finite (-1)) (-1) (-1)
    (Finite (1 # 1000)) (Finite (1 # 1000)) (1 # 1000) [].

Definition rep0 (c : IntegRep Script) : Rep Script :=
  mkRep c false false BDF userUnset [].

End Runs.

(* ------------------------------------------------------------------ *)
(** ** The order on Real *)

Lemma Qle_bool_false (x y : Q) : Qle_bool x y = false <-> (y < x)%Q.
Proof.
  split; intro H.
  - apply Qnot_le_lt. intro L. apply Qle_bool_iff in L. congruence.
  - destruct (Qle_bool x y) eqn:E; [|reflexivity].
    apply Qle_bool_iff in E. lra.
Qed.

Ltac real_order :=
  unfold Rlt, Rle, Rltb, Reqb in *;
  repeat match goal with r : Real |- _ => destruct r end;
  simpl in *;
  rewrite ?negb_true_iff, ?negb_false_iff in *;
  repeat match goal with
    | H : Qle_bool _ _ = true |- _ => apply Qle_bool_iff in H
    | H : Qle_bool _ _ = false |- _ => apply Qle_bool_false in H
    | |- Qle_bool _ _ = true => apply Qle_bool_iff
    | |- Qle_bool _ _ = false => apply Qle_bool_false
    end;
  try congruence; try lra.

Lemma Rle_refl (a : Real) : Rle a a.
Proof. real_order. Qed.

Lemma Rle_trans (a b c : Real) : Rle a b -> Rle b c -> Rle a c.
Proof. intros; real_order. Qed.

Lemma Rlt_le (a b : Real) : Rlt a b -> Rle a b.
Proof. intros; real_order. Qed.

Lemma Rlt_le_trans (a b c : Real) : Rlt a b -> Rle b c -> Rlt a c.
Proof. intros; real_order. Qed.

Lemma Rle_lt_trans (a b c : Real) : Rle a b -> Rlt b c -> Rlt a c.
Proof. intros; real_order. Qed.

Lemma Rleb_false_lt (a b : Real) : Rleb a b = false -> Rlt b a.
Proof. intros; real_order. Qed.

Lemma Rltb_false_le (a b : Real) : Rltb a b = false -> Rle b a.
Proof. intros; real_order. Qed.

Lemma Rlt_irrefl (a : Real) : ~ Rlt a a.
Proof. intro; real_order. Qed.

(** [std::min] returns one of its arguments and is below both. *)
Lemma Rmin_cases (a b : Real) :
  (Rmin a b = a /\ Rle a b) \/ (Rmin a b = b /\ Rlt b a).
Proof.
  unfold Rmin. destruct (Rltb b a) eqn:E.
  - right. split; [reflexivity | exact E].
  - left. split; [reflexivity | now apply Rltb_false_le].
Qed.

Lemma filled_length (n : nat) (v : Vector) : length (filled n v) = n.
Proof.
  unfold filled. rewrite length_app, length_firstn, repeat_length. lia.
Qed.

(* ------------------------------------------------------------------ *)
(** ** The State Bridge callbacks *)

Section Callbacks.
Context {S : Type}.
Variable env : Env S.
Implicit Type integ : IntegRep S.

(** The local State a callback works on. *)
Local Abbreviation localState integ t y :=
  (updTime (updY (advancedState integ) y) t).






Lemma project_try_projection_throws integ advanced err c w u :
  realize (system env) advanced StagePosition = Val c ->
  calcYUnitWeights (system env) (withCache advanced c) = Val w ->
  calcYErrUnitTolerances (system env) (withCache advanced c) = Val u ->
  sys_project (system env) (withCache advanced c)
    (getConstraintToleranceInUse integ) w u err = Threw ->
  project_try env integ advanced err = Threw.
Proof.
  unfold project_try. intros -> Hw Hu Hp. simpl.
  rewrite Hw. simpl. rewrite Hu. simpl. exact Hp.
Qed.


(** C4.  Callback frame property.  Each of the four callbacks works on a
    copy of the Advanced State: whatever (t, y) it is given and whether it
    returns Success or RecoverableError, the integrator object, and so the
    time and the continuous-state vector of its Advanced State, is the same
    after the callback as before. *)
Theorem callbacks_leave_advanced_state integ t y out yp epsProj err :
  let after_ode := snd (explicitODE env integ t y out) in
  let after_con := snd (constraint env integ t y out) in
  let after_prj := snd (project env integ t y out epsProj err) in
  let after_rt := snd (root env integ t y yp out) in
  (after_ode = integ /\ after_con = integ /\ after_prj = integ
   /\ after_rt = integ)
  /\ (sTime (advancedState after_ode) = sTime (advancedState integ)
      /\ sY (advancedState after_ode) = sY (advancedState integ))
  /\ (sTime (advancedState after_con) = sTime (advancedState integ)
      /\ sY (advancedState after_con) = sY (advancedState integ))
  /\ (sTime (advancedState after_prj) = sTime (advancedState integ)
      /\ sY (advancedState after_prj) = sY (advancedState integ))
  /\ (sTime (advancedState after_rt) = sTime (advancedState integ)
      /\ sY (advancedState after_rt) = sY (advancedState integ)).
Proof.
  intros after_ode after_con after_prj after_rt.
  assert (E1 : after_ode = integ).
  { subst after_ode. unfold explicitODE.
    destruct (realize (system env) _ StageAcceleration); reflexivity. }
  assert (E2 : after_con = integ).
  { subst after_con. unfold constraint.
    destruct (realize (system env) _ StageVelocity); reflexivity. }
  assert (E3 : after_prj = integ).
  { subst after_prj. unfold project.
    destruct (project_try env integ _ err) as [|[a e]]; reflexivity. }
  assert (E4 : after_rt = integ).
  { subst after_rt. unfold root.
    destruct (realize (system env) _ StageAcceleration); reflexivity. }
  rewrite E1, E2, E3, E4. repeat split.
Qed.

End Callbacks.

(* ------------------------------------------------------------------ *)
(** ** The stepping loop *)

Section Controller.
Context {S : Type}.
Variable env : Env S.
Implicit Type integ s : IntegRep S.

Ltac split_ifs :=
  repeat match goal with
    | |- context [if ?b then _ else _] => destruct b eqn:?
    end.

(** *** The loop and its turns *)

Lemma stepLoop_resume n m s s1 reportTime eventTime tMax mode :
  stepLoop env n s reportTime eventTime tMax mode = (None, s1) ->
  stepLoop env (n + m) s reportTime eventTime tMax mode
  = stepLoop env m s1 reportTime eventTime tMax mode.
Proof.
  revert s. induction n as [|n IH]; intros s H; simpl in *.
  - now inversion H.
  - destruct (turn env s reportTime eventTime tMax mode) as [o s'|s'].
    + discriminate.
    + now apply IH.
Qed.

Lemma stepTo_running n integ reportTime scheduledEventTime s :
  stepTo env n integ reportTime scheduledEventTime = (None, s) ->
  startOfContinuousInterval integ = false
  /\ stepLoop env n integ reportTime (eventTimeInUse scheduledEventTime)
       (ceiling reportTime scheduledEventTime) (stepMode integ) = (None, s).
Proof.
  unfold stepTo, ceiling.
  destruct (startOfContinuousInterval integ); [discriminate | auto].
Qed.

(** After [n] turns that did not return, the call is at [s]; its next turn
    decides. *)
Lemma stepTo_turn n m integ reportTime scheduledEventTime s :
  stepTo env n integ reportTime scheduledEventTime = (None, s) ->
  stepTo env (n + Datatypes.S m) integ reportTime scheduledEventTime
  = match turn env s reportTime (eventTimeInUse scheduledEventTime)
            (ceiling reportTime scheduledEventTime) (stepMode integ) with
    | Done o s' => (Some o, s')
    | Again s' =>
        stepLoop env m s' reportTime (eventTimeInUse scheduledEventTime)
          (ceiling reportTime scheduledEventTime) (stepMode integ)
    end.
Proof.
  intros H. destruct (stepTo_running _ _ _ _ _ H) as [F L].
  unfold stepTo. rewrite F. fold (ceiling reportTime scheduledEventTime).
  rewrite (stepLoop_resume _ (Datatypes.S m) _ _ _ _ _ _ L). reflexivity.
Qed.

Lemma turn_unfold s reportTime eventTime tMax mode res tret s1 :
  obtainResult env s tMax mode = (res, tret, s1) ->
  turn env s reportTime eventTime tMax mode
  = decide env s1 reportTime eventTime tMax res tret.
Proof. unfold turn. intros ->. reflexivity. Qed.

(** *** What obtaining a result does *)

Lemma obtainResult_fresh s tMax mode :
  pendingReturnCode s = -1 ->
  let out := cp_step (solver env) (cpodes s) (advancedState s) tMax mode in
  exists s1,
    obtainResult env s tMax mode = (so_res out, so_tret out, s1)
    /\ stepCalls s1 = (tMax, mode) :: stepCalls s
    /\ cpodes s1 = so_next out
    /\ previousStartTime s1 = getAdvancedTime s
    /\ sY (advancedState s1) = filled (length (sY (advancedState s))) (so_yout out).
Proof.
  intros P out. unfold obtainResult. rewrite P. simpl.
  eexists. split; [reflexivity|]. simpl. auto.
Qed.

Lemma obtainResult_pending s tMax mode :
  pendingReturnCode s <> -1 ->
  exists s1,
    obtainResult env s tMax mode
    = (pendingReturnCode s, previousTimeReturned s, s1)
    /\ stepCalls s1 = stepCalls s
    /\ cpodes s1 = cpodes s
    /\ previousStartTime s1 = previousStartTime s
    /\ sY (advancedState s1)
       = if (0 <? length (savedY s))%nat then savedY s
         else sY (advancedState s).
Proof.
  intros P. unfold obtainResult.
  destruct (pendingReturnCode s =? -1) eqn:E; [apply Z.eqb_eq in E; congruence|].
  destruct (0 <? length (savedY s))%nat; simpl;
    (eexists; split; [reflexivity|]; simpl; auto).
Qed.

(** Whichever way the result is obtained, it is committed to the Advanced
    State and no result is pending any more. *)
Lemma obtainResult_commits s tMax mode res tret s1 :
  obtainResult env s tMax mode = (res, tret, s1) ->
  sTime (advancedState s1) = tret
  /\ previousTimeReturned s1 = tret
  /\ pendingReturnCode s1 = -1
  /\ useInterpolatedState s1 = useInterpolatedState s
  /\ interpolatedState s1 = interpolatedState s
  /\ startOfContinuousInterval s1 = startOfContinuousInterval s
  /\ userReturnEveryInternalStep s1 = userReturnEveryInternalStep s
  /\ userFinalTime s1 = userFinalTime s
  /\ savedY s1 = savedY s.
Proof.
  unfold obtainResult.
  destruct (pendingReturnCode s =? -1) eqn:P;
    [| destruct (0 <? length (savedY s))%nat ];
    intros H; inversion H; subst; simpl; repeat split; try reflexivity.
  now apply Z.eqb_eq in P.
Qed.

(** *** What deciding leaves alone *)

Lemma decide_frame s reportTime eventTime tMax res tret :
  let s' := turnState (decide env s reportTime eventTime tMax res tret) in
  stepCalls s' = stepCalls s
  /\ cpodes s' = cpodes s
  /\ previousTimeReturned s' = previousTimeReturned s
  /\ previousStartTime s' = previousStartTime s
  /\ startOfContinuousInterval s' = startOfContinuousInterval s
  /\ userReturnEveryInternalStep s' = userReturnEveryInternalStep s
  /\ userFinalTime s' = userFinalTime s.
Proof.
  unfold decide, overshootCheck, backUpToEvent, reportTriggers.
  split_ifs; simpl; repeat split; reflexivity.
Qed.

Lemma stepMode_frame s s' :
  userReturnEveryInternalStep s' = userReturnEveryInternalStep s ->
  userFinalTime s' = userFinalTime s ->
  stepMode s' = stepMode s.
Proof. unfold stepMode. intros -> ->. reflexivity. Qed.

(** A turn only ever adds solver calls. *)
Lemma turn_stepCalls s reportTime eventTime tMax mode :
  exists l,
    stepCalls (turnState (turn env s reportTime eventTime tMax mode))
    = l ++ stepCalls s.
Proof.
  unfold turn.
  destruct (obtainResult env s tMax mode) as [[res tret] s1] eqn:E.
  destruct (decide_frame s1 reportTime eventTime tMax res tret) as (C & _).
  rewrite C.
  destruct (Z.eq_dec (pendingReturnCode s) (-1)) as [P|P].
  - destruct (obtainResult_fresh s tMax mode P) as (s1' & E' & L & _).
    rewrite E in E'. inversion E'; subst.
    exists [(tMax, mode)]. exact L.
  - destruct (obtainResult_pending s tMax mode P) as (s1' & E' & L & _).
    rewrite E in E'. inversion E'; subst.
    exists []. exact L.
Qed.

Lemma stepLoop_stepCalls fuel s reportTime eventTime tMax mode :
  exists l,
    stepCalls (snd (stepLoop env fuel s reportTime eventTime tMax mode))
    = l ++ stepCalls s.
Proof.
  revert s. induction fuel as [|fuel IH]; intros s; simpl.
  - now exists [].
  - destruct (turn_stepCalls s reportTime eventTime tMax mode) as [l1 H1].
    destruct (turn env s reportTime eventTime tMax mode) as [o s'|s'];
      simpl in *.
    + now exists l1.
    + destruct (IH s') as [l2 H2]. exists (l2 ++ l1).
      rewrite H2, H1. now rewrite app_assoc.
Qed.

(** When a fresh solver call is due, the next turn of the loop steps the
    solver toward the ceiling. *)
Lemma fresh_turn_steps_solver fuel s reportTime eventTime tMax mode :
  pendingReturnCode s = -1 ->
  exists l,
    stepCalls (snd (stepLoop env (Datatypes.S fuel) s reportTime eventTime
                      tMax mode))
    = l ++ (tMax, mode) :: stepCalls s.
Proof.
  intros P. cbn [stepLoop].
  destruct (obtainResult_fresh s tMax mode P) as (s1 & E1 & L & _).
  rewrite (turn_unfold _ reportTime eventTime _ _ _ _ _ E1).
  destruct (decide_frame s1 reportTime eventTime tMax
              (so_res (cp_step (solver env) (cpodes s) (advancedState s)
                         tMax mode))
              (so_tret (cp_step (solver env) (cpodes s) (advancedState s)
                          tMax mode)))
    as (C & _).
  destruct (decide env s1 reportTime eventTime tMax _ _) as [o s'|s'];
    simpl in *.
  - exists []. simpl. now rewrite C, L.
  - destruct (stepLoop_stepCalls fuel s' reportTime eventTime tMax mode)
      as [l H].
    exists l. now rewrite H, C, L.
Qed.


(** *** C6 *)

(** C6.  Start-of-interval law.  A call of stepTo made while
    startOfContinuousInterval is set returns StartOfContinuousInterval at
    once, whatever the number of turns allowed; it clears the flag and
    changes nothing else: the solver is not invoked, and the Advanced State
    and the Interpolated State are the ones before the call. *)
Theorem start_of_interval_law fuel integ reportTime scheduledEventTime :
  startOfContinuousInterval integ = true ->
  let r := stepTo env fuel integ reportTime scheduledEventTime in
  fst r = Some (Returned StartOfContinuousInterval)
  /\ snd r = set_startOfContinuousInterval integ false
  /\ startOfContinuousInterval (snd r) = false
  /\ stepCalls (snd r) = stepCalls integ
  /\ cpodes (snd r) = cpodes integ
  /\ advancedState (snd r) = advancedState integ
  /\ interpolatedState (snd r) = interpolatedState integ
  /\ useInterpolatedState (snd r) = useInterpolatedState integ
  /\ pendingReturnCode (snd r) = pendingReturnCode integ
  /\ savedY (snd r) = savedY integ.
Proof.
  intros F. unfold stepTo. rewrite F. simpl. repeat split.
Qed.

(** *** What the loop leaves alone *)

Lemma turn_frame s reportTime eventTime tMax mode :
  let s' := turnState (turn env s reportTime eventTime tMax mode) in
  startOfContinuousInterval s' = startOfContinuousInterval s
  /\ userReturnEveryInternalStep s' = userReturnEveryInternalStep s
  /\ userFinalTime s' = userFinalTime s.
Proof.
  unfold turn.
  destruct (obtainResult env s tMax mode) as [[res tret] s1] eqn:E.
  destruct (obtainResult_commits _ _ _ _ _ _ E)
    as (_ & _ & _ & _ & _ & F & U & T & _).
  destruct (decide_frame s1 reportTime eventTime tMax res tret)
    as (_ & _ & _ & _ & F' & U' & T').
  simpl. rewrite F', U', T'. auto.
Qed.

Lemma stepLoop_frame fuel s reportTime eventTime tMax mode :
  let s' := snd (stepLoop env fuel s reportTime eventTime tMax mode) in
  startOfContinuousInterval s' = startOfContinuousInterval s
  /\ userReturnEveryInternalStep s' = userReturnEveryInternalStep s
  /\ userFinalTime s' = userFinalTime s.
Proof.
  revert s. induction fuel as [|fuel IH]; intros s; simpl; [auto|].
  pose proof (turn_frame s reportTime eventTime tMax mode) as H.
  destruct (turn env s reportTime eventTime tMax mode) as [o s'|s'];
    simpl in *; [exact H|].
  destruct H as (F & U & T). destruct (IH s') as (F' & U' & T').
  rewrite F', U', T'. auto.
Qed.

Lemma running_frame n integ reportTime scheduledEventTime s :
  stepTo env n integ reportTime scheduledEventTime = (None, s) ->
  startOfContinuousInterval s = false
  /\ userReturnEveryInternalStep s = userReturnEveryInternalStep integ
  /\ stepMode s = stepMode integ.
Proof.
  intros H. destruct (stepTo_running _ _ _ _ _ H) as [F L].
  pose proof (stepLoop_frame n integ reportTime
                (eventTimeInUse scheduledEventTime)
                (ceiling reportTime scheduledEventTime) (stepMode integ)) as R.
  rewrite L in R. simpl in R. destruct R as (F' & U & T).
  repeat split; [congruence | exact U | now apply stepMode_frame].
Qed.


(** *** The error checks (lines 265-277) *)

Lemma decide_step_limit s1 reportTime eventTime tMax res tret :
  res = TooMuchWork (codes env) ->
  decide env s1 reportTime eventTime tMax res tret
  = Done (Returned ReachedStepLimit)
      (setStepCommunicationStatus s1 StepHasBeenReturnedNoEvent).
Proof. intros ->. unfold decide. now rewrite Z.eqb_refl. Qed.

Lemma decide_failure s1 reportTime eventTime tMax res tret :
  res <> TooMuchWork (codes env) -> res < 0 ->
  decide env s1 reportTime eventTime tMax res tret
  = Done (StepFailed (getTime (getAdvancedState s1))) s1.
Proof.
  intros N L. unfold decide.
  apply Z.eqb_neq in N. apply Z.ltb_lt in L. now rewrite N, L.
Qed.

(** *** The overshoot check (lines 281-287) *)

Lemma overshootCheck_flag s1 tMax tret :
  useInterpolatedState (overshootCheck env s1 tMax tret) = Rltb tMax tret.
Proof. unfold overshootCheck. destruct (Rltb tMax tret); reflexivity. Qed.

Lemma overshootCheck_interpolates s1 tMax tret :
  Rltb tMax tret = true ->
  let i := interpolatedState (overshootCheck env s1 tMax tret) in
  sTime i = tMax
  /\ sY i = filled (length (sY (advancedState s1)))
              (cp_getDky (solver env) (cpodes s1) tMax 0)
  /\ sDiscrete i = sDiscrete (advancedState s1)
  /\ sNEvents i = sNEvents (advancedState s1).
Proof.
  intros H. unfold overshootCheck. rewrite H. simpl. repeat split.
Qed.


Lemma overshootCheck_frame s1 tMax tret :
  let c := overshootCheck env s1 tMax tret in
  advancedState c = advancedState s1
  /\ pendingReturnCode c = pendingReturnCode s1
  /\ previousTimeReturned c = previousTimeReturned s1
  /\ previousStartTime c = previousStartTime s1
  /\ savedY c = savedY s1
  /\ cpodes c = cpodes s1
  /\ startOfContinuousInterval c = startOfContinuousInterval s1
  /\ userReturnEveryInternalStep c = userReturnEveryInternalStep s1.
Proof.
  unfold overshootCheck. destruct (Rltb tMax tret); simpl; repeat split.
Qed.

(** Once the error checks are passed, the turn carries the flag and the
    Interpolated State of the overshoot check to its end. *)
Lemma decide_keeps_interpolation s1 reportTime eventTime tMax res tret :
  res <> TooMuchWork (codes env) -> 0 <= res ->
  let s' := turnState (decide env s1 reportTime eventTime tMax res tret) in
  useInterpolatedState s' = Rltb tMax tret
  /\ interpolatedState s'
     = interpolatedState (overshootCheck env s1 tMax tret).
Proof.
  intros N L. unfold decide.
  apply Z.eqb_neq in N. rewrite N.
  assert (L' : (res <? 0) = false) by (apply Z.ltb_ge; exact L). rewrite L'.
  rewrite <- (overshootCheck_flag s1 tMax tret).
  generalize (overshootCheck env s1 tMax tret). intros c.
  unfold backUpToEvent, reportTriggers.
  split_ifs; simpl; split; reflexivity.
Qed.

(** *** The report and event matches (lines 291-316) *)

Lemma decide_report s1 reportTime eventTime tMax res tret :
  res <> TooMuchWork (codes env) -> 0 <= res ->
  Rle reportTime tret -> Rle reportTime eventTime ->
  decide env s1 reportTime eventTime tMax res tret
  = Done (Returned ReachedReportTime)
      (setStepCommunicationStatus
         (set_pendingReturnCode
            (set_savedY (overshootCheck env s1 tMax tret) []) res)
         StepHasBeenReturnedNoEvent).
Proof.
  intros N L A B. unfold decide.
  apply Z.eqb_neq in N. rewrite N.
  assert (L' : (res <? 0) = false) by (apply Z.ltb_ge; exact L). rewrite L'.
  unfold Rle in A, B. rewrite A, B. reflexivity.
Qed.

Lemma decide_event s1 reportTime eventTime tMax res tret :
  res <> TooMuchWork (codes env) -> 0 <= res ->
  Rleb reportTime tret && Rleb reportTime eventTime = false ->
  Rle eventTime tret ->
  decide env s1 reportTime eventTime tMax res tret
  = Done (Returned ReachedScheduledEvent)
      (setStepCommunicationStatus
         (set_pendingReturnCode
            (if Rltb eventTime tret
             then backUpToEvent env (overshootCheck env s1 tMax tret) eventTime
             else overshootCheck env s1 tMax tret) res)
         StepHasBeenReturnedWithEvent).
Proof.
  intros N L A B. unfold decide.
  apply Z.eqb_neq in N. rewrite N.
  assert (L' : (res <? 0) = false) by (apply Z.ltb_ge; exact L). rewrite L'.
  unfold Rle in B. rewrite A, B. reflexivity.
Qed.



(** *** Event triggers (lines 325-347) *)







(** *** Backing up to a scheduled event (lines 300-316) *)

Lemma decide_scheduled_event s1 reportTime eventTime tMax res tret s' :
  decide env s1 reportTime eventTime tMax res tret
  = Done (Returned ReachedScheduledEvent) s' ->
  res <> TooMuchWork (codes env) /\ 0 <= res
  /\ Rleb reportTime tret && Rleb reportTime eventTime = false
  /\ Rle eventTime tret
  /\ s' = setStepCommunicationStatus
            (set_pendingReturnCode
               (if Rltb eventTime tret
                then backUpToEvent env (overshootCheck env s1 tMax tret)
                       eventTime
                else overshootCheck env s1 tMax tret) res)
            StepHasBeenReturnedWithEvent.
Proof.
  unfold decide.
  destruct (res =? TooMuchWork (codes env)) eqn:N; [discriminate|].
  destruct (res <? 0) eqn:L; [discriminate|].
  destruct (Rleb reportTime tret && Rleb reportTime eventTime) eqn:A;
    [discriminate|].
  destruct (Rleb eventTime tret) eqn:B.
  - intros H. inversion H.
    apply Z.eqb_neq in N. apply Z.ltb_ge in L. auto.
  - split_ifs; discriminate.
Qed.

(** When the event match is taken with an overshoot, the ceiling is the
    event time. *)
Lemma ceiling_is_event_time reportTime eventTime tret :
  Rleb reportTime tret && Rleb reportTime eventTime = false ->
  Rlt eventTime tret ->
  Rmin reportTime eventTime = eventTime.
Proof.
  intros A B. destruct (Rmin_cases reportTime eventTime) as [[_ C]|[C _]];
    [|exact C].
  unfold Rle in C. rewrite C, andb_true_r in A.
  apply Rleb_false_lt in A. exfalso. real_order.
Qed.

Lemma decide_every_step s1 reportTime eventTime tMax res tret :
  userReturnEveryInternalStep s1 = 1 ->
  exists o s', decide env s1 reportTime eventTime tMax res tret = Done o s'.
Proof.
  intros U. unfold decide, overshootCheck.
  split_ifs; try (eexists; eexists; reflexivity);
    simpl in *; rewrite U in *; discriminate.
Qed.

Lemma overshootCheck_stepCalls s1 tMax tret :
  stepCalls (overshootCheck env s1 tMax tret) = stepCalls s1.
Proof. unfold overshootCheck. destruct (Rltb tMax tret); reflexivity. Qed.

(** A turn returns when [turnReturns] says so. *)
Lemma decide_returns s1 reportTime eventTime tMax res tret :
  turnReturns env s1 res tret reportTime eventTime = true ->
  exists o s', decide env s1 reportTime eventTime tMax res tret = Done o s'.
Proof.
  unfold turnReturns. intros H.
  destruct (overshootCheck_frame s1 tMax tret)
    as (_ & _ & _ & _ & _ & _ & _ & F8).
  unfold decide. rewrite F8.
  destruct (res =? TooMuchWork (codes env)); [eauto|].
  destruct (res <? 0); [eauto|].
  destruct (Rleb reportTime tret && Rleb reportTime eventTime); [eauto|].
  destruct (Rleb eventTime tret); [eauto|].
  destruct (res =? TstopReturn (codes env)); [eauto|].
  destruct (res =? RootReturn (codes env)); [eauto|].
  destruct (userReturnEveryInternalStep s1 =? 1); [eauto|].
  discriminate H.
Qed.

(** A result that has passed the error checks makes the loop go round
    again when [turnReturns] says no. *)
Lemma decide_continues s1 reportTime eventTime tMax res tret :
  res <> TooMuchWork (codes env) -> 0 <= res ->
  turnReturns env s1 res tret reportTime eventTime = false ->
  decide env s1 reportTime eventTime tMax res tret
  = Again (overshootCheck env s1 tMax tret).
Proof.
  unfold turnReturns. intros N L H.
  repeat (apply orb_false_iff in H; destruct H as [H ?]).
  destruct (overshootCheck_frame s1 tMax tret)
    as (_ & _ & _ & _ & _ & _ & _ & F8).
  unfold decide. rewrite F8.
  apply Z.eqb_neq in N. rewrite N.
  assert (L' : (res <? 0) = false) by (apply Z.ltb_ge; exact L). rewrite L'.
  repeat match goal with E : _ = false |- _ => rewrite E; clear E end.
  reflexivity.
Qed.

(** C2 (amended).  Overshoot rewind and resumption.  When the turn
    number [n + 1] of a call returns ReachedScheduledEvent with the
    solver's returned time beyond the event time: the Advanced State's time
    is the event time and its vector is the Interpolated State's, which is
    the solver's dense output at the event time; savedY is the overshot
    vector, pendingReturnCode the raw result.  The next call starts by
    resuming: its first turn does not invoke the solver, puts the saved
    vector back into the Advanced State and reuses the saved returned time
    and result.  The next call returns from that turn, and so does not
    invoke the solver at all, when the resumed returned time reaches its
    report time (the report time being the nearer boundary) or its event
    time, when the resumed result is TstopReturn or RootReturn, and when
    userReturnEveryInternalStep == 1; in every other case the loop goes
    round again and the same call steps the solver toward its ceiling. *)
Theorem overshoot_rewind n integ reportTime scheduledEventTime s res tret s1 s' :
  stepTo env n integ reportTime scheduledEventTime = (None, s) ->
  obtainResult env s (ceiling reportTime scheduledEventTime) (stepMode integ)
  = (res, tret, s1) ->
  stepTo env (n + 1) integ reportTime scheduledEventTime
  = (Some (Returned ReachedScheduledEvent), s') ->
  Rlt (eventTimeInUse scheduledEventTime) tret ->
  let eventTime := eventTimeInUse scheduledEventTime in
  (sTime (advancedState s') = eventTime
   /\ sY (advancedState s') = sY (interpolatedState s')
   /\ sTime (interpolatedState s') = eventTime
   /\ sY (interpolatedState s')
      = filled (length (sY (advancedState s1)))
          (cp_getDky (solver env) (cpodes s1) eventTime 0)
   /\ savedY s' = sY (advancedState s1)
   /\ pendingReturnCode s' = res
   /\ previousTimeReturned s' = tret)
  /\ (forall tMax2 mode2,
        exists s2,
          obtainResult env s' tMax2 mode2 = (res, tret, s2)
          /\ stepCalls s2 = stepCalls s'
          /\ cpodes s2 = cpodes s'
          /\ sY (advancedState s2) = sY (advancedState s1)
          /\ sTime (advancedState s2) = tret)
  /\ (forall reportTime2 scheduledEventTime2,
        stepCalls (snd (stepTo env 1 s' reportTime2 scheduledEventTime2))
        = stepCalls s')
  /\ (forall fuel reportTime2 scheduledEventTime2,
        turnReturns env integ res tret reportTime2
          (eventTimeInUse scheduledEventTime2) = true ->
        let r2 := stepTo env (Datatypes.S fuel) s' reportTime2
                    scheduledEventTime2 in
        fst r2 <> None /\ stepCalls (snd r2) = stepCalls s')
  /\ (forall fuel reportTime2 scheduledEventTime2,
        turnReturns env integ res tret reportTime2
          (eventTimeInUse scheduledEventTime2) = false ->
        exists l,
          stepCalls (snd (stepTo env (Datatypes.S (Datatypes.S fuel)) s'
                            reportTime2 scheduledEventTime2))
          = l ++ (ceiling reportTime2 scheduledEventTime2, stepMode s')
                 :: stepCalls s').
Proof.
  intros Run E Ret Over eventTime.
  rewrite (stepTo_turn n 0 _ _ _ _ Run), (turn_unfold _ _ _ _ _ _ _ _ E) in Ret.
  destruct (decide env s1 _ _ _ res tret) as [o s0|s0] eqn:D;
    cbn [stepLoop] in Ret; [|discriminate].
  inversion Ret; subst o s0. clear Ret.
  destruct (decide_scheduled_event _ _ _ _ _ _ _ D) as (N & L & A & B & Es').
  fold eventTime in Es', A, B, Over.
  unfold Rlt in Over. rewrite Over in Es'.
  assert (Ec : ceiling reportTime scheduledEventTime = eventTime)
    by (apply (ceiling_is_event_time _ _ tret); assumption).
  rewrite Ec in Es'.
  destruct (overshootCheck_interpolates s1 eventTime tret Over)
    as (I1 & I2 & _).
  destruct (overshootCheck_frame s1 eventTime tret)
    as (F1 & _ & F3 & _ & _ & F6 & F7 & F8).
  destruct (obtainResult_commits _ _ _ _ _ _ E)
    as (C1 & C2 & _ & _ & _ & C6 & C7 & _).
  destruct (running_frame _ _ _ _ _ Run) as (R1 & R2 & _).
  assert (Facts : sTime (advancedState s') = eventTime
                  /\ sY (advancedState s') = sY (interpolatedState s')
                  /\ sTime (interpolatedState s') = eventTime
                  /\ sY (interpolatedState s')
                     = filled (length (sY (advancedState s1)))
                         (cp_getDky (solver env) (cpodes s1) eventTime 0)
                  /\ savedY s' = sY (advancedState s1)
                  /\ pendingReturnCode s' = res
                  /\ previousTimeReturned s' = tret
                  /\ startOfContinuousInterval s' = false
                  /\ userReturnEveryInternalStep s'
                     = userReturnEveryInternalStep integ).
  { subst s'. unfold backUpToEvent, getY, getInterpolatedState, getAdvancedState.
    simpl. rewrite F1, F3, F7, F8.
    repeat split; try assumption; try congruence. }
  destruct Facts as (T1 & T2 & T3 & T4 & T5 & T6 & T7 & T8 & T9).
  assert (P : pendingReturnCode s' <> -1) by lia.
  assert (Resume : forall tMax2 mode2,
             exists s2,
               obtainResult env s' tMax2 mode2 = (res, tret, s2)
               /\ stepCalls s2 = stepCalls s'
               /\ cpodes s2 = cpodes s'
               /\ sY (advancedState s2) = sY (advancedState s1)
               /\ sTime (advancedState s2) = tret).
  { intros tMax2 mode2.
    destruct (obtainResult_pending s' tMax2 mode2 P) as (s2 & E2 & K1 & K2 & _ & K4).
    rewrite T6, T7 in E2. exists s2.
    destruct (obtainResult_commits _ _ _ _ _ _ E2) as (Q1 & _).
    repeat split; try assumption.
    rewrite K4, T5.
    destruct (0 <? length (sY (advancedState s1)))%nat eqn:Z; [reflexivity|].
    apply Nat.ltb_ge in Z. rewrite T2, T4.
    assert (Z0 : length (sY (advancedState s1)) = 0%nat) by lia.
    rewrite Z0. destruct (sY (advancedState s1)); [reflexivity | discriminate]. }
  split; [repeat split; assumption|].
  split; [exact Resume|].
  split; [|split].
  - intros r2 e2. unfold stepTo. rewrite T8. cbn [stepLoop].
    destruct (Resume (Rmin r2 (eventTimeInUse e2)) (stepMode s'))
      as (s2 & E2 & K1 & _).
    rewrite (turn_unfold _ _ _ _ _ _ _ _ E2).
    destruct (decide_frame s2 r2 (eventTimeInUse e2)
                (Rmin r2 (eventTimeInUse e2)) res tret) as (K & _).
    destruct (decide env s2 _ _ _ res tret); simpl in *; congruence.
  - intros fuel r2 e2 C r. subst r. unfold stepTo. rewrite T8. cbn [stepLoop].
    destruct (Resume (Rmin r2 (eventTimeInUse e2)) (stepMode s'))
      as (s2 & E2 & K1 & _).
    rewrite (turn_unfold _ _ _ _ _ _ _ _ E2).
    destruct (obtainResult_commits _ _ _ _ _ _ E2)
      as (_ & _ & _ & _ & _ & _ & U2 & _).
    destruct (decide_returns s2 r2 (eventTimeInUse e2)
                (Rmin r2 (eventTimeInUse e2)) res tret) as (o & s3 & D3).
    { unfold turnReturns in *. now rewrite U2, T9. }
    destruct (decide_frame s2 r2 (eventTimeInUse e2)
                (Rmin r2 (eventTimeInUse e2)) res tret) as (K & _).
    rewrite D3 in *. simpl in *. split; [discriminate | congruence].
  - intros fuel r2 e2 C. unfold stepTo. rewrite T8.
    fold (ceiling r2 e2).
    set (tMax2 := ceiling r2 e2). set (E2' := eventTimeInUse e2).
    change (stepLoop env (Datatypes.S (Datatypes.S fuel)) s' r2 E2' tMax2
              (stepMode s'))
      with (match turn env s' r2 E2' tMax2 (stepMode s') with
            | Done o i => (Some o, i)
            | Again i => stepLoop env (Datatypes.S fuel) i r2 E2' tMax2
                           (stepMode s')
            end).
    destruct (Resume tMax2 (stepMode s')) as (s2 & E2 & K1 & _).
    rewrite (turn_unfold _ _ _ _ _ _ _ _ E2).
    destruct (obtainResult_commits _ _ _ _ _ _ E2)
      as (_ & _ & P2 & _ & _ & _ & U2 & _).
    rewrite (decide_continues s2 r2 E2' tMax2 res tret N L).
    + destruct (overshootCheck_frame s2 tMax2 tret) as (_ & F2 & _).
      destruct (fresh_turn_steps_solver fuel (overshootCheck env s2 tMax2 tret)
                  r2 E2' tMax2 (stepMode s')) as [l H]; [congruence|].
      exists l. rewrite H, overshootCheck_stepCalls, K1. reflexivity.
    + unfold turnReturns in *. now rewrite U2, T9.
Qed.

(** *** Times across turns and calls *)

Lemma solverTime_fresh s :
  pendingReturnCode s = -1 -> solverTime s = sTime (advancedState s).
Proof. unfold solverTime. intros ->. reflexivity. Qed.

Lemma solverTime_pending s :
  0 <= pendingReturnCode s -> solverTime s = previousTimeReturned s.
Proof.
  unfold solverTime. intros H.
  destruct (pendingReturnCode s =? -1) eqn:E; [|reflexivity].
  apply Z.eqb_eq in E. lia.
Qed.

(** A returned time beyond the ceiling reaches the report time or the
    event time. *)
Lemma overshoot_reaches_boundary reportTime eventTime tret :
  Rltb (Rmin reportTime eventTime) tret = true ->
  Rleb reportTime tret && Rleb reportTime eventTime = true
  \/ (Rleb reportTime tret && Rleb reportTime eventTime = false
      /\ Rleb eventTime tret = true).
Proof.
  intros H.
  destruct (Rmin_cases reportTime eventTime) as [[M C]|[M C]];
    rewrite M in H.
  - left. apply Rlt_le in H. unfold Rle in *. now rewrite H, C.
  - right. split.
    + apply andb_false_iff. right. unfold Rlt, Rltb in C.
      now apply negb_true_iff in C.
    + now apply Rlt_le in H.
Qed.

Lemma obtainResult_start s tMax mode res tret s1 :
  obtainResult env s tMax mode = (res, tret, s1) ->
  previousStartTime s1 = turnStartTime s
  /\ (pendingReturnCode s <> -1 -> res = pendingReturnCode s).
Proof.
  intros E. destruct (Z.eq_dec (pendingReturnCode s) (-1)) as [P|P].
  - destruct (obtainResult_fresh s tMax mode P) as (s1' & E' & _ & _ & St & _).
    rewrite E in E'. inversion E'; subst.
    unfold turnStartTime. rewrite P. simpl. split; [exact St | contradiction].
  - destruct (obtainResult_pending s tMax mode P) as (s1' & E' & _ & _ & St & _).
    rewrite E in E'. inversion E'; subst.
    unfold turnStartTime. apply Z.eqb_neq in P. rewrite P. auto.
Qed.

(** What a turn that ends at the error checks leaves. *)
Lemma decide_error_exit s1 reportTime eventTime tMax res tret :
  res = TooMuchWork (codes env) \/ res < 0 ->
  let s' := turnState (decide env s1 reportTime eventTime tMax res tret) in
  advancedState s' = advancedState s1
  /\ pendingReturnCode s' = pendingReturnCode s1
  /\ useInterpolatedState s' = useInterpolatedState s1
  /\ interpolatedState s' = interpolatedState s1.
Proof.
  intros H. destruct (Z.eq_dec res (TooMuchWork (codes env))) as [T|T].
  - rewrite (decide_step_limit _ _ _ _ _ _ T). simpl. auto.
  - destruct H as [H|H]; [contradiction|].
    rewrite (decide_failure _ _ _ _ _ _ T H). simpl. auto.
Qed.

(** What a turn whose result passes the error checks leaves: either the
    Advanced State holds the returned time, or the turn backed up to the
    event time, which is then the ceiling. *)
Lemma decide_checked s1 reportTime eventTime res tret :
  res <> TooMuchWork (codes env) -> 0 <= res ->
  pendingReturnCode s1 = -1 ->
  sTime (advancedState s1) = tret ->
  let tMax := Rmin reportTime eventTime in
  let s' := turnState (decide env s1 reportTime eventTime tMax res tret) in
  (sTime (advancedState s') = tret
   \/ (sTime (advancedState s') = eventTime /\ tMax = eventTime
       /\ Rlt eventTime tret /\ pendingReturnCode s' = res))
  /\ (pendingReturnCode s' = -1 \/ pendingReturnCode s' = res)
  /\ (Rltb tMax tret = true -> pendingReturnCode s' = res).
Proof.
  intros N L P T tMax s'. subst s'.
  destruct (overshootCheck_frame s1 tMax tret) as (F1 & F2 & _).
  destruct (Rleb reportTime tret && Rleb reportTime eventTime) eqn:A.
  - apply andb_true_iff in A. destruct A as [A B].
    rewrite (decide_report _ _ _ _ _ _ N L A B). simpl.
    rewrite F1. auto.
  - destruct (Rleb eventTime tret) eqn:B.
    + rewrite (decide_event _ _ _ _ _ _ N L A B). simpl.
      destruct (Rltb eventTime tret) eqn:O; simpl.
      * split; [|auto]. right.
        repeat split; try reflexivity.
        -- apply (ceiling_is_event_time _ _ tret); assumption.
        -- exact O.
      * rewrite F1. auto.
    + assert (O : Rltb tMax tret = false).
      { destruct (Rltb tMax tret) eqn:O; [|reflexivity].
        destruct (overshoot_reaches_boundary _ _ _ O) as [C|[_ C]];
          congruence. }
      unfold decide. apply Z.eqb_neq in N. rewrite N.
      assert (L' : (res <? 0) = false) by (apply Z.ltb_ge; exact L).
      rewrite L', A, B. unfold reportTriggers.
      split_ifs; simpl; rewrite ?F1, ?F2;
        (split; [auto | split; [auto | intros; congruence]]).
Qed.

Lemma decide_again s1 reportTime eventTime tMax res tret s' :
  decide env s1 reportTime eventTime tMax res tret = Again s' ->
  s' = overshootCheck env s1 tMax tret
  /\ Rleb reportTime tret && Rleb reportTime eventTime = false
  /\ Rleb eventTime tret = false.
Proof.
  unfold decide. split_ifs; intros H; inversion H. auto.
Qed.

(** One turn: the times it leaves are ordered, whatever the turn started
    from, as long as an Interpolated State in use came with a result that
    had passed the error checks. *)
Lemma turn_times s reportTime eventTime mode res tret s1 :
  let tMax := Rmin reportTime eventTime in
  obtainResult env s tMax mode = (res, tret, s1) ->
  (useInterpolatedState s = true ->
   0 <= pendingReturnCode s
   /\ pendingReturnCode s <> TooMuchWork (codes env)) ->
  let s' := turnState (decide env s1 reportTime eventTime tMax res tret) in
  TimesOrdered env s'
  /\ solverTime s' = tret
  /\ previousTimeReturned s' = tret
  /\ (sTime (advancedState s') = tret
      \/ sTime (advancedState s') = eventTime)
  /\ (useInterpolatedState s' = true ->
      sTime (interpolatedState s') = tMax
      /\ Rlt tMax tret
      /\ previousStartTime s' = turnStartTime s).
Proof.
  intros tMax E Pend s'.
  destruct (obtainResult_commits _ _ _ _ _ _ E)
    as (T & PR & P & U & I & _).
  destruct (obtainResult_start _ _ _ _ _ _ E) as (St & Rs).
  destruct (decide_frame s1 reportTime eventTime tMax res tret)
    as (_ & _ & PR' & St' & _).
  fold s' in PR', St'.
  assert (Err : res = TooMuchWork (codes env) \/ res < 0
                \/ (res <> TooMuchWork (codes env) /\ 0 <= res)).
  { destruct (Z.eq_dec res (TooMuchWork (codes env))); [auto|].
    destruct (Z_lt_le_dec res 0); auto. }
  assert (Err' : (res = TooMuchWork (codes env) \/ res < 0)
                 \/ (res <> TooMuchWork (codes env) /\ 0 <= res)) by tauto.
  clear Err. destruct Err' as [Bad|[N L]].
  - destruct (decide_error_exit s1 reportTime eventTime tMax res tret Bad)
      as (A & P' & U' & I').
    fold s' in A, P', U', I'.
    assert (NoFlag : useInterpolatedState s' = true -> False).
    { intros F. rewrite U', U in F. destruct (Pend F) as [P0 P1].
      assert (R : res = pendingReturnCode s) by (apply Rs; lia).
      rewrite <- R in *. destruct Bad; [contradiction | lia]. }
    assert (ST : solverTime s' = tret).
    { rewrite solverTime_fresh by congruence. now rewrite A. }
    split; [|split; [exact ST | split; [congruence|split]]].
    + constructor.
      * rewrite ST. unfold getAdvancedTime, getTime. rewrite A, T.
        apply Rle_refl.
      * intros F. destruct (NoFlag F).
      * intros F. destruct (NoFlag F).
      * intros F. destruct (NoFlag F).
    + left. now rewrite A.
    + intros F. destruct (NoFlag F).
  - destruct (decide_checked s1 reportTime eventTime res tret N L P T)
      as (A & P' & O).
    fold tMax in A, P', O. fold s' in A, P', O.
    destruct (decide_keeps_interpolation s1 reportTime eventTime tMax res
                tret N L) as (U' & I').
    fold s' in U', I'.
    assert (ST : solverTime s' = tret).
    { destruct P' as [P'|P'].
      - rewrite solverTime_fresh by exact P'.
        destruct A as [A|(_ & _ & _ & A)]; [exact A | lia].
      - rewrite solverTime_pending by lia. congruence. }
    assert (IT : useInterpolatedState s' = true ->
                 sTime (interpolatedState s') = tMax).
    { intros F. rewrite U' in F. rewrite I'.
      now destruct (overshootCheck_interpolates s1 tMax tret F). }
    split; [|split; [exact ST | split; [congruence|split]]].
    + constructor.
      * rewrite ST. unfold getAdvancedTime, getTime.
        destruct A as [A|(A & _ & B & _)]; rewrite A;
          [apply Rle_refl | now apply Rlt_le].
      * intros F. rewrite ST, (IT F). now rewrite U' in F.
      * intros F. rewrite (IT F). rewrite U' in F.
        unfold getAdvancedTime, getTime.
        destruct A as [A|(A & B & _)]; rewrite A.
        -- now apply Rlt_le.
        -- rewrite B. apply Rle_refl.
      * intros F. rewrite U' in F. rewrite (O F). auto.
    + destruct A as [A|(A & _)]; auto.
    + intros F. split; [exact (IT F)|]. rewrite U' in F.
      split; [exact F | congruence].
Qed.

(** The solver result a turn works with is not before the latest one, nor
    before the start of its step. *)
Lemma obtainResult_advances s tMax mode res tret s1 :
  turnAdvances env s tMax mode = true ->
  obtainResult env s tMax mode = (res, tret, s1) ->
  Rle (solverTime s) tret
  /\ (pendingReturnCode s = -1 -> Rle (turnStartTime s) tret)
  /\ (pendingReturnCode s <> -1 -> tret = previousTimeReturned s).
Proof.
  unfold turnAdvances. intros Adv E.
  destruct (Z.eq_dec (pendingReturnCode s) (-1)) as [P|P].
  - destruct (obtainResult_fresh s tMax mode P) as (s1' & E' & _).
    rewrite E in E'. inversion E'; subst.
    rewrite P in Adv. simpl in Adv.
    rewrite (solverTime_fresh _ P). unfold turnStartTime. rewrite P. simpl.
    split; [exact Adv|]. split; [intros _; exact Adv | contradiction].
  - destruct (obtainResult_pending s tMax mode P) as (s1' & E' & _).
    rewrite E in E'. inversion E'; subst.
    unfold solverTime. pose proof P as P'. apply Z.eqb_neq in P'. rewrite P'.
    split; [apply Rle_refl|]. split; [contradiction | reflexivity].
Qed.

(** After a turn the Advanced State holds the returned time, unless the
    turn returned ReachedScheduledEvent after backing up to the event
    time, where the Interpolated State in use is too. *)
Lemma decide_advanced_time s1 reportTime eventTime res tret :
  sTime (advancedState s1) = tret ->
  let tMax := Rmin reportTime eventTime in
  let t := decide env s1 reportTime eventTime tMax res tret in
  sTime (advancedState (turnState t)) = tret
  \/ (t = Done (Returned ReachedScheduledEvent) (turnState t)
      /\ sTime (advancedState (turnState t)) = eventTime
      /\ Rlt eventTime tret
      /\ useInterpolatedState (turnState t) = true
      /\ sTime (interpolatedState (turnState t)) = eventTime).
Proof.
  intros T tMax t. subst t.
  destruct (overshootCheck_frame s1 tMax tret) as (F1 & _).
  unfold decide.
  destruct (res =? TooMuchWork (codes env)); [left; exact T|].
  destruct (res <? 0); [left; exact T|].
  destruct (Rleb reportTime tret && Rleb reportTime eventTime) eqn:A;
    [left; simpl; now rewrite F1|].
  destruct (Rleb eventTime tret).
  - destruct (Rltb eventTime tret) eqn:O.
    + right. simpl.
      assert (M : tMax = eventTime)
        by (apply (ceiling_is_event_time _ _ tret); assumption).
      assert (O' : Rltb tMax tret = true) by now rewrite M.
      destruct (overshootCheck_interpolates s1 tMax tret O') as (I1 & _).
      rewrite overshootCheck_flag, I1, M. repeat split; assumption.
    + left. simpl. now rewrite F1.
  - unfold reportTriggers. split_ifs; left; simpl; now rewrite F1.
Qed.

Lemma Rmin_le_r (a b : Real) : Rle (Rmin a b) b.
Proof.
  destruct (Rmin_cases a b) as [[M C]|[M C]]; rewrite M;
    [exact C | apply Rle_refl].
Qed.

(** The loop: a call that returns leaves ordered times and a solver time
    that is not before the one it found; the Advanced State is at that
    solver time unless the call backed it up to the event time. *)
Lemma stepLoop_ordered fuel reportTime eventTime mode :
  let tMax := Rmin reportTime eventTime in
  forall s o s',
    stepLoop env fuel s reportTime eventTime tMax mode = (Some o, s') ->
    loopAdvances env fuel s reportTime eventTime tMax mode = true ->
    TimesOrdered env s ->
    TimesOrdered env s'
    /\ Rle (solverTime s) (solverTime s')
    /\ (sTime (advancedState s') = solverTime s'
        \/ (o = Returned ReachedScheduledEvent
            /\ sTime (advancedState s') = eventTime
            /\ Rlt eventTime (solverTime s')
            /\ useInterpolatedState s' = true
            /\ sTime (interpolatedState s') = eventTime)).
Proof.
  intros tMax. induction fuel as [|fuel IH]; intros s o s' H Adv Ord;
    [discriminate|].
  cbn [stepLoop loopAdvances] in H, Adv.
  apply andb_true_iff in Adv. destruct Adv as [Adv1 Adv2].
  unfold turn in H, Adv2.
  destruct (obtainResult env s tMax mode) as [[res tret] s1] eqn:E.
  pose proof (turn_times s reportTime eventTime mode res tret s1 E
                (interp_has_pending env s Ord)) as (Ord' & ST & _).
  destruct (obtainResult_commits _ _ _ _ _ _ E) as (T & _).
  pose proof (decide_advanced_time s1 reportTime eventTime res tret T)
    as AT.
  cbv zeta in AT. fold tMax in Ord', ST, AT.
  destruct (obtainResult_advances _ _ _ _ _ _ Adv1 E) as (Mono & _).
  destruct (decide env s1 reportTime eventTime tMax res tret)
    as [o1 s2|s2] eqn:D; simpl in Ord', ST, AT.
  - inversion H; subst o1 s2.
    split; [exact Ord'|]. split; [now rewrite ST|].
    destruct AT as [AT|(Eo & AT & O & U & I)]; [left; congruence | right].
    inversion Eo; subst o. rewrite ST. auto.
  - destruct (IH s2 o s' H Adv2 Ord') as (Ord2 & Mono2 & AT2).
    split; [exact Ord2|]. split; [|exact AT2].
    rewrite ST in Mono2. now apply (Rle_trans _ tret).
Qed.

(** The loop, when it does not start beyond its ceiling: the start of the
    solver step behind the result it leaves pending is not after the
    Interpolated State in use, nor after the Advanced State. *)
Lemma stepLoop_start_ordered fuel reportTime eventTime mode :
  let tMax := Rmin reportTime eventTime in
  forall s o s',
    stepLoop env fuel s reportTime eventTime tMax mode = (Some o, s') ->
    loopAdvances env fuel s reportTime eventTime tMax mode = true ->
    TimesOrdered env s ->
    Rle (turnStartTime s) tMax ->
    (pendingReturnCode s <> -1 ->
     Rle (previousStartTime s) (previousTimeReturned s)) ->
    StartOrdered s'.
Proof.
  intros tMax. induction fuel as [|fuel IH]; intros s o s' H Adv Ord Below Pend;
    [discriminate|].
  cbn [stepLoop loopAdvances] in H, Adv.
  apply andb_true_iff in Adv. destruct Adv as [Adv1 Adv2].
  unfold turn in H, Adv2.
  destruct (obtainResult env s tMax mode) as [[res tret] s1] eqn:E.
  pose proof (turn_times s reportTime eventTime mode res tret s1 E
                (interp_has_pending env s Ord)) as (Ord' & _ & _ & _ & IT).
  destruct (obtainResult_commits _ _ _ _ _ _ E) as (T & _ & P & _).
  destruct (obtainResult_start _ _ _ _ _ _ E) as (St & _).
  destruct (decide_frame s1 reportTime eventTime tMax res tret)
    as (_ & _ & _ & St' & _).
  pose proof (decide_advanced_time s1 reportTime eventTime res tret T)
    as AT.
  cbv zeta in AT. fold tMax in Ord', IT, AT.
  destruct (obtainResult_advances _ _ _ _ _ _ Adv1 E) as (_ & Fresh & Resumed).
  assert (Reach : Rle (turnStartTime s) tret).
  { destruct (Z.eq_dec (pendingReturnCode s) (-1)) as [Q|Q]; [now apply Fresh|].
    rewrite (Resumed Q). unfold turnStartTime.
    pose proof Q as Q'. apply Z.eqb_neq in Q'. rewrite Q'. now apply Pend. }
  destruct (decide env s1 reportTime eventTime tMax res tret)
    as [o1 s2|s2] eqn:D; simpl in Ord', IT, AT, St'.
  - inversion H; subst o1 s2. split.
    + intros F. destruct (IT F) as (I1 & _ & I3). now rewrite I1, I3.
    + intros _. rewrite St', St.
      destruct AT as [AT|(_ & AT & _)]; rewrite AT; [exact Reach|].
      apply (Rle_trans _ tMax); [exact Below | apply Rmin_le_r].
  - destruct (decide_again _ _ _ _ _ _ _ D) as (Es2 & A & B).
    destruct (overshootCheck_frame s1 tMax tret) as (F1 & F2 & _).
    assert (P2 : pendingReturnCode s2 = -1) by (rewrite Es2, F2; exact P).
    apply (IH s2 o s' H Adv2 Ord').
    + unfold turnStartTime, getAdvancedTime, getTime.
      rewrite P2, Es2, F1, T. simpl.
      apply Rltb_false_le.
      destruct (Rltb tMax tret) eqn:O; [|reflexivity].
      destruct (overshoot_reaches_boundary _ _ _ O) as [C|[_ C]]; congruence.
    + intros Q. contradiction.
Qed.

Lemma stepTo_ordered fuel integ reportTime scheduledEventTime o integ' :
  stepTo env fuel integ reportTime scheduledEventTime = (Some o, integ') ->
  callAdvances env fuel integ reportTime scheduledEventTime = true ->
  TimesOrdered env integ ->
  TimesOrdered env integ'
  /\ Rle (solverTime integ) (solverTime integ')
  /\ (Rle (sTime (advancedState integ)) (sTime (advancedState integ'))
      \/ (o = Returned ReachedScheduledEvent
          /\ sTime (advancedState integ') = eventTimeInUse scheduledEventTime
          /\ Rlt (eventTimeInUse scheduledEventTime) (solverTime integ')
          /\ useInterpolatedState integ' = true
          /\ sTime (interpolatedState integ')
             = eventTimeInUse scheduledEventTime)).
Proof.
  intros H Adv Ord. unfold stepTo in H. unfold callAdvances in Adv.
  destruct (startOfContinuousInterval integ) eqn:F.
  - inversion H; subst. destruct Ord as [O1 O2 O3 O4].
    split; [constructor; assumption|].
    split; [apply Rle_refl | left; apply Rle_refl].
  - destruct (stepLoop_ordered fuel reportTime
                (eventTimeInUse scheduledEventTime) (stepMode integ)
                integ o integ' H Adv Ord) as (Ord' & Mono & AT).
    split; [exact Ord'|]. split; [exact Mono|].
    destruct AT as [AT|AT]; [left | now right].
    rewrite AT. apply (Rle_trans _ (solverTime integ)); [|exact Mono].
    apply (advanced_le_solver env integ Ord).
Qed.

Lemma stepTo_start_ordered fuel integ reportTime scheduledEventTime o integ' :
  stepTo env fuel integ reportTime scheduledEventTime = (Some o, integ') ->
  callAdvances env fuel integ reportTime scheduledEventTime = true ->
  TimesOrdered env integ ->
  StartOrdered integ ->
  Rle (deliveredTime integ) (ceiling reportTime scheduledEventTime) ->
  StartOrdered integ'.
Proof.
  intros H Adv Ord [SI SA] Ahead. unfold stepTo in H. unfold callAdvances in Adv.
  destruct (startOfContinuousInterval integ) eqn:F.
  - inversion H; subst. split; assumption.
  - apply (stepLoop_start_ordered fuel reportTime
             (eventTimeInUse scheduledEventTime) (stepMode integ)
             integ o integ' H Adv Ord).
    + fold (ceiling reportTime scheduledEventTime).
      unfold deliveredTime in Ahead. unfold turnStartTime, getAdvancedTime, getTime.
      destruct (pendingReturnCode integ =? -1) eqn:P.
      * destruct (useInterpolatedState integ) eqn:U; [|exact Ahead].
        apply Z.eqb_eq in P.
        destruct (interp_has_pending env integ Ord U) as [P0 _]. lia.
      * apply Z.eqb_neq in P.
        destruct (useInterpolatedState integ) eqn:U.
        -- apply (Rle_trans _ (sTime (interpolatedState integ)));
             [now apply SI | exact Ahead].
        -- apply (Rle_trans _ (sTime (advancedState integ)));
             [now apply SA | exact Ahead].
    + intros P. apply (Rle_trans _ (sTime (advancedState integ)));
        [now apply SA|].
      pose proof (advanced_le_solver env integ Ord) as Le.
      unfold solverTime in Le. apply Z.eqb_neq in P. now rewrite P in Le.
Qed.

(** A property of every call of a sequence holds of the calls of a prefix
    and of the calls that follow it. *)
Lemma callsAll_app check fuel calls rest :
  forall integ integ',
    callsAll env check fuel integ (calls ++ rest) = true ->
    stepToCalls env fuel integ calls = Some integ' ->
    callsAll env check fuel integ calls = true
    /\ callsAll env check fuel integ' rest = true.
Proof.
  induction calls as [|[r e] calls IH]; intros integ integ' H C; simpl in *.
  - inversion C; subst. auto.
  - apply andb_true_iff in H. destruct H as [H1 H2].
    destruct (stepTo env fuel integ r e) as [[o|] s1]; [|discriminate].
    destruct (IH s1 integ' H2 C) as (I1 & I2).
    split; [|exact I2]. apply andb_true_iff. auto.
Qed.

Lemma stepToCalls_ordered fuel calls :
  forall integ integ',
    stepToCalls env fuel integ calls = Some integ' ->
    callsAdvance env fuel integ calls = true ->
    TimesOrdered env integ ->
    TimesOrdered env integ' /\ Rle (solverTime integ) (solverTime integ').
Proof.
  unfold callsAdvance.
  induction calls as [|[r e] calls IH]; intros integ integ' H Adv Ord;
    simpl in H, Adv.
  - inversion H; subst. split; [exact Ord | apply Rle_refl].
  - apply andb_true_iff in Adv. destruct Adv as [Adv1 Adv2].
    destruct (stepTo env fuel integ r e) as [[o|] s1] eqn:C; [|discriminate].
    destruct (stepTo_ordered _ _ _ _ _ _ C Adv1 Ord) as (Ord1 & M1 & _).
    destruct (IH s1 integ' H Adv2 Ord1) as (Ord' & M').
    split; [exact Ord' | now apply (Rle_trans _ (solverTime s1))].
Qed.

Lemma stepToCalls_start_ordered fuel calls :
  forall integ integ',
    stepToCalls env fuel integ calls = Some integ' ->
    callsAdvance env fuel integ calls = true ->
    callsAhead env fuel integ calls = true ->
    TimesOrdered env integ ->
    StartOrdered integ ->
    StartOrdered integ'.
Proof.
  unfold callsAdvance, callsAhead.
  induction calls as [|[r e] calls IH]; intros integ integ' H Adv Ahead Ord St;
    simpl in H, Adv, Ahead.
  - inversion H; subst. exact St.
  - apply andb_true_iff in Adv. destruct Adv as [Adv1 Adv2].
    apply andb_true_iff in Ahead. destruct Ahead as [Ah1 Ah2].
    destruct (stepTo env fuel integ r e) as [[o|] s1] eqn:C; [|discriminate].
    destruct (stepTo_ordered _ _ _ _ _ _ C Adv1 Ord) as (Ord1 & _).
    apply (IH s1 integ' H Adv2 Ah2 Ord1).
    apply (stepTo_start_ordered _ _ _ _ _ _ C Adv1 Ord St Ah1).
Qed.

(** An integrator with no result pending and no Interpolated State in use
    has its times in order. *)
Lemma fresh_ordered integ :
  pendingReturnCode integ = -1 ->
  useInterpolatedState integ = false ->
  TimesOrdered env integ /\ StartOrdered integ.
Proof.
  intros P U. split.
  - constructor; try (intros F; congruence).
    rewrite (solverTime_fresh _ P). apply Rle_refl.
  - split; [intros F; congruence | intros Q; contradiction].
Qed.

(** C7 (amended).  Time monotonicity.  For a sequence of stepTo calls
    that return, made on an integrator that starts with no result pending
    and the interpolated-state flag down, and in which every solver call
    returns a time that is not before the time of the Advanced State it was
    started from; for each call of the sequence, with integ1 the integrator
    before it and integ2 after it: the time of the latest solver result the
    controller holds (the Advanced State's time when no result is pending,
    previousTimeReturned otherwise) does not decrease, and the Advanced
    State's time never exceeds it; the Advanced State's time itself does
    not decrease over the call unless the call returns
    ReachedScheduledEvent having backed the Advanced State up to the
    scheduled event time, which is then strictly before the solver's
    returned time and is the time of the Interpolated State in use as
    well; and whenever the interpolated-state flag is true after the call,
    the Interpolated State's time is strictly before the solver's returned
    time, not after the Advanced State's time and, provided no
    call of the sequence asked for a report time or an event time before
    the time of the State the integrator delivered at that call, not before
    previousStartTime, the start of the solver step that went past it. *)
Theorem time_monotonicity fuel calls integ0 integ1 reportTime scheduledEventTime
  o integ2 :
  pendingReturnCode integ0 = -1 ->
  useInterpolatedState integ0 = false ->
  callsAdvance env fuel integ0 (calls ++ [(reportTime, scheduledEventTime)])
  = true ->
  stepToCalls env fuel integ0 calls = Some integ1 ->
  stepTo env fuel integ1 reportTime scheduledEventTime = (Some o, integ2) ->
  Rle (solverTime integ0) (solverTime integ1)
  /\ Rle (solverTime integ1) (solverTime integ2)
  /\ Rle (sTime (advancedState integ2)) (solverTime integ2)
  /\ (Rle (sTime (advancedState integ1)) (sTime (advancedState integ2))
      \/ (o = Returned ReachedScheduledEvent
          /\ sTime (advancedState integ2) = eventTimeInUse scheduledEventTime
          /\ Rlt (eventTimeInUse scheduledEventTime) (solverTime integ2)
          /\ useInterpolatedState integ2 = true
          /\ sTime (interpolatedState integ2)
             = eventTimeInUse scheduledEventTime))
  /\ (useInterpolatedState integ2 = true ->
      Rlt (sTime (interpolatedState integ2)) (solverTime integ2)
      /\ Rle (sTime (interpolatedState integ2)) (sTime (advancedState integ2))
      /\ (callsAhead env fuel integ0
            (calls ++ [(reportTime, scheduledEventTime)]) = true ->
          Rle (previousStartTime integ2) (sTime (interpolatedState integ2)))).
Proof.
  intros P U Adv Calls Call.
  destruct (fresh_ordered integ0 P U) as (Ord0 & St0).
  destruct (callsAll_app _ _ _ _ _ _ Adv Calls) as (Adv1 & Adv2).
  simpl in Adv2. rewrite Call, andb_true_r in Adv2.
  destruct (stepToCalls_ordered fuel calls integ0 integ1 Calls Adv1 Ord0)
    as (Ord1 & M01).
  destruct (stepTo_ordered _ _ _ _ _ _ Call Adv2 Ord1) as (Ord2 & M12 & AT).
  split; [exact M01|]. split; [exact M12|].
  split; [apply (advanced_le_solver env integ2 Ord2)|].
  split; [exact AT|].
  intros F.
  split; [apply (interp_lt_solver env integ2 Ord2 F)|].
  split; [apply (interp_le_advanced env integ2 Ord2 F)|].
  intros Ahead.
  destruct (callsAll_app _ _ _ _ _ _ Ahead Calls) as (Ah1 & Ah2).
  simpl in Ah2. rewrite Call, andb_true_r in Ah2.
  pose proof (stepToCalls_start_ordered fuel calls integ0 integ1 Calls Adv1 Ah1
                Ord0 St0) as St1.
  destruct (stepTo_start_ordered _ _ _ _ _ _ Call Adv2 Ord1 St1 Ah2) as (SI & _).
  now apply SI.
Qed.

End Controller.

(* ------------------------------------------------------------------ *)
(** ** The stepping loop when a realization fails *)

Section RealizationFailure.
Context {S : Type}.
Variable env : Env S.
Variable realizeDerivatives : State -> Exc Cache.
Implicit Type integ s : IntegRep S.

Local Abbreviation stepToE := (stepToExn env realizeDerivatives).
Local Abbreviation stepLoopE := (stepLoopExn env realizeDerivatives).
Local Abbreviation turnE := (turnExn env realizeDerivatives).
Local Abbreviation decideE := (decideExn env realizeDerivatives).

Ltac case_all :=
  repeat match goal with
    | |- context [if ?b then _ else _] => destruct b eqn:?
    | |- context [match realizeDerivatives ?x with _ => _ end] =>
        destruct (realizeDerivatives x) eqn:?
    end.

(** *** Where no realization raises, this is the loop above *)

Lemma obtainResult_realizes s tMax mode :
  obtainResult env s tMax mode
  = let '(res, tret, s0) := obtainUnrealized env s tMax mode in
    (res, tret, realizeAdvanced env s0).
Proof.
  unfold obtainResult, obtainUnrealized.
  destruct (pendingReturnCode s =? -1);
    [|destruct (0 <? length (savedY s))%nat]; reflexivity.
Qed.

Lemma turnExn_total s reportTime eventTime tMax mode :
  (forall st, realizeDerivatives st = Val (realizeStateDerivatives env st)) ->
  turnE s reportTime eventTime tMax mode
  = match turn env s reportTime eventTime tMax mode with
    | Done o s' => DoneExn (Finished o) s'
    | Again s' => AgainExn s'
    end.
Proof.
  intros Total. unfold turnExn, turn. rewrite obtainResult_realizes.
  destruct (obtainUnrealized env s tMax mode) as [[res tret] s0].
  assert (RA : forall i,
             realizeAdvancedExn realizeDerivatives i
             = Realized (realizeAdvanced env i))
    by (intros i; unfold realizeAdvancedExn; now rewrite Total).
  assert (OC : forall i,
             overshootCheckExn env realizeDerivatives i tMax tret
             = Realized (overshootCheck env i tMax tret)).
  { intros i. unfold overshootCheckExn, overshootCheck, realizeInterpolatedExn.
    destruct (Rltb tMax tret); [now rewrite Total | reflexivity]. }
  assert (BU : forall i,
             backUpToEventExn realizeDerivatives i eventTime
             = Realized (backUpToEvent env i eventTime))
    by (intros i; unfold backUpToEventExn, backUpToEvent; now rewrite RA).
  rewrite RA. generalize (realizeAdvanced env s0). intros s1.
  unfold decideExn, decide. rewrite OC.
  generalize (overshootCheck env s1 tMax tret). intros c.
  destruct (res =? TooMuchWork (codes env)); [reflexivity|].
  destruct (res <? 0); [reflexivity|].
  destruct (Rleb reportTime tret && Rleb reportTime eventTime); [reflexivity|].
  destruct (Rleb eventTime tret).
  { destruct (Rltb eventTime tret); [now rewrite BU | reflexivity]. }
  destruct (res =? TstopReturn (codes env)); [reflexivity|].
  destruct (res =? RootReturn (codes env)); [reflexivity|].
  destruct (userReturnEveryInternalStep c =? 1); reflexivity.
Qed.

(** A realization that never raises: [stepTo] with a failing realization
    does what [stepTo] does. *)
Lemma stepToExn_total fuel integ reportTime scheduledEventTime :
  (forall st, realizeDerivatives st = Val (realizeStateDerivatives env st)) ->
  stepToE fuel integ reportTime scheduledEventTime
  = (option_map Finished (fst (stepTo env fuel integ reportTime
                                 scheduledEventTime)),
     snd (stepTo env fuel integ reportTime scheduledEventTime)).
Proof.
  intros Total. unfold stepToExn, stepTo.
  destruct (startOfContinuousInterval integ); [reflexivity|].
  generalize (stepMode integ) as mode.
  generalize (Rmin reportTime (eventTimeInUse scheduledEventTime)) as tMax.
  generalize (eventTimeInUse scheduledEventTime) as eventTime.
  intros eventTime tMax mode. revert integ.
  induction fuel as [|fuel IH]; intros integ; [reflexivity|].
  cbn [stepLoopExn stepLoop]. rewrite (turnExn_total _ _ _ _ _ Total).
  destruct (turn env integ reportTime eventTime tMax mode) as [o s'|s'];
    [reflexivity | apply IH].
Qed.

(** *** The loop and its turns *)

Lemma stepLoopExn_resume n m s s1 reportTime eventTime tMax mode :
  stepLoopE n s reportTime eventTime tMax mode = (None, s1) ->
  stepLoopE (n + m) s reportTime eventTime tMax mode
  = stepLoopE m s1 reportTime eventTime tMax mode.
Proof.
  revert s. induction n as [|n IH]; intros s H; simpl in *.
  - now inversion H.
  - destruct (turnE s reportTime eventTime tMax mode) as [o s'|s'].
    + discriminate.
    + now apply IH.
Qed.

Lemma stepToExn_running n integ reportTime scheduledEventTime s :
  stepToE n integ reportTime scheduledEventTime = (None, s) ->
  startOfContinuousInterval integ = false
  /\ stepLoopE n integ reportTime (eventTimeInUse scheduledEventTime)
       (ceiling reportTime scheduledEventTime) (stepMode integ) = (None, s).
Proof.
  unfold stepToExn, ceiling.
  destruct (startOfContinuousInterval integ); [discriminate | auto].
Qed.

Lemma stepToExn_turn n m integ reportTime scheduledEventTime s :
  stepToE n integ reportTime scheduledEventTime = (None, s) ->
  stepToE (n + Datatypes.S m) integ reportTime scheduledEventTime
  = match turnE s reportTime (eventTimeInUse scheduledEventTime)
            (ceiling reportTime scheduledEventTime) (stepMode integ) with
    | DoneExn o s' => (Some o, s')
    | AgainExn s' =>
        stepLoopE m s' reportTime (eventTimeInUse scheduledEventTime)
          (ceiling reportTime scheduledEventTime) (stepMode integ)
    end.
Proof.
  intros H. destruct (stepToExn_running _ _ _ _ _ H) as [F L].
  unfold stepToExn. rewrite F. fold (ceiling reportTime scheduledEventTime).
  rewrite (stepLoopExn_resume _ (Datatypes.S m) _ _ _ _ _ _ L). reflexivity.
Qed.

(** The returned time is committed before anything is realized. *)
Lemma obtainUnrealized_commits s tMax mode res tret s0 :
  obtainUnrealized env s tMax mode = (res, tret, s0) ->
  sTime (advancedState s0) = tret
  /\ pendingReturnCode s0 = -1
  /\ startOfContinuousInterval s0 = startOfContinuousInterval s
  /\ userReturnEveryInternalStep s0 = userReturnEveryInternalStep s
  /\ userFinalTime s0 = userFinalTime s
  /\ (pendingReturnCode s = -1 -> stepCalls s0 = (tMax, mode) :: stepCalls s)
  /\ exists l, stepCalls s0 = l ++ stepCalls s.
Proof.
  unfold obtainUnrealized.
  destruct (pendingReturnCode s =? -1) eqn:P;
    [| destruct (0 <? length (savedY s))%nat ];
    intros H; inversion H; subst; simpl; repeat split;
    try reflexivity;
    try (intros Q; rewrite Q in P; discriminate P);
    try (now exists [(tMax, mode)]);
    try (now exists []).
  now apply Z.eqb_eq in P.
Qed.

Lemma realizeAdvancedExn_cases s0 :
  (exists c, realizeDerivatives (advancedState s0) = Val c
             /\ realizeAdvancedExn realizeDerivatives s0
                = Realized (set_advancedState s0 (withCache (advancedState s0) c)))
  \/ (realizeDerivatives (advancedState s0) = Threw
      /\ realizeAdvancedExn realizeDerivatives s0 = Raised s0).
Proof.
  unfold realizeAdvancedExn.
  destruct (realizeDerivatives (advancedState s0)) as [|c]; [right | left]; eauto.
Qed.

Lemma decideExn_frame s reportTime eventTime tMax res tret :
  let s' := turnStateExn (decideE s reportTime eventTime tMax res tret) in
  stepCalls s' = stepCalls s
  /\ startOfContinuousInterval s' = startOfContinuousInterval s
  /\ userReturnEveryInternalStep s' = userReturnEveryInternalStep s
  /\ userFinalTime s' = userFinalTime s.
Proof.
  unfold decideExn, overshootCheckExn, backUpToEventExn,
    realizeInterpolatedExn, realizeAdvancedExn, reportTriggers.
  destruct (res =? TooMuchWork (codes env)); [simpl; auto|].
  destruct (res <? 0); [simpl; auto|].
  destruct (Rltb tMax tret); simpl;
    case_all; simpl; case_all; simpl; repeat split; reflexivity.
Qed.

Lemma turnExn_frame s reportTime eventTime tMax mode :
  let s' := turnStateExn (turnE s reportTime eventTime tMax mode) in
  startOfContinuousInterval s' = startOfContinuousInterval s
  /\ userReturnEveryInternalStep s' = userReturnEveryInternalStep s
  /\ userFinalTime s' = userFinalTime s
  /\ (exists l, stepCalls s' = l ++ stepCalls s)
  /\ (pendingReturnCode s = -1 ->
      stepCalls s' = (tMax, mode) :: stepCalls s).
Proof.
  unfold turnExn.
  destruct (obtainUnrealized env s tMax mode) as [[res tret] s0] eqn:E.
  destruct (obtainUnrealized_commits _ _ _ _ _ _ E)
    as (_ & _ & F & U & T & C & L).
  destruct (realizeAdvancedExn_cases s0) as [(c & _ & R)|(_ & R)]; rewrite R.
  - destruct (decideExn_frame
                (set_advancedState s0 (withCache (advancedState s0) c))
                reportTime eventTime tMax res tret) as (C' & F' & U' & T').
    simpl in *. rewrite C', F', U', T'. auto.
  - simpl. auto.
Qed.

Lemma stepLoopExn_frame fuel s reportTime eventTime tMax mode :
  let s' := snd (stepLoopE fuel s reportTime eventTime tMax mode) in
  startOfContinuousInterval s' = startOfContinuousInterval s
  /\ userReturnEveryInternalStep s' = userReturnEveryInternalStep s
  /\ userFinalTime s' = userFinalTime s
  /\ exists l, stepCalls s' = l ++ stepCalls s.
Proof.
  revert s. induction fuel as [|fuel IH]; intros s; simpl.
  - repeat split. now exists [].
  - pose proof (turnExn_frame s reportTime eventTime tMax mode)
      as (F & U & T & L & _).
    destruct (turnE s reportTime eventTime tMax mode) as [o s'|s'];
      simpl in *; [auto|].
    destruct (IH s') as (F' & U' & T' & [l' L']). destruct L as [l L].
    rewrite F', U', T'. repeat split; try assumption.
    exists (l' ++ l). rewrite L', L. now rewrite app_assoc.
Qed.

Lemma runningExn_frame n integ reportTime scheduledEventTime s :
  stepToE n integ reportTime scheduledEventTime = (None, s) ->
  startOfContinuousInterval s = false
  /\ stepMode s = stepMode integ.
Proof.
  intros H. destruct (stepToExn_running _ _ _ _ _ H) as [F L].
  pose proof (stepLoopExn_frame n integ reportTime
                (eventTimeInUse scheduledEventTime)
                (ceiling reportTime scheduledEventTime) (stepMode integ)) as R.
  rewrite L in R. simpl in R. destruct R as (F' & U & T & _).
  split; [congruence | now apply stepMode_frame].
Qed.

(** When a fresh solver call is due, the first thing a call with the start
    flag down does is to step the solver toward its ceiling, whether or not
    a realization raises afterwards. *)
Lemma fresh_call_steps_solver_first fuel integ reportTime scheduledEventTime :
  startOfContinuousInterval integ = false ->
  pendingReturnCode integ = -1 ->
  exists l,
    stepCalls (snd (stepToE (Datatypes.S fuel) integ reportTime
                      scheduledEventTime))
    = l ++ (ceiling reportTime scheduledEventTime, stepMode integ)
           :: stepCalls integ.
Proof.
  intros F P. unfold stepToExn. rewrite F.
  fold (ceiling reportTime scheduledEventTime).
  set (tMax := ceiling reportTime scheduledEventTime).
  set (E := eventTimeInUse scheduledEventTime).
  cbn [stepLoopExn].
  pose proof (turnExn_frame integ reportTime E tMax (stepMode integ))
    as (_ & _ & _ & _ & C).
  specialize (C P).
  destruct (turnE integ reportTime E tMax (stepMode integ)) as [o s'|s'];
    simpl in *.
  - exists []. exact C.
  - destruct (stepLoopExn_frame fuel s' reportTime E tMax (stepMode integ))
      as (_ & _ & _ & [l L]).
    exists l. now rewrite L, C.
Qed.

(** *** The error checks (lines 260-277) *)

(** The turn of a result that stops at the error checks, when the
    realization of line 261 succeeds and when it raises. *)
Lemma turnExn_error_checks s reportTime eventTime tMax mode res tret s0 :
  obtainUnrealized env s tMax mode = (res, tret, s0) ->
  (realizeDerivatives (advancedState s0) = Threw ->
   turnE s reportTime eventTime tMax mode = DoneExn RealizeFailed s0)
  /\ (forall c,
        realizeDerivatives (advancedState s0) = Val c ->
        let s1 := set_advancedState s0 (withCache (advancedState s0) c) in
        (res = TooMuchWork (codes env) ->
         turnE s reportTime eventTime tMax mode
         = DoneExn (Finished (Returned ReachedStepLimit))
             (setStepCommunicationStatus s1 StepHasBeenReturnedNoEvent))
        /\ (res <> TooMuchWork (codes env) -> res < 0 ->
            turnE s reportTime eventTime tMax mode
            = DoneExn (Finished (StepFailed (sTime (advancedState s1)))) s1)).
Proof.
  intros E. unfold turnExn. rewrite E. unfold realizeAdvancedExn. split.
  - intros ->. reflexivity.
  - intros c ->. cbv zeta. unfold decideExn. split.
    + intros ->. now rewrite Z.eqb_refl.
    + intros N L. apply Z.eqb_neq in N. apply Z.ltb_lt in L.
      now rewrite N, L.
Qed.

(** C8 (amended).  Step-limit outcome.  A call that has made [n] turns
    without returning and whose next result from the solver is TooMuchWork
    has committed the solver's returned time to the Advanced State when
    realizeStateDerivatives is called on it (line 261).  When that
    realization raises nothing, the call returns ReachedStepLimit at that
    turn: no exception, no result is pending, and the next call of stepTo
    starts by stepping the solver toward its own ceiling.  When that
    realization raises, its exception leaves stepTo and no outcome is
    returned. *)
Theorem step_limit_outcome n m integ reportTime scheduledEventTime s res tret s0 :
  stepToE n integ reportTime scheduledEventTime = (None, s) ->
  obtainUnrealized env s (ceiling reportTime scheduledEventTime)
    (stepMode integ) = (res, tret, s0) ->
  res = TooMuchWork (codes env) ->
  let r := stepToE (n + Datatypes.S m) integ reportTime scheduledEventTime in
  sTime (advancedState (snd r)) = tret
  /\ (forall c,
        realizeDerivatives (advancedState s0) = Val c ->
        fst r = Some (Finished (Returned ReachedStepLimit))
        /\ pendingReturnCode (snd r) = -1
        /\ startOfContinuousInterval (snd r) = false
        /\ forall fuel reportTime2 scheduledEventTime2,
            exists l,
              stepCalls (snd (stepToE (Datatypes.S fuel) (snd r) reportTime2
                                scheduledEventTime2))
              = l ++ (ceiling reportTime2 scheduledEventTime2,
                      stepMode (snd r))
                     :: stepCalls (snd r))
  /\ (realizeDerivatives (advancedState s0) = Threw ->
      fst r = Some RealizeFailed).
Proof.
  intros Run E R r. subst r.
  rewrite (stepToExn_turn n m _ _ _ _ Run).
  destruct (turnExn_error_checks s reportTime
              (eventTimeInUse scheduledEventTime) _ _ _ _ _ E) as (Bad & Good).
  destruct (obtainUnrealized_commits _ _ _ _ _ _ E)
    as (T & P & F & _).
  destruct (runningExn_frame _ _ _ _ _ Run) as (F0 & _).
  split; [|split].
  - destruct (realizeDerivatives (advancedState s0)) as [|c] eqn:Rd.
    + rewrite (Bad eq_refl). exact T.
    + rewrite (proj1 (Good c eq_refl) R). exact T.
  - intros c Rd. rewrite (proj1 (Good c Rd) R). cbn [fst snd].
    split; [reflexivity|]. split; [exact P|]. split; [simpl; congruence|].
    intros fuel r2 e2.
    apply fresh_call_steps_solver_first; simpl; congruence.
  - intros Rd. rewrite (Bad Rd). reflexivity.
Qed.

(** C9 (amended).  Step-failure error.  A call that has made [n] turns
    without returning and whose next result from the solver is negative and
    is not TooMuchWork has committed the solver's returned time to the
    Advanced State when realizeStateDerivatives is called on it (line 261).
    When that realization raises nothing, the call raises
    Integrator::StepFailed at that turn, carrying the Advanced State's
    time, which is the solver's returned time.  When that realization
    raises, its exception is the one that leaves stepTo.  Either way the
    call returns no status. *)
Theorem step_failure_error n m integ reportTime scheduledEventTime s res tret s0 :
  stepToE n integ reportTime scheduledEventTime = (None, s) ->
  obtainUnrealized env s (ceiling reportTime scheduledEventTime)
    (stepMode integ) = (res, tret, s0) ->
  res < 0 ->
  res <> TooMuchWork (codes env) ->
  let r := stepToE (n + Datatypes.S m) integ reportTime scheduledEventTime in
  sTime (advancedState (snd r)) = tret
  /\ (forall c,
        realizeDerivatives (advancedState s0) = Val c ->
        fst r = Some (Finished (StepFailed (sTime (advancedState (snd r))))))
  /\ (realizeDerivatives (advancedState s0) = Threw ->
      fst r = Some RealizeFailed)
  /\ forall status, fst r <> Some (Finished (Returned status)).
Proof.
  intros Run E L N r. subst r.
  rewrite (stepToExn_turn n m _ _ _ _ Run).
  destruct (turnExn_error_checks s reportTime
              (eventTimeInUse scheduledEventTime) _ _ _ _ _ E) as (Bad & Good).
  destruct (obtainUnrealized_commits _ _ _ _ _ _ E) as (T & _).
  destruct (realizeDerivatives (advancedState s0)) as [|c] eqn:Rd.
  - rewrite (Bad eq_refl). cbn [fst snd].
    split; [exact T|]. split; [intros c Ec; discriminate Ec|].
    split; [reflexivity | intros st; discriminate].
  - rewrite (proj2 (Good c eq_refl) N L). cbn [fst snd].
    split; [exact T|]. split; [intros c' _; reflexivity|].
    split; [intros Ec; discriminate Ec | intros st; discriminate].
Qed.

End RealizationFailure.

(* ------------------------------------------------------------------ *)
(** ** Concrete runs *)

Import Scenario.


Lemma start_of_interval_law_witness :
  startOfContinuousInterval startInteg = true
  /\ fst (stepTo scenarioEnv 3 startInteg (Finite 1) (Finite 0))
     = Some (Returned StartOfContinuousInterval)
  /\ stepCalls (snd (stepTo scenarioEnv 3 startInteg (Finite 1) (Finite 0))) = [].
Proof.
  pose proof (start_of_interval_law scenarioEnv 3
                startInteg
                (Finite 1) (Finite 0) eq_refl) as H.
  split; [reflexivity|].
  split; [exact (proj1 H) | exact (proj1 (proj2 (proj2 (proj2 H))))].
Defined.

(** The solver exhausts its step budget at t = 1/2, before the report time
    1, and the state at 1/2 can be realized: the call returns
    ReachedStepLimit with the Advanced State at 1/2. *)
Lemma step_limit_outcome_witness :
  stepToExn scenarioEnv (realizeBy scenarioEnv) 0 limitInteg (Finite 1) (Finite 0)
  = (None, limitInteg)
  /\ fst (fst (obtainUnrealized scenarioEnv limitInteg
                 (ceiling (Finite 1) (Finite 0)) (stepMode limitInteg)))
     = TooMuchWork (codes scenarioEnv)
  /\ fst (stepToExn scenarioEnv (realizeBy scenarioEnv) 1 limitInteg (Finite 1)
            (Finite 0))
     = Some (Finished (Returned ReachedStepLimit))
  /\ sTime (advancedState
              (snd (stepToExn scenarioEnv (realizeBy scenarioEnv) 1 limitInteg
                      (Finite 1) (Finite 0))))
     = Finite (1 # 2).
Proof.
  pose proof (step_limit_outcome scenarioEnv (realizeBy scenarioEnv) 0 0
                limitInteg (Finite 1) (Finite 0) _ _ _ _
                eq_refl eq_refl eq_refl) as (H1 & H2 & _).
  split; [reflexivity|]. split; [reflexivity|].
  split; [exact (proj1 (H2 _ eq_refl)) | exact H1].
Defined.

(** The same run on a system that cannot be realized after time 1/4: the
    solver exhausts its step budget at t = 1/2, the realization of the
    Advanced State at 1/2 raises, and its exception leaves stepTo;
    ReachedStepLimit is not returned. *)
Lemma step_limit_outcome_counterexample :
  fst (fst (obtainUnrealized singularEnv limitInteg
              (ceiling (Finite 1) (Finite 0)) (stepMode limitInteg)))
  = TooMuchWork (codes singularEnv)
  /\ fst (stepToExn singularEnv (realizeBy singularEnv) 1 limitInteg (Finite 1)
            (Finite 0))
     = Some RealizeFailed
  /\ ~ (forall res tret s0,
          obtainUnrealized singularEnv limitInteg
            (ceiling (Finite 1) (Finite 0)) (stepMode limitInteg)
          = (res, tret, s0) ->
          res = TooMuchWork (codes singularEnv) ->
          forall fuel,
            fst (stepToExn singularEnv (realizeBy singularEnv) (Datatypes.S fuel)
                   limitInteg (Finite 1) (Finite 0))
            = Some (Finished (Returned ReachedStepLimit))).
Proof.
  split; [reflexivity|]. split; [reflexivity|].
  intros H. specialize (H _ _ _ eq_refl eq_refl 0%nat).
  vm_compute in H. discriminate.
Qed.

(** The solver fails with -27 at t = 1/2, where the state can be realized:
    the call raises StepFailed. *)
Lemma step_failure_error_witness :
  stepToExn scenarioEnv (realizeBy scenarioEnv) 0 failInteg (Finite 1) (Finite 0)
  = (None, failInteg)
  /\ fst (fst (obtainUnrealized scenarioEnv failInteg
                 (ceiling (Finite 1) (Finite 0)) (stepMode failInteg))) = -27
  /\ -27 < 0
  /\ -27 <> TooMuchWork (codes scenarioEnv)
  /\ fst (stepToExn scenarioEnv (realizeBy scenarioEnv) 1 failInteg (Finite 1)
            (Finite 0))
     = Some (Finished (StepFailed (Finite (1 # 2)))).
Proof.
  assert (N : -27 <> TooMuchWork (codes scenarioEnv)) by discriminate.
  pose proof (step_failure_error scenarioEnv (realizeBy scenarioEnv) 0 0
                failInteg (Finite 1) (Finite 0) _ _ _ _
                eq_refl eq_refl eq_refl N) as (H1 & H2 & _).
  split; [reflexivity|]. split; [reflexivity|]. split; [reflexivity|].
  split; [exact N|].
  pose proof (H2 _ eq_refl) as H3. rewrite H1 in H3. exact H3.
Defined.

(** The same run on a system that cannot be realized after time 1/4: the
    solver fails with -27 at t = 1/2, the realization of the Advanced State
    at 1/2 raises, and the exception that leaves stepTo is the
    realization's, not StepFailed. *)
Lemma step_failure_error_counterexample :
  fst (fst (obtainUnrealized singularEnv failInteg
              (ceiling (Finite 1) (Finite 0)) (stepMode failInteg)))
  = -27
  /\ fst (stepToExn singularEnv (realizeBy singularEnv) 1 failInteg (Finite 1)
            (Finite 0))
     = Some RealizeFailed
  /\ ~ (forall res tret s0,
          obtainUnrealized singularEnv failInteg
            (ceiling (Finite 1) (Finite 0)) (stepMode failInteg)
          = (res, tret, s0) ->
          res < 0 ->
          res <> TooMuchWork (codes singularEnv) ->
          forall fuel,
            fst (stepToExn singularEnv (realizeBy singularEnv) (Datatypes.S fuel)
                   failInteg (Finite 1) (Finite 0))
            = Some (Finished (StepFailed tret))).
Proof.
  split; [reflexivity|]. split; [reflexivity|].
  intros H.
  assert (N : -27 <> TooMuchWork (codes singularEnv)) by discriminate.
  specialize (H _ _ _ eq_refl eq_refl N 0%nat).
  vm_compute in H. discriminate.
Qed.







(** Scenario B: report at 2, event at 3/2, the solver lands at 17/10.  The
    Advanced State is backed up to 3/2 with the interpolated vector, and the
    first turn of the next call puts the overshot vector back. *)
Lemma overshoot_rewind_witness :
  stepTo scenarioEnv 0 overshootInteg (Finite 2) (Finite (3 # 2))
  = (None, overshootInteg)
  /\ fst (stepTo scenarioEnv 1 overshootInteg (Finite 2) (Finite (3 # 2)))
     = Some (Returned ReachedScheduledEvent)
  /\ Rlt (eventTimeInUse (Finite (3 # 2))) (Finite (17 # 10))
  /\ sTime (advancedState
              (snd (stepTo scenarioEnv 1 overshootInteg (Finite 2)
                      (Finite (3 # 2)))))
     = Finite (3 # 2)
  /\ sY (advancedState
           (snd (stepTo scenarioEnv 1 overshootInteg (Finite 2)
                   (Finite (3 # 2)))))
     = [3 # 2]
  /\ savedY (snd (stepTo scenarioEnv 1 overshootInteg (Finite 2)
                    (Finite (3 # 2))))
     = [5%Q]
  /\ turnReturns scenarioEnv overshootInteg 0 (Finite (17 # 10)) (Finite 2)
       (eventTimeInUse (Finite 0)) = false
  /\ exists l,
      stepCalls
        (snd (stepTo scenarioEnv 2
                (snd (stepTo scenarioEnv 1 overshootInteg (Finite 2)
                        (Finite (3 # 2))))
                (Finite 2) (Finite 0)))
      = l ++ [(Finite 2, Normal); (Finite (3 # 2), Normal)].
Proof.
  pose proof (overshoot_rewind scenarioEnv 0 overshootInteg (Finite 2)
                (Finite (3 # 2)) _ _ _ _ _ eq_refl eq_refl eq_refl eq_refl)
    as ((H1 & H2 & H3 & H4 & H5 & _) & _ & _ & _ & H9).
  split; [reflexivity|]. split; [reflexivity|]. split; [reflexivity|].
  split; [exact H1|]. split; [exact (eq_trans H2 H4)|]. split; [exact H5|].
  split; [reflexivity|].
  exact (H9 0%nat (Finite 2) (Finite 0) eq_refl).
Defined.

(** Scenario B, continued: the next call, with the report time 2 and no
    event, resumes at 17/10, reaches no boundary there and steps the solver
    again. *)
Lemma overshoot_rewind_counterexample :
  fst (stepTo scenarioEnv 5 overshootInteg (Finite 2) (Finite (3 # 2)))
  = Some (Returned ReachedScheduledEvent)
  /\ Rlt (eventTimeInUse (Finite (3 # 2)))
       (previousTimeReturned
          (snd (stepTo scenarioEnv 5 overshootInteg (Finite 2) (Finite (3 # 2)))))
  /\ stepCalls
       (snd (stepTo scenarioEnv 5 overshootInteg (Finite 2) (Finite (3 # 2))))
     = [(Finite (3 # 2), Normal)]
  /\ stepCalls
       (snd (stepTo scenarioEnv 5
               (snd (stepTo scenarioEnv 5 overshootInteg (Finite 2)
                       (Finite (3 # 2))))
               (Finite 2) (Finite 0)))
     = [(Finite 2, Normal); (Finite (3 # 2), Normal)]
  /\ ~ (stepCalls
          (snd (stepTo scenarioEnv 5
                  (snd (stepTo scenarioEnv 5 overshootInteg (Finite 2)
                          (Finite (3 # 2))))
                  (Finite 2) (Finite 0)))
        = stepCalls
            (snd (stepTo scenarioEnv 5 overshootInteg (Finite 2)
                    (Finite (3 # 2))))).
Proof.
  split; [reflexivity|]. split; [reflexivity|]. split; [reflexivity|].
  split; [reflexivity|]. vm_compute. discriminate.
Qed.

(** The scripted solver lands at 17/10.  First call: report at 1, no
    event; the call reports at 1.  Second call: report at 2, event at 3/2;
    the pending result is resumed and the Advanced State is backed up to
    3/2. *)
Lemma time_monotonicity_witness :
  pendingReturnCode overshootInteg = -1
  /\ useInterpolatedState overshootInteg = false
  /\ callsAdvance scenarioEnv 5 overshootInteg
       ([(Finite 1, Finite 0)] ++ [(Finite 2, Finite (3 # 2))]) = true
  /\ callsAhead scenarioEnv 5 overshootInteg
       ([(Finite 1, Finite 0)] ++ [(Finite 2, Finite (3 # 2))]) = true
  /\ exists integ1 integ2,
      stepToCalls scenarioEnv 5 overshootInteg [(Finite 1, Finite 0)]
      = Some integ1
      /\ stepTo scenarioEnv 5 integ1 (Finite 2) (Finite (3 # 2))
         = (Some (Returned ReachedScheduledEvent), integ2)
      /\ Rle (solverTime integ1) (solverTime integ2)
      /\ Rle (sTime (advancedState integ2)) (solverTime integ2)
      /\ solverTime integ2 = Finite (17 # 10)
      /\ sTime (advancedState integ1) = Finite (17 # 10)
      /\ sTime (advancedState integ2) = Finite (3 # 2)
      /\ useInterpolatedState integ2 = true
      /\ Rlt (sTime (interpolatedState integ2)) (solverTime integ2)
      /\ Rle (sTime (interpolatedState integ2)) (sTime (advancedState integ2))
      /\ Rle (previousStartTime integ2) (sTime (interpolatedState integ2)).
Proof.
  assert (Adv : callsAdvance scenarioEnv 5 overshootInteg
                  ([(Finite 1, Finite 0)] ++ [(Finite 2, Finite (3 # 2))])
                = true) by (vm_compute; reflexivity).
  assert (Ahead : callsAhead scenarioEnv 5 overshootInteg
                    ([(Finite 1, Finite 0)] ++ [(Finite 2, Finite (3 # 2))])
                  = true) by (vm_compute; reflexivity).
  split; [reflexivity|]. split; [reflexivity|].
  split; [exact Adv|]. split; [exact Ahead|].
  destruct (stepToCalls scenarioEnv 5 overshootInteg [(Finite 1, Finite 0)])
    as [integ1|] eqn:E1; [|vm_compute in E1; discriminate E1].
  destruct (stepTo scenarioEnv 5 integ1 (Finite 2) (Finite (3 # 2)))
    as [o integ2] eqn:E2.
  assert (O : o = Some (Returned ReachedScheduledEvent)
              /\ solverTime integ2 = Finite (17 # 10)
              /\ sTime (advancedState integ1) = Finite (17 # 10)
              /\ sTime (advancedState integ2) = Finite (3 # 2)
              /\ useInterpolatedState integ2 = true).
  { vm_compute in E1. inversion E1; subst integ1. clear E1.
    vm_compute in E2. inversion E2; subst o integ2.
    repeat split; reflexivity. }
  destruct O as (Eo & S2 & A1 & A2 & U). subst o.
  exists integ1, integ2. split; [reflexivity|]. split; [exact E2|].
  pose proof (time_monotonicity scenarioEnv 5 [(Finite 1, Finite 0)]
                overshootInteg integ1 (Finite 2) (Finite (3 # 2))
                (Returned ReachedScheduledEvent) integ2
                eq_refl eq_refl Adv E1 E2)
    as (_ & H2 & H3 & _ & H5).
  destruct (H5 U) as (I1 & I2 & I3).
  split; [exact H2|]. split; [exact H3|]. split; [exact S2|].
  split; [exact A1|]. split; [exact A2|]. split; [exact U|].
  split; [exact I1|]. split; [exact I2|]. exact (I3 Ahead).
Defined.

(** A solver that strides by 17/10.  First call: report at 1, no event; the
    solver lands at 17/10 and the call reports at 1.  Second call: report at
    2, event at 3/2; the pending result is resumed and the Advanced State is
    backed up to 3/2: its time is 17/10 after the first call and 3/2 after
    the second, and the Interpolated State in use after the second call is
    at 3/2 as well, not strictly before the Advanced State.  And a call
    with the report time 0, where the integrator is: the Interpolated State
    is at 0, where the solver step started, not strictly after it. *)
Lemma time_monotonicity_counterexample :
  fst (stepTo strideEnv 5 (strideInteg 0 [1%Q] 1 17) (Finite 1) (Finite 0))
  = Some (Returned ReachedReportTime)
  /\ fst (stepTo strideEnv 5
            (snd (stepTo strideEnv 5 (strideInteg 0 [1%Q] 1 17) (Finite 1)
                    (Finite 0)))
            (Finite 2) (Finite (3 # 2)))
     = Some (Returned ReachedScheduledEvent)
  /\ ~ Rle
         (sTime (advancedState
                   (snd (stepTo strideEnv 5 (strideInteg 0 [1%Q] 1 17)
                           (Finite 1) (Finite 0)))))
         (sTime (advancedState
                   (snd (stepTo strideEnv 5
                           (snd (stepTo strideEnv 5 (strideInteg 0 [1%Q] 1 17)
                                   (Finite 1) (Finite 0)))
                           (Finite 2) (Finite (3 # 2))))))
  /\ useInterpolatedState
       (snd (stepTo strideEnv 5
               (snd (stepTo strideEnv 5 (strideInteg 0 [1%Q] 1 17)
                       (Finite 1) (Finite 0)))
               (Finite 2) (Finite (3 # 2))))
     = true
  /\ ~ Rlt
         (sTime (interpolatedState
                   (snd (stepTo strideEnv 5
                           (snd (stepTo strideEnv 5 (strideInteg 0 [1%Q] 1 17)
                                   (Finite 1) (Finite 0)))
                           (Finite 2) (Finite (3 # 2))))))
         (sTime (advancedState
                   (snd (stepTo strideEnv 5
                           (snd (stepTo strideEnv 5 (strideInteg 0 [1%Q] 1 17)
                                   (Finite 1) (Finite 0)))
                           (Finite 2) (Finite (3 # 2))))))
  /\ useInterpolatedState
       (snd (stepTo strideEnv 5 (strideInteg 0 [1%Q] 1 17) (Finite 0)
               (Finite 0)))
     = true
  /\ ~ Rlt
         (previousStartTime
            (snd (stepTo strideEnv 5 (strideInteg 0 [1%Q] 1 17) (Finite 0)
                    (Finite 0))))
         (sTime (interpolatedState
                   (snd (stepTo strideEnv 5 (strideInteg 0 [1%Q] 1 17)
                           (Finite 0) (Finite 0))))).
Proof.
  split; [vm_compute; reflexivity|]. split; [vm_compute; reflexivity|].
  split; [vm_compute; discriminate|].
  split; [vm_compute; reflexivity|].
  split; [vm_compute; discriminate|].
  split; [vm_compute; reflexivity|]. vm_compute. discriminate.
Qed.

(* ------------------------------------------------------------------ *)
(** ** More on the stepping loop *)

Section ControllerMore.
Context {S : Type}.
Variable env : Env S.
Implicit Type integ s : IntegRep S.

Ltac case_ifs :=
  repeat match goal with
    | |- context [if ?b then _ else _] => destruct b eqn:?
    end.

(** A loop that is still running after [n + 1] turns ran [n] turns and then
    one that did not return. *)
Lemma stepLoop_last_turn n s0 s reportTime eventTime tMax mode :
  stepLoop env (Datatypes.S n) s0 reportTime eventTime tMax mode = (None, s) ->
  exists sp,
    stepLoop env n s0 reportTime eventTime tMax mode = (None, sp)
    /\ turn env sp reportTime eventTime tMax mode = Again s.
Proof.
  revert s0. induction n as [|n IH]; intros s0 H.
  - simpl in H. destruct (turn env s0 _ _ _ _) as [o s'|s'] eqn:T;
      [discriminate|]. inversion H; subst. exists s0. auto.
  - change (stepLoop env (Datatypes.S (Datatypes.S n)) s0 reportTime eventTime
              tMax mode)
      with (match turn env s0 reportTime eventTime tMax mode with
            | Done o integ' => (Some o, integ')
            | Again integ' =>
                stepLoop env (Datatypes.S n) integ' reportTime eventTime tMax mode
            end) in H.
    destruct (turn env s0 _ _ _ _) as [o s'|s'] eqn:T; [discriminate|].
    destruct (IH s' H) as (sp & L & T').
    exists sp. split; [|exact T'].
    simpl. rewrite T. exact L.
Qed.

(** A loop that returned did so from a turn that found the loop running. *)
Lemma stepLoop_returning_turn fuel s0 o s' reportTime eventTime tMax mode :
  stepLoop env fuel s0 reportTime eventTime tMax mode = (Some o, s') ->
  exists n sp,
    (n < fuel)%nat
    /\ stepLoop env n s0 reportTime eventTime tMax mode = (None, sp)
    /\ turn env sp reportTime eventTime tMax mode = Done o s'.
Proof.
  revert s0. induction fuel as [|fuel IH]; intros s0 H; simpl in H;
    [discriminate|].
  destruct (turn env s0 _ _ _ _) as [o1 s1|s1] eqn:T.
  - inversion H; subst. exists 0%nat, s0. repeat split; [lia | exact T].
  - destruct (IH s1 H) as (n & sp & Hn & L & T').
    exists (Datatypes.S n), sp. repeat split; [lia | | exact T'].
    simpl. rewrite T. exact L.
Qed.

(** Below the report time or the event time, and below the event time: below
    the ceiling. *)
Lemma below_boundaries_below_ceiling reportTime eventTime tret :
  Rleb reportTime tret && Rleb reportTime eventTime = false ->
  Rleb eventTime tret = false ->
  Rlt tret (Rmin reportTime eventTime).
Proof.
  intros A B. apply andb_false_iff in A.
  destruct (Rmin_cases reportTime eventTime) as [[M C]|[M C]]; rewrite M.
  - destruct A as [A|A]; [now apply Rleb_false_lt|].
    unfold Rle in C. congruence.
  - now apply Rleb_false_lt.
Qed.

(** A turn after which the loop goes on. *)
Lemma turn_again s s' reportTime eventTime mode :
  turn env s reportTime eventTime (Rmin reportTime eventTime) mode = Again s' ->
  Rlt (sTime (advancedState s')) (Rmin reportTime eventTime)
  /\ useInterpolatedState s' = false
  /\ pendingReturnCode s' = -1
  /\ previousTimeReturned s' = sTime (advancedState s')
  /\ userReturnEveryInternalStep s' <> 1.
Proof.
  unfold turn.
  destruct (obtainResult env s _ mode) as [[res tret] s1] eqn:E.
  intros D.
  destruct (obtainResult_commits env _ _ _ _ _ _ E) as (T & PR & P & _).
  destruct (decide_again _ _ _ _ _ _ _ _ D) as (Es' & A & B).
  pose proof (below_boundaries_below_ceiling _ _ _ A B) as Below.
  destruct (overshootCheck_frame env s1 (Rmin reportTime eventTime) tret)
    as (F1 & F2 & F3 & _ & _ & _ & _ & F8).
  assert (O : Rltb (Rmin reportTime eventTime) tret = false).
  { unfold Rltb. pose proof (Rlt_le _ _ Below) as X. unfold Rle in X.
    now rewrite X. }
  subst s'. rewrite F1, F2, F3, F8, T, PR, P, overshootCheck_flag, O.
  repeat split; try assumption.
  intros U. pose proof (decide_every_step env s1 reportTime eventTime
                          (Rmin reportTime eventTime) res tret U)
    as (o & s2 & D2).
  congruence.
Qed.

(** X1.  While a call of stepTo keeps looping, every turn it has completed
    left the Advanced State strictly before the ceiling, with nothing
    pending and no interpolated state in use; and such a call is never one
    with userReturnEveryInternalStep == 1. *)
Theorem loop_runs_below_ceiling n integ reportTime scheduledEventTime s :
  stepTo env (Datatypes.S n) integ reportTime scheduledEventTime = (None, s) ->
  Rlt (sTime (advancedState s)) (ceiling reportTime scheduledEventTime)
  /\ useInterpolatedState s = false
  /\ pendingReturnCode s = -1
  /\ previousTimeReturned s = sTime (advancedState s)
  /\ userReturnEveryInternalStep integ <> 1.
Proof.
  intros H. destruct (stepTo_running _ _ _ _ _ _ H) as [F L].
  destruct (stepLoop_last_turn _ _ _ _ _ _ _ L) as (sp & Lp & T).
  unfold ceiling in *.
  destruct (turn_again _ _ _ _ _ T) as (A & B & C & D & U).
  repeat split; try assumption.
  pose proof (stepLoop_frame env (Datatypes.S n) integ reportTime
                (eventTimeInUse scheduledEventTime)
                (Rmin reportTime (eventTimeInUse scheduledEventTime))
                (stepMode integ)) as Fr.
  rewrite L in Fr. simpl in Fr. destruct Fr as (_ & Fu & _). congruence.
Qed.

(** *** Which solver calls a call of stepTo makes *)

Lemma turn_stepCalls_exact s reportTime eventTime tMax mode :
  stepCalls (turnState (turn env s reportTime eventTime tMax mode))
  = (if pendingReturnCode s =? -1 then [(tMax, mode)] else [])
    ++ stepCalls s.
Proof.
  unfold turn.
  destruct (obtainResult env s tMax mode) as [[res tret] s1] eqn:E.
  destruct (decide_frame env s1 reportTime eventTime tMax res tret) as (C & _).
  rewrite C.
  destruct (Z.eq_dec (pendingReturnCode s) (-1)) as [P|P].
  - destruct (obtainResult_fresh env s tMax mode P) as (s1' & E' & L & _).
    rewrite E in E'. inversion E'; subst. rewrite P. exact L.
  - destruct (obtainResult_pending env s tMax mode P) as (s1' & E' & L & _).
    rewrite E in E'. inversion E'; subst.
    apply Z.eqb_neq in P. rewrite P. exact L.
Qed.

Lemma stepLoop_calls fuel s reportTime eventTime tMax mode :
  exists k,
    (k <= fuel)%nat
    /\ stepCalls (snd (stepLoop env fuel s reportTime eventTime tMax mode))
       = repeat (tMax, mode) k ++ stepCalls s.
Proof.
  revert s. induction fuel as [|fuel IH]; intros s.
  - exists 0%nat. split; [lia | reflexivity].
  - pose proof (turn_stepCalls_exact s reportTime eventTime tMax mode) as T.
    simpl. destruct (turn env s reportTime eventTime tMax mode) as [o s'|s'];
      simpl in T.
    + destruct (pendingReturnCode s =? -1).
      * exists 1%nat. split; [lia | exact T].
      * exists 0%nat. split; [lia | exact T].
    + destruct (IH s') as (k & Hk & Hc). rewrite Hc, T.
      destruct (pendingReturnCode s =? -1).
      * exists (Datatypes.S k). split; [lia|].
        rewrite app_assoc, <- repeat_cons. reflexivity.
      * exists k. split; [lia | reflexivity].
Qed.

(** X2.  Every solver call a call of stepTo makes is a step toward the
    call's ceiling min(reportTime, event time in use) in the mode chosen
    from userFinalTime and userReturnEveryInternalStep; the call makes at
    most one solver call per loop turn and none when it returns
    StartOfContinuousInterval. *)
Theorem solver_calls_use_ceiling fuel integ reportTime scheduledEventTime :
  exists k,
    (k <= fuel)%nat
    /\ stepCalls (snd (stepTo env fuel integ reportTime scheduledEventTime))
       = repeat (ceiling reportTime scheduledEventTime, stepMode integ) k
         ++ stepCalls integ
    /\ (if startOfContinuousInterval integ then k = 0%nat else True).
Proof.
  unfold stepTo. destruct (startOfContinuousInterval integ) eqn:F.
  - exists 0%nat. repeat split. lia.
  - destruct (stepLoop_calls fuel integ reportTime
                (eventTimeInUse scheduledEventTime)
                (ceiling reportTime scheduledEventTime) (stepMode integ))
      as (k & Hk & Hc).
    exists k. repeat split; [exact Hk | exact Hc].
Qed.

(** X3.  With userReturnEveryInternalStep == 1 a call of stepTo never loops:
    it returns from its first turn whatever the solver answers, so that one
    turn of fuel is as good as any number, and it makes at most one solver
    call. *)
Theorem every_step_call_returns fuel integ reportTime scheduledEventTime :
  userReturnEveryInternalStep integ = 1 ->
  let r := stepTo env 1 integ reportTime scheduledEventTime in
  fst r <> None
  /\ stepTo env (Datatypes.S fuel) integ reportTime scheduledEventTime = r
  /\ (stepCalls (snd r) = stepCalls integ
      \/ stepCalls (snd r)
         = (ceiling reportTime scheduledEventTime, stepMode integ)
           :: stepCalls integ).
Proof.
  intros U r. subst r. unfold stepTo.
  destruct (startOfContinuousInterval integ) eqn:F.
  - simpl. split; [discriminate|]. split; [reflexivity | now left].
  - fold (ceiling reportTime scheduledEventTime).
    pose proof (turn_stepCalls_exact integ reportTime
                  (eventTimeInUse scheduledEventTime)
                  (ceiling reportTime scheduledEventTime) (stepMode integ)) as C.
    cbn [stepLoop]. unfold turn in *.
    destruct (obtainResult env integ _ (stepMode integ)) as [[res tret] s1] eqn:E.
    destruct (obtainResult_commits env _ _ _ _ _ _ E)
      as (_ & _ & _ & _ & _ & _ & U1 & _).
    destruct (decide_every_step env s1 reportTime
                (eventTimeInUse scheduledEventTime)
                (ceiling reportTime scheduledEventTime) res tret)
      as (o & s' & D); [congruence|].
    rewrite D in *. cbn [fst snd turnState] in *.
    split; [discriminate|]. split; [reflexivity|].
    rewrite C. destruct (pendingReturnCode integ =? -1); [now right | now left].
Qed.

(** *** What each outcome says about the state *)

Lemma stepTo_returning_turn fuel integ reportTime scheduledEventTime o integ' :
  stepTo env fuel integ reportTime scheduledEventTime = (Some o, integ') ->
  o <> Returned StartOfContinuousInterval ->
  exists sp res tret s1,
    obtainResult env sp (ceiling reportTime scheduledEventTime) (stepMode integ)
    = (res, tret, s1)
    /\ decide env s1 reportTime (eventTimeInUse scheduledEventTime)
         (ceiling reportTime scheduledEventTime) res tret = Done o integ'.
Proof.
  intros H N. unfold stepTo in H.
  destruct (startOfContinuousInterval integ).
  - inversion H; subst. contradiction.
  - fold (ceiling reportTime scheduledEventTime) in H.
    destruct (stepLoop_returning_turn _ _ _ _ _ _ _ _ H) as (n & sp & _ & _ & T).
    unfold turn in T.
    destruct (obtainResult env sp _ (stepMode integ)) as [[res tret] s1] eqn:E.
    exists sp, res, tret, s1. auto.
Qed.

Lemma decide_report_time s1 reportTime eventTime tMax res tret s' :
  decide env s1 reportTime eventTime tMax res tret
  = Done (Returned ReachedReportTime) s' ->
  res <> TooMuchWork (codes env) /\ 0 <= res
  /\ Rle reportTime tret /\ Rle reportTime eventTime
  /\ s' = setStepCommunicationStatus
            (set_pendingReturnCode
               (set_savedY (overshootCheck env s1 tMax tret) []) res)
            StepHasBeenReturnedNoEvent.
Proof.
  unfold decide.
  destruct (res =? TooMuchWork (codes env)) eqn:N; [discriminate|].
  destruct (res <? 0) eqn:L; [discriminate|].
  destruct (Rleb reportTime tret && Rleb reportTime eventTime) eqn:A.
  - intros H. inversion H. apply andb_true_iff in A. destruct A as [A B].
    apply Z.eqb_neq in N. apply Z.ltb_ge in L. auto.
  - case_ifs; discriminate.
Qed.

Lemma decide_interior s1 reportTime eventTime tMax res tret o s' :
  decide env s1 reportTime eventTime tMax res tret = Done o s' ->
  o = Returned EndOfSimulation \/ o = Returned ReachedEventTrigger
  \/ o = Returned TimeHasAdvanced ->
  res <> TooMuchWork (codes env) /\ 0 <= res
  /\ Rleb reportTime tret && Rleb reportTime eventTime = false
  /\ Rleb eventTime tret = false
  /\ advancedState s' = advancedState s1
  /\ pendingReturnCode s' = pendingReturnCode s1
  /\ useInterpolatedState s' = Rltb tMax tret
  /\ (o = Returned EndOfSimulation ->
      res = TstopReturn (codes env)
      /\ terminationReason s' = Some ReachedFinalTime
      /\ stepCommunicationStatus s' = FinalTimeHasBeenReturned).
Proof.
  intros D O.
  destruct (overshootCheck_frame env s1 tMax tret) as (F1 & F2 & _).
  pose proof (overshootCheck_flag env s1 tMax tret) as FU.
  unfold decide in D.
  destruct (res =? TooMuchWork (codes env)) eqn:N;
    [inversion D; subst; destruct O as [O|[O|O]]; discriminate|].
  destruct (res <? 0) eqn:L;
    [inversion D; subst; destruct O as [O|[O|O]]; discriminate|].
  destruct (Rleb reportTime tret && Rleb reportTime eventTime) eqn:A;
    [inversion D; subst; destruct O as [O|[O|O]]; discriminate|].
  destruct (Rleb eventTime tret) eqn:B;
    [inversion D; subst; destruct O as [O|[O|O]]; discriminate|].
  apply Z.eqb_neq in N. apply Z.ltb_ge in L.
  destruct (res =? TstopReturn (codes env)) eqn:T.
  - inversion D; subst. simpl. apply Z.eqb_eq in T.
    repeat split; auto.
  - destruct (res =? RootReturn (codes env)) eqn:R.
    + inversion D; subst. unfold reportTriggers. simpl.
      repeat split; auto; discriminate.
    + destruct (userReturnEveryInternalStep _ =? 1); inversion D; subst.
      simpl. repeat split; auto; discriminate.
Qed.

Lemma returned_report_time fuel integ reportTime scheduledEventTime integ' :
  stepTo env fuel integ reportTime scheduledEventTime
  = (Some (Returned ReachedReportTime), integ') ->
  Rle reportTime (sTime (advancedState integ'))
  /\ Rle reportTime (eventTimeInUse scheduledEventTime)
  /\ sTime (advancedState integ') = previousTimeReturned integ'
  /\ savedY integ' = []
  /\ 0 <= pendingReturnCode integ'
  /\ pendingReturnCode integ' <> TooMuchWork (codes env).
Proof.
  intros H.
  destruct (stepTo_returning_turn _ _ _ _ _ _ H) as (sp & res & tret & s1 & E & D);
    [discriminate|].
  destruct (obtainResult_commits env _ _ _ _ _ _ E) as (T & PR & _).
  destruct (decide_report_time _ _ _ _ _ _ _ D) as (N & L & A & B & Es').
  destruct (overshootCheck_frame env s1 (ceiling reportTime scheduledEventTime)
              tret) as (F1 & _ & F3 & _).
  subst integ'. simpl. rewrite F1, F3, T, PR. repeat split; auto.
Qed.

Lemma returned_scheduled_event fuel integ reportTime scheduledEventTime
  integ' :
  stepTo env fuel integ reportTime scheduledEventTime
  = (Some (Returned ReachedScheduledEvent), integ') ->
  let eventTime := eventTimeInUse scheduledEventTime in
  Rle eventTime (previousTimeReturned integ')
  /\ Rle eventTime (sTime (advancedState integ'))
  /\ Rle (sTime (advancedState integ')) eventTime
  /\ (Rlt (previousTimeReturned integ') reportTime \/ Rlt eventTime reportTime)
  /\ 0 <= pendingReturnCode integ'
  /\ pendingReturnCode integ' <> TooMuchWork (codes env).
Proof.
  intros H eventTime.
  destruct (stepTo_returning_turn _ _ _ _ _ _ H) as (sp & res & tret & s1 & E & D);
    [discriminate|].
  destruct (obtainResult_commits env _ _ _ _ _ _ E) as (T & PR & _).
  destruct (decide_scheduled_event env _ _ _ _ _ _ _ D) as (N & L & A & B & Es').
  fold eventTime in A, B, Es'.
  destruct (overshootCheck_frame env s1 (ceiling reportTime scheduledEventTime)
              tret) as (F1 & _ & F3 & _).
  assert (Side : Rlt tret reportTime \/ Rlt eventTime reportTime).
  { apply andb_false_iff in A. destruct A as [A|A];
      [left | right]; now apply Rleb_false_lt. }
  subst integ'. destruct (Rltb eventTime tret) eqn:O; simpl.
  - rewrite F3, PR. repeat split; auto; apply Rle_refl.
  - rewrite F1, F3, T, PR. repeat split; auto.
    now apply Rltb_false_le.
Qed.

(** X4.  A call of stepTo returns ReachedReportTime only when the solver's
    returned time has reached reportTime and reportTime is not after the
    event time in use; the Advanced State is then left at the solver's
    returned time (it is never backed up to the report time), savedY is
    empty and the raw result, which passed the error checks, is pending. *)
Theorem report_outcome_sound fuel integ reportTime scheduledEventTime integ' :
  stepTo env fuel integ reportTime scheduledEventTime
  = (Some (Returned ReachedReportTime), integ') ->
  Rle reportTime (sTime (advancedState integ'))
  /\ Rle reportTime (eventTimeInUse scheduledEventTime)
  /\ sTime (advancedState integ') = previousTimeReturned integ'
  /\ savedY integ' = []
  /\ 0 <= pendingReturnCode integ'
  /\ pendingReturnCode integ' <> TooMuchWork (codes env).
Proof. apply returned_report_time. Qed.

(** X5.  A call of stepTo returns ReachedScheduledEvent only when the
    solver's returned time has reached the event time in use and the report
    match did not apply; the Advanced State is then left at the event time
    (neither before nor after it), and the raw result, which passed the
    error checks, is pending. *)
Theorem scheduled_event_outcome_sound fuel integ reportTime scheduledEventTime
  integ' :
  stepTo env fuel integ reportTime scheduledEventTime
  = (Some (Returned ReachedScheduledEvent), integ') ->
  let eventTime := eventTimeInUse scheduledEventTime in
  Rle eventTime (previousTimeReturned integ')
  /\ Rle eventTime (sTime (advancedState integ'))
  /\ Rle (sTime (advancedState integ')) eventTime
  /\ (Rlt (previousTimeReturned integ') reportTime \/ Rlt eventTime reportTime)
  /\ 0 <= pendingReturnCode integ'
  /\ pendingReturnCode integ' <> TooMuchWork (codes env).
Proof. apply returned_scheduled_event. Qed.

(** X6.  A call of stepTo returns EndOfSimulation, ReachedEventTrigger or
    TimeHasAdvanced only with the solver's returned time strictly before
    the ceiling: the Advanced State is at that time, no interpolated state
    is in use and nothing is pending, so that the next call steps the
    solver.  EndOfSimulation comes with the termination reason
    ReachedFinalTime. *)
Theorem interior_outcome_sound fuel integ reportTime scheduledEventTime o integ' :
  stepTo env fuel integ reportTime scheduledEventTime = (Some o, integ') ->
  o = Returned EndOfSimulation \/ o = Returned ReachedEventTrigger
  \/ o = Returned TimeHasAdvanced ->
  Rlt (sTime (advancedState integ')) (ceiling reportTime scheduledEventTime)
  /\ sTime (advancedState integ') = previousTimeReturned integ'
  /\ useInterpolatedState integ' = false
  /\ pendingReturnCode integ' = -1
  /\ (o = Returned EndOfSimulation ->
      terminationReason integ' = Some ReachedFinalTime).
Proof.
  intros H O.
  destruct (stepTo_returning_turn _ _ _ _ _ _ H) as (sp & res & tret & s1 & E & D).
  { destruct O as [O|[O|O]]; rewrite O; discriminate. }
  destruct (obtainResult_commits env _ _ _ _ _ _ E) as (T & PR & P & _).
  destruct (decide_interior _ _ _ _ _ _ _ _ D O)
    as (N & L & A & B & Adv & Pend & Fl & End).
  destruct (decide_frame env s1 reportTime (eventTimeInUse scheduledEventTime)
              (ceiling reportTime scheduledEventTime) res tret)
    as (_ & _ & PR' & _).
  rewrite D in PR'. simpl in PR'.
  pose proof (below_boundaries_below_ceiling _ _ _ A B) as Below.
  fold (ceiling reportTime scheduledEventTime) in Below.
  rewrite Adv, Pend, Fl, PR', T, PR, P.
  repeat split; auto.
  - unfold Rltb. pose proof (Rlt_le _ _ Below) as X. unfold Rle in X.
    now rewrite X.
  - intros Eo. now destruct (End Eo) as (_ & R & _).
Qed.

(** *** From one call to the next *)

Lemma stepTo_flag_down fuel integ reportTime scheduledEventTime :
  startOfContinuousInterval
    (snd (stepTo env fuel integ reportTime scheduledEventTime)) = false.
Proof.
  unfold stepTo. destruct (startOfContinuousInterval integ) eqn:F.
  - reflexivity.
  - pose proof (stepLoop_frame env fuel integ reportTime
                  (eventTimeInUse scheduledEventTime)
                  (Rmin reportTime (eventTimeInUse scheduledEventTime))
                  (stepMode integ)) as (Fr & _).
    simpl in Fr. congruence.
Qed.

(** X7.  After ReachedReportTime the first turn of the next call resumes
    the pending result without invoking the solver and without touching the
    Advanced State's time or vector: the state reported on is the state the
    controller goes on from. *)
Theorem report_resumption fuel integ reportTime scheduledEventTime integ' :
  stepTo env fuel integ reportTime scheduledEventTime
  = (Some (Returned ReachedReportTime), integ') ->
  forall tMax2 mode2,
    exists s2,
      obtainResult env integ' tMax2 mode2
      = (pendingReturnCode integ', previousTimeReturned integ', s2)
      /\ stepCalls s2 = stepCalls integ'
      /\ cpodes s2 = cpodes integ'
      /\ sY (advancedState s2) = sY (advancedState integ')
      /\ sTime (advancedState s2) = sTime (advancedState integ').
Proof.
  intros H tMax2 mode2.
  destruct (returned_report_time _ _ _ _ _ H) as (_ & _ & T & Sv & P & _).
  assert (P' : pendingReturnCode integ' <> -1) by lia.
  destruct (obtainResult_pending env integ' tMax2 mode2 P')
    as (s2 & E2 & K1 & K2 & _ & K4).
  exists s2. destruct (obtainResult_commits env _ _ _ _ _ _ E2) as (Q1 & _).
  repeat split; try assumption.
  - rewrite K4, Sv. reflexivity.
  - congruence.
Qed.

Lemma decide_stop_time s1 reportTime eventTime tMax res tret :
  res <> TooMuchWork (codes env) -> 0 <= res ->
  Rlt tret reportTime -> Rlt tret eventTime ->
  res = TstopReturn (codes env) ->
  decide env s1 reportTime eventTime tMax res tret
  = Done (Returned EndOfSimulation)
      (set_terminationReason
         (setStepCommunicationStatus (overshootCheck env s1 tMax tret)
            FinalTimeHasBeenReturned)
         ReachedFinalTime).
Proof.
  intros N L A B T. unfold decide.
  apply Z.eqb_neq in N. rewrite N.
  assert (L' : (res <? 0) = false) by (apply Z.ltb_ge; exact L). rewrite L'.
  unfold Rlt, Rltb in A, B. apply negb_true_iff in A, B. rewrite A, B.
  apply Z.eqb_eq in T. rewrite T. reflexivity.
Qed.

(** X8.  A stop time that coincides with a report time or a scheduled event
    is delivered in two calls: when the call that returns ReachedReportTime
    or ReachedScheduledEvent leaves TstopReturn pending, the next call, if
    its report time and event time are after the solver's returned time,
    returns EndOfSimulation from its first turn without invoking the
    solver, with the termination reason ReachedFinalTime. *)
Theorem stop_time_is_deferred fuel integ reportTime scheduledEventTime o integ'
  fuel2 reportTime2 scheduledEventTime2 :
  stepTo env fuel integ reportTime scheduledEventTime = (Some o, integ') ->
  o = Returned ReachedReportTime \/ o = Returned ReachedScheduledEvent ->
  pendingReturnCode integ' = TstopReturn (codes env) ->
  Rlt (previousTimeReturned integ') reportTime2 ->
  Rlt (previousTimeReturned integ') (eventTimeInUse scheduledEventTime2) ->
  let r2 := stepTo env (Datatypes.S fuel2) integ' reportTime2
              scheduledEventTime2 in
  fst r2 = Some (Returned EndOfSimulation)
  /\ stepCalls (snd r2) = stepCalls integ'
  /\ terminationReason (snd r2) = Some ReachedFinalTime
  /\ pendingReturnCode (snd r2) = -1.
Proof.
  intros H O P A B r2. subst r2.
  assert (Ok : 0 <= pendingReturnCode integ'
               /\ pendingReturnCode integ' <> TooMuchWork (codes env)).
  { destruct O as [O|O]; subst o.
    - now destruct (returned_report_time _ _ _ _ _ H) as (_ & _ & _ & _ & X).
    - now destruct (returned_scheduled_event _ _ _ _ _ H)
        as (_ & _ & _ & _ & X). }
  destruct Ok as [L N].
  assert (P' : pendingReturnCode integ' <> -1) by lia.
  pose proof (stepTo_flag_down fuel integ reportTime scheduledEventTime) as F.
  rewrite H in F. simpl in F.
  unfold stepTo. rewrite F. cbn [stepLoop].
  set (tMax2 := Rmin reportTime2 (eventTimeInUse scheduledEventTime2)).
  destruct (obtainResult_pending env integ' tMax2 (stepMode integ') P')
    as (s2 & E2 & K1 & _).
  rewrite (turn_unfold env _ reportTime2 (eventTimeInUse scheduledEventTime2)
             _ _ _ _ _ E2).
  destruct (obtainResult_commits env _ _ _ _ _ _ E2) as (_ & _ & P2 & _).
  pose proof (decide_frame env s2 reportTime2
                (eventTimeInUse scheduledEventTime2) tMax2
                (pendingReturnCode integ') (previousTimeReturned integ'))
    as (C & _).
  rewrite (decide_stop_time s2 reportTime2 (eventTimeInUse scheduledEventTime2)
             tMax2 _ _ N L A B P) in *.
  destruct (overshootCheck_frame env s2 tMax2 (previousTimeReturned integ'))
    as (_ & F2 & _).
  simpl in *. repeat split; congruence.
Qed.

(** *** What a call leaves alone *)

Lemma turn_discrete s reportTime eventTime tMax mode :
  let s' := turnState (turn env s reportTime eventTime tMax mode) in
  sDiscrete (advancedState s') = sDiscrete (advancedState s)
  /\ sNEvents (advancedState s') = sNEvents (advancedState s).
Proof.
  unfold turn, obtainResult, decide, overshootCheck, backUpToEvent,
    reportTriggers.
  case_ifs; simpl; split; reflexivity.
Qed.

(** X9.  stepTo changes the Advanced State's time, vector and derived
    vectors only: its discrete content and its number of event triggers are
    the same after any number of turns, whether or not the call returns. *)
Theorem stepTo_keeps_discrete_content fuel integ reportTime scheduledEventTime :
  let integ' := snd (stepTo env fuel integ reportTime scheduledEventTime) in
  sDiscrete (advancedState integ') = sDiscrete (advancedState integ)
  /\ sNEvents (advancedState integ') = sNEvents (advancedState integ).
Proof.
  unfold stepTo. destruct (startOfContinuousInterval integ); [simpl; auto|].
  generalize (Rmin reportTime (eventTimeInUse scheduledEventTime)) as tMax.
  generalize (eventTimeInUse scheduledEventTime) as eventTime.
  generalize (stepMode integ) as mode. intros mode eventTime tMax.
  revert integ. induction fuel as [|fuel IH]; intros integ; simpl; [auto|].
  pose proof (turn_discrete integ reportTime eventTime tMax mode) as (D & N).
  destruct (turn env integ reportTime eventTime tMax mode) as [o s'|s'];
    simpl in *; [auto|].
  destruct (IH s') as (D' & N'). split; congruence.
Qed.

Lemma obtainResult_dimension s tMax mode res tret s1 :
  obtainResult env s tMax mode = (res, tret, s1) ->
  length (savedY s) = 0%nat
  \/ length (savedY s) = length (sY (advancedState s)) ->
  length (sY (advancedState s1)) = length (sY (advancedState s))
  /\ savedY s1 = savedY s
  /\ interpolatedState s1 = interpolatedState s.
Proof.
  intros E Fit. unfold obtainResult in E.
  destruct (pendingReturnCode s =? -1).
  - inversion E; subst. simpl. rewrite filled_length. auto.
  - destruct (0 <? length (savedY s))%nat eqn:Z; inversion E; subst; simpl.
    + apply Nat.ltb_lt in Z. repeat split. lia.
    + auto.
Qed.

Lemma decide_dimension s1 reportTime eventTime res tret :
  length (savedY s1) = 0%nat
  \/ length (savedY s1) = length (sY (advancedState s1)) ->
  let s' :=
    turnState (decide env s1 reportTime eventTime
                 (Rmin reportTime eventTime) res tret) in
  length (sY (advancedState s')) = length (sY (advancedState s1))
  /\ (length (savedY s') = 0%nat
      \/ length (savedY s') = length (sY (advancedState s')))
  /\ (length (sY (interpolatedState s1)) = length (sY (advancedState s1)) ->
      length (sY (interpolatedState s')) = length (sY (advancedState s'))).
Proof.
  intros Fit.
  unfold decide, overshootCheck, backUpToEvent, reportTriggers,
    createInterpolatedState, realizeInterpolated, realizeAdvanced.
  case_ifs; simpl; rewrite ?filled_length;
    (split; [|split]); try (intros I); try lia; auto; try (right; lia);
    try (left; reflexivity);
    match goal with
    | A : Rleb ?r ?t && Rleb ?r ?e = false,
      O : Rltb ?e ?t = true,
      N : Rltb (Rmin ?r ?e) ?t = false |- _ =>
        exfalso; rewrite (ceiling_is_event_time r e t A O) in N; congruence
    end.
Qed.

Lemma turn_dimension s reportTime eventTime mode :
  length (savedY s) = 0%nat
  \/ length (savedY s) = length (sY (advancedState s)) ->
  let s' :=
    turnState (turn env s reportTime eventTime (Rmin reportTime eventTime)
                 mode) in
  length (sY (advancedState s')) = length (sY (advancedState s))
  /\ (length (savedY s') = 0%nat
      \/ length (savedY s') = length (sY (advancedState s')))
  /\ (length (sY (interpolatedState s)) = length (sY (advancedState s)) ->
      length (sY (interpolatedState s')) = length (sY (advancedState s'))).
Proof.
  intros Fit. unfold turn.
  destruct (obtainResult env s _ mode) as [[res tret] s1] eqn:E.
  destruct (obtainResult_dimension _ _ _ _ _ _ E Fit) as (L & Sv & I).
  assert (Fit1 : length (savedY s1) = 0%nat
                 \/ length (savedY s1) = length (sY (advancedState s1)))
    by (rewrite Sv, L; exact Fit).
  destruct (decide_dimension s1 reportTime eventTime res tret Fit1)
    as (L' & Fit' & I').
  rewrite I, L in I'. rewrite L in L'. auto.
Qed.

(** X10.  The dimension of the continuous state is kept: when the saved
    vector, if there is one, has the length of the Advanced State's vector,
    a call of stepTo leaves an Advanced State vector of the same length and
    a saved vector that again is empty or of that length, through fresh
    solver calls, resumptions and event-time rewinds alike; an Interpolated
    State of that length stays of that length. *)
Theorem stepTo_keeps_dimension fuel integ reportTime scheduledEventTime :
  length (savedY integ) = 0%nat
  \/ length (savedY integ) = length (sY (advancedState integ)) ->
  let integ' := snd (stepTo env fuel integ reportTime scheduledEventTime) in
  length (sY (advancedState integ')) = length (sY (advancedState integ))
  /\ (length (savedY integ') = 0%nat
      \/ length (savedY integ') = length (sY (advancedState integ')))
  /\ (length (sY (interpolatedState integ))
      = length (sY (advancedState integ)) ->
      length (sY (interpolatedState integ'))
      = length (sY (advancedState integ'))).
Proof.
  unfold stepTo. destruct (startOfContinuousInterval integ); [simpl; auto|].
  generalize (eventTimeInUse scheduledEventTime) as eventTime.
  generalize (stepMode integ) as mode. intros mode eventTime.
  revert integ. induction fuel as [|fuel IH]; intros integ Fit; simpl; [auto|].
  pose proof (turn_dimension integ reportTime eventTime mode Fit)
    as (D & Fit' & I).
  destruct (turn env integ reportTime eventTime _ mode) as [o s'|s'];
    simpl in *; [auto|].
  destruct (IH s' Fit') as (D' & Fit'' & I').
  split; [congruence|]. split; [exact Fit''|]. auto.
Qed.

(** X11.  A non-positive scheduledEventTime means that no event is
    scheduled: the call does not depend on which non-positive value is
    passed, its ceiling is the report time, and it returns
    ReachedScheduledEvent only if the solver's returned time is infinite. *)
Theorem no_event_scheduled fuel integ reportTime scheduledEventTime :
  Rle scheduledEventTime (Finite 0) ->
  ceiling reportTime scheduledEventTime = reportTime
  /\ (forall other,
        Rle other (Finite 0) ->
        stepTo env fuel integ reportTime other
        = stepTo env fuel integ reportTime scheduledEventTime)
  /\ (forall integ',
        stepTo env fuel integ reportTime scheduledEventTime
        = (Some (Returned ReachedScheduledEvent), integ') ->
        previousTimeReturned integ' = Infinity).
Proof.
  intros Le.
  assert (E : eventTimeInUse scheduledEventTime = Infinity)
    by (unfold eventTimeInUse; unfold Rle in Le; now rewrite Le).
  split; [|split].
  - unfold ceiling. rewrite E. unfold Rmin, Rltb.
    destruct reportTime; reflexivity.
  - intros other Lo. unfold stepTo, eventTimeInUse.
    unfold Rle in Le, Lo. now rewrite Le, Lo.
  - intros integ' H.
    destruct (returned_scheduled_event _ _ _ _ _ H) as (A & _).
    rewrite E in A. destruct (previousTimeReturned integ'); [discriminate|].
    reflexivity.
Qed.

(** *** The callbacks and the Advanced State's own time and vector *)

(** X13.  What a callback returns for (t, y) does not depend on the time
    and the vector the Advanced State holds when the solver calls it: only
    the rest of the Advanced State is read. *)
Theorem callbacks_ignore_advanced_time_and_vector integ t0 y0 t y out yp
  epsProj err :
  let moved :=
    set_advancedState integ (updTime (updY (advancedState integ) y0) t0) in
  fst (explicitODE env moved t y out) = fst (explicitODE env integ t y out)
  /\ fst (constraint env moved t y out) = fst (constraint env integ t y out)
  /\ fst (project env moved t y out epsProj err)
     = fst (project env integ t y out epsProj err)
  /\ fst (root env moved t y yp out) = fst (root env integ t y yp out).
Proof.
  intros moved. subst moved.
  unfold explicitODE, constraint, project, root, project_try, project_err.
  simpl.
  repeat split.
  - destruct (realize (system env) _ StageAcceleration); reflexivity.
  - destruct (realize (system env) _ StageVelocity); reflexivity.
  - destruct (realize (system env) _ StagePosition); simpl; [reflexivity|].
    destruct (calcYUnitWeights (system env) _); simpl; [reflexivity|].
    destruct (calcYErrUnitTolerances (system env) _); simpl; [reflexivity|].
    destruct (sys_project (system env) _ _ _ _ _) as [|[st er]]; reflexivity.
  - destruct (realize (system env) _ StageAcceleration); reflexivity.
Qed.

(** *** The pending result and the start flag *)

Lemma decide_pending s1 reportTime eventTime tMax res tret o s' :
  decide env s1 reportTime eventTime tMax res tret = Done o s' ->
  pendingReturnCode s1 = -1 ->
  o <> Returned StartOfContinuousInterval
  /\ (o = Returned ReachedReportTime \/ o = Returned ReachedScheduledEvent ->
      pendingReturnCode s' = res /\ 0 <= res)
  /\ (o <> Returned ReachedReportTime ->
      o <> Returned ReachedScheduledEvent ->
      pendingReturnCode s' = -1).
Proof.
  intros D P.
  destruct (overshootCheck_frame env s1 tMax tret) as (_ & F2 & _).
  unfold decide in D.
  destruct (res =? TooMuchWork (codes env)) eqn:N.
  { inversion D; subst. simpl.
    split; [discriminate|]. split; [intros [X|X]; discriminate X | auto]. }
  destruct (res <? 0) eqn:L.
  { inversion D; subst.
    split; [discriminate|]. split; [intros [X|X]; discriminate X | auto]. }
  apply Z.ltb_ge in L.
  destruct (Rleb reportTime tret && Rleb reportTime eventTime).
  { inversion D; subst. simpl.
    split; [discriminate|]. split; [auto | intros X; contradiction]. }
  destruct (Rleb eventTime tret).
  { inversion D; subst. simpl.
    split; [discriminate|]. split; [auto | intros _ X; contradiction]. }
  destruct (res =? TstopReturn (codes env)).
  { inversion D; subst. simpl. rewrite F2.
    split; [discriminate|]. split; [intros [X|X]; discriminate X | auto]. }
  destruct (res =? RootReturn (codes env)).
  { inversion D; subst. unfold reportTriggers. simpl. rewrite F2.
    split; [discriminate|]. split; [intros [X|X]; discriminate X | auto]. }
  destruct (userReturnEveryInternalStep _ =? 1); inversion D; subst. simpl.
  rewrite F2.
  split; [discriminate|]. split; [intros [X|X]; discriminate X | auto].
Qed.

(** X21.  A result is pending after a call of stepTo exactly when the call
    returned ReachedReportTime or ReachedScheduledEvent: for a call made
    with the start flag down, pendingReturnCode is then the raw result,
    which is not negative, and after every other outcome, the step limit
    and the failure included, it is -1, so that the next call steps the
    solver. *)
Theorem pending_iff_boundary_outcome fuel integ reportTime scheduledEventTime
  o integ' :
  startOfContinuousInterval integ = false ->
  stepTo env fuel integ reportTime scheduledEventTime = (Some o, integ') ->
  (pendingReturnCode integ' <> -1
   <-> o = Returned ReachedReportTime \/ o = Returned ReachedScheduledEvent)
  /\ (pendingReturnCode integ' = -1 \/ 0 <= pendingReturnCode integ').
Proof.
  intros F H. unfold stepTo in H. rewrite F in H.
  destruct (stepLoop_returning_turn _ _ _ _ _ _ _ _ H) as (n & sp & _ & _ & T).
  unfold turn in T.
  destruct (obtainResult env sp _ (stepMode integ)) as [[res tret] s1] eqn:E.
  destruct (obtainResult_commits env _ _ _ _ _ _ E) as (_ & _ & P & _).
  destruct (decide_pending _ _ _ _ _ _ _ _ T P) as (_ & B & C).
  split; [split|].
  - intros Np.
    destruct o as [[| | | | | |]|t];
      try (exfalso; apply Np; apply C; discriminate); auto.
  - intros O. destruct (B O) as [Pr Re]. lia.
  - destruct o as [[| | | | | |]|t];
      try (left; apply C; discriminate);
      right; (destruct B as [Pr Re]; [auto | lia]).
Qed.

(** X22.  StartOfContinuousInterval is returned exactly by the calls made
    with the start flag up, and every call leaves the flag down: the
    outcome is never returned twice in a row. *)
Theorem start_outcome_iff_flag fuel integ reportTime scheduledEventTime :
  let r := stepTo env fuel integ reportTime scheduledEventTime in
  (fst r = Some (Returned StartOfContinuousInterval)
   <-> startOfContinuousInterval integ = true)
  /\ startOfContinuousInterval (snd r) = false
  /\ fst (stepTo env fuel (snd r) reportTime scheduledEventTime)
     <> Some (Returned StartOfContinuousInterval).
Proof.
  intros r.
  assert (Iff : forall i,
             fst (stepTo env fuel i reportTime scheduledEventTime)
             = Some (Returned StartOfContinuousInterval)
             <-> startOfContinuousInterval i = true).
  { intros i. unfold stepTo. destruct (startOfContinuousInterval i) eqn:F.
    - simpl. split; reflexivity.
    - split; [|discriminate]. intros H.
      destruct (stepLoop env fuel i reportTime _ _ _) as [[o|] s'] eqn:L;
        simpl in H; [|discriminate].
      inversion H; subst o.
      destruct (stepLoop_returning_turn _ _ _ _ _ _ _ _ L)
        as (n & sp & _ & _ & T).
      unfold turn in T.
      destruct (obtainResult env sp _ (stepMode i)) as [[res tret] s1] eqn:E.
      destruct (obtainResult_commits env _ _ _ _ _ _ E) as (_ & _ & P & _).
      destruct (decide_pending _ _ _ _ _ _ _ _ T P) as (N & _).
      contradiction. }
  pose proof (stepTo_flag_down fuel integ reportTime scheduledEventTime) as Down.
  fold r in Down. split; [apply Iff|]. split; [exact Down|].
  intros H. apply Iff in H. congruence.
Qed.

End ControllerMore.

(* ------------------------------------------------------------------ *)
(** ** Construction, initialization and re-initialization: properties *)

Section LifecycleMore.
Context {S : Type}.
Variable env : Env S.
Variable senv : SetupEnv S.
Implicit Type rep : Rep S.

Ltac split_conditions :=
  repeat match goal with
    | |- context [if ?b then _ else _] => destruct b eqn:?
    end.

(** *** Solver calls leave the rest alone *)

Lemma sameButSolver_refl rep : sameButSolver rep rep.
Proof. unfold sameButSolver. repeat split. Qed.

Lemma sameButSolver_trans rep1 rep2 rep3 :
  sameButSolver rep1 rep2 -> sameButSolver rep2 rep3 ->
  sameButSolver rep1 rep3.
Proof.
  unfold sameButSolver. intros H1 H2.
  repeat match goal with H : _ /\ _ |- _ => destruct H end.
  repeat split; congruence.
Qed.

Lemma send_same rep setting : sameButSolver rep (send senv rep setting).
Proof. unfold sameButSolver, send, with_cpodes. simpl. repeat split. Qed.

Lemma maybe_send (b : bool) rep setting :
  let rep' := if b then send senv rep setting else rep in
  sameButSolver rep rep'
  /\ commands rep' = (if b then [configure setting] else []) ++ commands rep.
Proof.
  destruct b; simpl; split;
    [apply send_same | reflexivity | apply sameButSolver_refl | reflexivity].
Qed.

Lemma sameButSolver_finalTime rep rep' :
  sameButSolver rep rep' ->
  userFinalTime (core rep') = userFinalTime (core rep) /\ user rep' = user rep.
Proof.
  unfold sameButSolver. intros H.
  repeat match goal with H : _ /\ _ |- _ => destruct H end. auto.
Qed.

(** The settings [initializeIntegrationParameters] sends, latest first, and
    what it leaves alone. *)
Lemma initializeIntegrationParameters_sends rep :
  let u := user rep in
  sameButSolver rep (initializeIntegrationParameters senv rep)
  /\ commands (initializeIntegrationParameters senv rep)
     = (if negb (userProjectEveryStep u =? -1) && (userProjectEveryStep u =? 1)
        then [configure (setProjFrequency 1)] else [])
       ++ (if negb (userInternalStepLimit u =? -1)
           then [configure (setMaxNumSteps (userInternalStepLimit u))] else [])
       ++ (if negb (Reqb (userFinalTime (core rep)) (Finite (-1)))
           then [configure (setStopTime (userFinalTime (core rep)))] else [])
       ++ (if negb (Reqb (userMaxStepSize u) (Finite (-1)))
           then [configure (setMaxStep (userMaxStepSize u))] else [])
       ++ (if negb (Reqb (userMinStepSize u) (Finite (-1)))
           then [configure (setMinStep (userMinStepSize u))] else [])
       ++ (if negb (Reqb (userInitStepSize u) (Finite (-1)))
           then [configure (setInitStep (userInitStepSize u))] else [])
       ++ commands rep.
Proof.
  intros u. unfold initializeIntegrationParameters. fold u. cbv zeta.
  destruct (maybe_send (negb (Reqb (userInitStepSize u) (Finite (-1)))) rep
              (setInitStep (userInitStepSize u))) as [S1 C1].
  set (r1 := if negb (Reqb (userInitStepSize u) (Finite (-1)))
             then send senv rep (setInitStep (userInitStepSize u)) else rep)
    in *. clearbody r1.
  destruct (maybe_send (negb (Reqb (userMinStepSize u) (Finite (-1)))) r1
              (setMinStep (userMinStepSize u))) as [S2 C2].
  set (r2 := if negb (Reqb (userMinStepSize u) (Finite (-1)))
             then send senv r1 (setMinStep (userMinStepSize u)) else r1)
    in *. clearbody r2.
  destruct (maybe_send (negb (Reqb (userMaxStepSize u) (Finite (-1)))) r2
              (setMaxStep (userMaxStepSize u))) as [S3 C3].
  set (r3 := if negb (Reqb (userMaxStepSize u) (Finite (-1)))
             then send senv r2 (setMaxStep (userMaxStepSize u)) else r2)
    in *. clearbody r3.
  pose proof (sameButSolver_trans _ _ _ (sameButSolver_trans _ _ _ S1 S2) S3)
    as S13.
  destruct (sameButSolver_finalTime _ _ S13) as [F3 _].
  destruct (maybe_send (negb (Reqb (userFinalTime (core r3)) (Finite (-1)))) r3
              (setStopTime (userFinalTime (core r3)))) as [S4 C4].
  set (r4 := if negb (Reqb (userFinalTime (core r3)) (Finite (-1)))
             then send senv r3 (setStopTime (userFinalTime (core r3))) else r3)
    in *. clearbody r4.
  destruct (maybe_send (negb (userInternalStepLimit u =? -1)) r4
              (setMaxNumSteps (userInternalStepLimit u))) as [S5 C5].
  set (r5 := if negb (userInternalStepLimit u =? -1)
             then send senv r4 (setMaxNumSteps (userInternalStepLimit u))
             else r4) in *. clearbody r5.
  destruct (maybe_send
              (negb (userProjectEveryStep u =? -1)
               && (userProjectEveryStep u =? 1)) r5 (setProjFrequency 1))
    as [S6 C6].
  assert (E6 : (if negb (userProjectEveryStep u =? -1)
                then if userProjectEveryStep u =? 1
                     then send senv r5 (setProjFrequency 1) else r5
                else r5)
               = (if negb (userProjectEveryStep u =? -1)
                     && (userProjectEveryStep u =? 1)
                  then send senv r5 (setProjFrequency 1) else r5)).
  { destruct (negb (userProjectEveryStep u =? -1));
      destruct (userProjectEveryStep u =? 1); reflexivity. }
  rewrite E6. split.
  - apply (sameButSolver_trans _ r5); [|exact S6].
    apply (sameButSolver_trans _ r4); [|exact S5].
    apply (sameButSolver_trans _ r3); [exact S13 | exact S4].
  - rewrite C6, C5, C4, C3, C2, C1, F3. reflexivity.
Qed.

Lemma initializeIntegrationParameters_commands rep :
  let u := user rep in
  commands (initializeIntegrationParameters senv rep)
  = (if negb (userProjectEveryStep u =? -1) && (userProjectEveryStep u =? 1)
     then [configure (setProjFrequency 1)] else [])
    ++ (if negb (userInternalStepLimit u =? -1)
        then [configure (setMaxNumSteps (userInternalStepLimit u))] else [])
    ++ (if negb (Reqb (userFinalTime (core rep)) (Finite (-1)))
        then [configure (setStopTime (userFinalTime (core rep)))] else [])
    ++ (if negb (Reqb (userMaxStepSize u) (Finite (-1)))
        then [configure (setMaxStep (userMaxStepSize u))] else [])
    ++ (if negb (Reqb (userMinStepSize u) (Finite (-1)))
        then [configure (setMinStep (userMinStepSize u))] else [])
    ++ (if negb (Reqb (userInitStepSize u) (Finite (-1)))
        then [configure (setInitStep (userInitStepSize u))] else [])
    ++ commands rep.
Proof. apply initializeIntegrationParameters_sends. Qed.

Lemma initializeIntegrationParameters_same rep :
  sameButSolver rep (initializeIntegrationParameters senv rep).
Proof. apply initializeIntegrationParameters_sends. Qed.

(** X15.  The solver is given a stop time exactly when stepTo will step it
    in a stop-time mode: initializeIntegrationParameters sends setStopTime,
    with userFinalTime, if and only if userFinalTime is not -1, which is
    when stepTo chooses NormalTstop or OneStepTstop; it never sends another
    stop time, and it leaves every member of the integrator but the solver
    object as it was. *)
Theorem stop_time_sent_iff_tstop_mode rep :
  let rep' := initializeIntegrationParameters senv rep in
  exists sent,
    commands rep' = sent ++ commands rep
    /\ (In (configure (setStopTime (userFinalTime (core rep)))) sent
        <-> isTstopMode (stepMode (core rep')) = true)
    /\ (forall t, In (configure (setStopTime t)) sent ->
                  t = userFinalTime (core rep))
    /\ sameButSolver rep rep'.
Proof.
  intros rep'. subst rep'.
  pose proof (initializeIntegrationParameters_same rep) as Same.
  assert (M : stepMode (core (initializeIntegrationParameters senv rep))
              = stepMode (core rep)).
  { destruct Same as (_ & _ & _ & _ & _ & _ & _ & Ft & Ur & _).
    now apply stepMode_frame. }
  rewrite initializeIntegrationParameters_commands. cbv zeta.
  rewrite M. unfold stepMode.
  exists ((if negb (userProjectEveryStep (user rep) =? -1)
              && (userProjectEveryStep (user rep) =? 1)
           then [configure (setProjFrequency 1)] else [])
          ++ (if negb (userInternalStepLimit (user rep) =? -1)
              then [configure (setMaxNumSteps (userInternalStepLimit (user rep)))]
              else [])
          ++ (if negb (Reqb (userFinalTime (core rep)) (Finite (-1)))
              then [configure (setStopTime (userFinalTime (core rep)))]
              else [])
          ++ (if negb (Reqb (userMaxStepSize (user rep)) (Finite (-1)))
              then [configure (setMaxStep (userMaxStepSize (user rep)))]
              else [])
          ++ (if negb (Reqb (userMinStepSize (user rep)) (Finite (-1)))
              then [configure (setMinStep (userMinStepSize (user rep)))]
              else [])
          ++ (if negb (Reqb (userInitStepSize (user rep)) (Finite (-1)))
              then [configure (setInitStep (userInitStepSize (user rep)))]
              else [])).
  split; [now rewrite <- !app_assoc|].
  split; [|split; [|exact Same]].
  - destruct (negb (userProjectEveryStep (user rep) =? -1)
              && (userProjectEveryStep (user rep) =? 1));
      destruct (negb (userInternalStepLimit (user rep) =? -1));
      destruct (negb (Reqb (userFinalTime (core rep)) (Finite (-1))));
      destruct (negb (Reqb (userMaxStepSize (user rep)) (Finite (-1))));
      destruct (negb (Reqb (userMinStepSize (user rep)) (Finite (-1))));
      destruct (negb (Reqb (userInitStepSize (user rep)) (Finite (-1))));
      destruct (userReturnEveryInternalStep (core rep) =? 1);
      simpl; intuition (try discriminate; try congruence).
  - intros t.
    destruct (negb (userProjectEveryStep (user rep) =? -1)
              && (userProjectEveryStep (user rep) =? 1));
      destruct (negb (userInternalStepLimit (user rep) =? -1));
      destruct (negb (Reqb (userFinalTime (core rep)) (Finite (-1))));
      destruct (negb (Reqb (userMaxStepSize (user rep)) (Finite (-1))));
      destruct (negb (Reqb (userMinStepSize (user rep)) (Finite (-1))));
      destruct (negb (Reqb (userInitStepSize (user rep)) (Finite (-1))));
      simpl; intuition (try discriminate; try congruence).
Qed.

(** *** methodInitialize *)

Lemma reconstructForNewModel_core rep :
  advancedState (core (reconstructForNewModel senv rep))
  = advancedState (core rep)
  /\ startOfContinuousInterval (core (reconstructForNewModel senv rep))
     = startOfContinuousInterval (core rep)
  /\ useCpodesProjection (reconstructForNewModel senv rep)
     = useCpodesProjection rep
  /\ user (reconstructForNewModel senv rep) = user rep
  /\ stepCalls (core (reconstructForNewModel senv rep)) = stepCalls (core rep).
Proof. unfold reconstructForNewModel, with_cpodes. simpl. repeat split. Qed.

(** X16.  methodInitialize marks the integrator initialized and discards
    any pending result before it does anything that can fail: however it
    ends, normally or with InitializationFailed or with an exception of the
    system, the object it leaves has initialized set, pendingReturnCode -1
    and previousStartTime 0, its Advanced State is the one it had, and
    setUseCPodesProjection is refused from then on. *)
Theorem methodInitialize_marks_initialized rep state :
  let r := methodInitialize env senv rep state in
  initialized (snd r) = true
  /\ pendingReturnCode (core (snd r)) = -1
  /\ previousStartTime (core (snd r)) = Finite 0
  /\ advancedState (core (snd r)) = advancedState (core rep)
  /\ setUseCPodesProjection (snd r) = (Some ApiArgcheckFailed, snd r).
Proof.
  intros r. subst r. unfold methodInitialize.
  set (p := initializeIntegrationParameters senv
              (if stage_ltb (getSystemStage senv state) StageModel
               then reconstructForNewModel senv rep else rep)).
  assert (A : advancedState (core p) = advancedState (core rep)).
  { subst p.
    destruct (initializeIntegrationParameters_same
                (if stage_ltb (getSystemStage senv state) StageModel
                 then reconstructForNewModel senv rep else rep)) as (A & _).
    rewrite A. destruct (stage_ltb _ _); [|reflexivity].
    now destruct (reconstructForNewModel_core rep). }
  clearbody p.
  set (Good := fun q : Rep S =>
                 initialized q = true
                 /\ pendingReturnCode (core q) = -1
                 /\ previousStartTime (core q) = Finite 0
                 /\ advancedState (core q) = advancedState (core rep)).
  assert (Gwith : forall q v c, Good q -> Good (with_cpodes q v c))
    by (intros q v c G; exact G).
  assert (Gsend : forall q x, Good q -> Good (send senv q x))
    by (intros q x G; exact G).
  assert (Fin : forall q : Rep S,
             Good q ->
             initialized q = true
             /\ pendingReturnCode (core q) = -1
             /\ previousStartTime (core q) = Finite 0
             /\ advancedState (core q) = advancedState (core rep)
             /\ setUseCPodesProjection q = (Some ApiArgcheckFailed, q)).
  { intros q (I & P & T & V). repeat split; try assumption.
    cbv delta [setUseCPodesProjection] beta. now rewrite I. }
  assert (G0 : Good (set_core
                       (set_core (set_initialized p true)
                          (set_pendingReturnCode
                             (core (set_initialized p true)) (-1)))
                       (set_previousStartTime
                          (core (set_core (set_initialized p true)
                                   (set_pendingReturnCode
                                      (core (set_initialized p true)) (-1))))
                          (Finite 0))))
    by (repeat split; exact A).
  destruct (realize (system env) state StageVelocity) as [|c];
    [apply Fin; exact G0|].
  destruct (fst (explicitODE env _ _ _ _)) as [|[code yd]];
    [apply Fin; exact G0|].
  destruct (negb (code =? Success (codes env)));
    [apply Fin; exact G0|].
  destruct (cps_init _ _ _ _ _ _ _ _) as [retval solver'].
  destruct (negb (retval =? Success (codes env)));
    [apply Fin; apply Gwith; exact G0|].
  apply Fin. cbn [snd]. apply Gsend.
  match goal with |- context [if ?b then _ else _] => destruct b end;
    repeat apply Gsend; apply Gwith; exact G0.
Qed.

Lemma before_realize_facts rep state :
  let before :=
    initializeIntegrationParameters senv
      (if stage_ltb (getSystemStage senv state) StageModel
       then reconstructForNewModel senv rep else rep) in
  advancedState (core before) = advancedState (core rep)
  /\ useCpodesProjection before = useCpodesProjection rep
  /\ user before = user rep.
Proof.
  intros before. subst before.
  pose proof (initializeIntegrationParameters_same
                (if stage_ltb (getSystemStage senv state) StageModel
                 then reconstructForNewModel senv rep else rep)) as Same.
  unfold sameButSolver in Same.
  repeat match goal with H : _ /\ _ |- _ => destruct H end.
  destruct (reconstructForNewModel_core rep) as (R1 & _ & R3 & R4 & _).
  destruct (stage_ltb _ _); repeat split; congruence.
Qed.

(** X17.  When the system cannot realize the initial state, methodInitialize
    fails before it reaches the solver's init: an exception raised while
    realizing the given state to Stage::Velocity leaves as it is, and a
    failure to realize the derivative at the state's time and vector, which
    explicitODE reports as RecoverableError, becomes InitializationFailed
    ("Failed to calculate ydot"); in both cases the solver has received the
    integration parameters and nothing else. *)
Theorem initialization_fails_before_solver_init rep state :
  let before :=
    initializeIntegrationParameters senv
      (if stage_ltb (getSystemStage senv state) StageModel
       then reconstructForNewModel senv rep else rep) in
  let r := methodInitialize env senv rep state in
  (realize (system env) state StageVelocity = Threw ->
   fst r = Some SystemException
   /\ commands (snd r) = commands before
   /\ cpodes (core (snd r)) = cpodes (core before))
  /\ (forall c,
        realize (system env) state StageVelocity = Val c ->
        realize (system env)
          (updTime (updY (advancedState (core rep)) (sY state)) (sTime state))
          StageAcceleration = Threw ->
        RecoverableError (codes env) <> Success (codes env) ->
        fst r = Some (InitializationFailed FailedToCalculateYdot)
        /\ commands (snd r) = commands before
        /\ cpodes (core (snd r)) = cpodes (core before)).
Proof.
  intros before r. subst r.
  destruct (before_realize_facts rep state) as (A & _).
  fold before in A. unfold methodInitialize. fold before. split.
  - intros ->. simpl. repeat split.
  - intros c -> Ode Ne. unfold explicitODE. simpl. rewrite A.
    unfold getY, getTime. simpl. rewrite Ode. simpl.
    apply Z.eqb_neq in Ne. rewrite Ne. simpl. repeat split.
Qed.

(** X18.  What a successful methodInitialize has sent to the solver after
    the integration parameters, in this order: init with the state's time
    and vector and the derivative explicitODE computed, lapackDense with the
    vector's length, setNonlinConvCoef(0.01), the projection set-up and
    rootInit with the state's number of event triggers.  The projection
    set-up is projInit, called with the product of the accuracy in use and
    the constraint weights in use, followed by lapackDenseProj when
    useCpodesProjection is set, and projDefine alone when it is not, never
    both. *)
Theorem successful_initialization_trace rep state :
  let before :=
    initializeIntegrationParameters senv
      (if stage_ltb (getSystemStage senv state) StageModel
       then reconstructForNewModel senv rep else rep) in
  let r := methodInitialize env senv rep state in
  fst r = None ->
  exists c ydot,
    realize (system env) state StageVelocity = Val c
    /\ fst (explicitODE env (core rep) (sTime state) (sY state)
              (repeat 0%Q (length (sY state))))
       = Val (Success (codes env), ydot)
    /\ commands (snd r)
       = configure (rootInit (sNEvents state))
         :: (if useCpodesProjection rep
             then [configure
                     (lapackDenseProj (getNYErr senv (withCache state c))
                        (length (sY state)));
                   configure
                     (projInit (accuracyInUse (user rep))
                        (constraintWeightsInUse (user rep)))]
             else [configure projDefine])
         ++ [configure (setNonlinConvCoef (1 # 100));
             configure (lapackDense (length (sY state)));
             initCPodes (sTime state) (sY state) ydot (relTol (user rep))
               (absTol (user rep))]
         ++ commands before.
Proof.
  intros before r. subst r.
  destruct (before_realize_facts rep state) as (A & U & Us).
  fold before in A, U, Us. unfold methodInitialize. fold before.
  destruct (realize (system env) state StageVelocity) as [|c]; [discriminate|].
  assert (Ode : fst (explicitODE env
                       (core (set_core
                                (set_core (set_initialized before true)
                                   (set_pendingReturnCode
                                      (core (set_initialized before true)) (-1)))
                                (set_previousStartTime
                                   (core (set_core (set_initialized before true)
                                            (set_pendingReturnCode
                                               (core (set_initialized before true))
                                               (-1))))
                                   (Finite 0))))
                       (getTime (withCache state c)) (getY (withCache state c))
                       (repeat 0%Q (length (getY (withCache state c)))))
                = fst (explicitODE env (core rep) (sTime state) (sY state)
                         (repeat 0%Q (length (sY state))))).
  { unfold explicitODE. simpl. rewrite A. unfold getY, getTime. simpl.
    destruct (realize (system env) _ StageAcceleration); reflexivity. }
  rewrite Ode.
  destruct (fst (explicitODE env (core rep) _ _ _)) as [|[code yd]];
    [discriminate|].
  destruct (code =? Success (codes env)) eqn:Cd; simpl; [|discriminate].
  apply Z.eqb_eq in Cd. subst code.
  destruct (cps_init _ _ _ _ _ _ _ _) as [retval solver'].
  destruct (retval =? Success (codes env)); simpl; [|discriminate].
  intros _. exists c, yd. split; [reflexivity|]. split; [reflexivity|].
  rewrite U, Us. unfold getY, getTime, getNEvents. simpl.
  destruct (useCpodesProjection rep); reflexivity.
Qed.

(** *** methodReinitialize *)


End LifecycleMore.

(* ------------------------------------------------------------------ *)
(** ** More concrete runs: the properties above at work *)

Import Runs.

(** After one internal step to 1/2 the loop is still running toward the
    report time 1. *)
Lemma loop_runs_below_ceiling_witness :
  exists s,
    stepTo scenarioEnv 1 twoStepInteg (Finite 1) (Finite 0) = (None, s)
    /\ Rlt (sTime (advancedState s)) (ceiling (Finite 1) (Finite 0))
    /\ pendingReturnCode s = -1.
Proof.
  assert (E : exists s,
             stepTo scenarioEnv 1 twoStepInteg (Finite 1) (Finite 0) = (None, s))
    by (eexists; vm_compute; reflexivity).
  destruct E as [s E]. exists s. split; [exact E|].
  destruct (loop_runs_below_ceiling scenarioEnv 0 twoStepInteg (Finite 1)
              (Finite 0) s E) as (A & _ & P & _).
  split; [exact A | exact P].
Defined.

(** With per-step notification the call returns after the step to 1/2. *)
Lemma every_step_call_returns_witness :
  userReturnEveryInternalStep everyStepInteg = 1
  /\ fst (stepTo scenarioEnv 1 everyStepInteg (Finite 1) (Finite 0)) <> None
  /\ stepTo scenarioEnv 4 everyStepInteg (Finite 1) (Finite 0)
     = stepTo scenarioEnv 1 everyStepInteg (Finite 1) (Finite 0).
Proof.
  destruct (every_step_call_returns scenarioEnv 3 everyStepInteg (Finite 1)
              (Finite 0) eq_refl) as (A & B & _).
  split; [reflexivity|]. split; [exact A | exact B].
Defined.

(** The solver lands on the report time 1. *)
Lemma report_outcome_sound_witness :
  exists integ',
    stepTo scenarioEnv 1 tieInteg (Finite 1) (Finite 1)
    = (Some (Returned ReachedReportTime), integ')
    /\ Rle (Finite 1) (sTime (advancedState integ'))
    /\ savedY integ' = [].
Proof.
  assert (E : exists s,
             stepTo scenarioEnv 1 tieInteg (Finite 1) (Finite 1)
             = (Some (Returned ReachedReportTime), s))
    by (eexists; vm_compute; reflexivity).
  destruct E as [s E]. exists s. split; [exact E|].
  destruct (report_outcome_sound scenarioEnv 1 tieInteg (Finite 1) (Finite 1)
              s E) as (A & _ & _ & B & _).
  split; [exact A | exact B].
Defined.

(** The solver lands at 17/10, beyond the event at 3/2. *)
Lemma scheduled_event_outcome_sound_witness :
  exists integ',
    stepTo scenarioEnv 1 overshootInteg (Finite 2) (Finite (3 # 2))
    = (Some (Returned ReachedScheduledEvent), integ')
    /\ Rle (eventTimeInUse (Finite (3 # 2))) (sTime (advancedState integ'))
    /\ Rle (sTime (advancedState integ')) (eventTimeInUse (Finite (3 # 2))).
Proof.
  assert (E : exists s,
             stepTo scenarioEnv 1 overshootInteg (Finite 2) (Finite (3 # 2))
             = (Some (Returned ReachedScheduledEvent), s))
    by (eexists; vm_compute; reflexivity).
  destruct E as [s E]. exists s. split; [exact E|].
  destruct (scheduled_event_outcome_sound scenarioEnv 1 overshootInteg
              (Finite 2) (Finite (3 # 2)) s E) as (_ & A & B & _).
  split; [exact A | exact B].
Defined.

(** A root is found at 3, before the report time 5. *)
Lemma interior_outcome_sound_witness :
  exists integ',
    stepTo scenarioEnv 1 rootInteg (Finite 5) (Finite 0)
    = (Some (Returned ReachedEventTrigger), integ')
    /\ Rlt (sTime (advancedState integ')) (ceiling (Finite 5) (Finite 0))
    /\ pendingReturnCode integ' = -1.
Proof.
  assert (E : exists s,
             stepTo scenarioEnv 1 rootInteg (Finite 5) (Finite 0)
             = (Some (Returned ReachedEventTrigger), s))
    by (eexists; vm_compute; reflexivity).
  destruct E as [s E]. exists s. split; [exact E|].
  destruct (interior_outcome_sound scenarioEnv 1 rootInteg (Finite 5)
              (Finite 0) _ s E (or_intror (or_introl eq_refl)))
    as (A & _ & _ & P & _).
  split; [exact A | exact P].
Defined.

(** After the report at 1 the next turn resumes at 1 with the vector [5]. *)
Lemma report_resumption_witness :
  exists integ' s2,
    stepTo scenarioEnv 1 tieInteg (Finite 1) (Finite 1)
    = (Some (Returned ReachedReportTime), integ')
    /\ obtainResult scenarioEnv integ' (Finite 2) Normal
       = (pendingReturnCode integ', previousTimeReturned integ', s2)
    /\ stepCalls s2 = stepCalls integ'
    /\ sY (advancedState s2) = sY (advancedState integ').
Proof.
  assert (E : exists s,
             stepTo scenarioEnv 1 tieInteg (Finite 1) (Finite 1)
             = (Some (Returned ReachedReportTime), s))
    by (eexists; vm_compute; reflexivity).
  destruct E as [s E].
  destruct (report_resumption scenarioEnv 1 tieInteg (Finite 1) (Finite 1) s E
              (Finite 2) Normal) as (s2 & A & B & _ & C & _).
  exists s, s2. repeat split; assumption.
Defined.

(** The stop time 1 is where the report time is: the report comes first and
    the end of the simulation with the next call. *)
Lemma stop_time_is_deferred_witness :
  exists integ',
    stepTo scenarioEnv 1 stopAtReportInteg (Finite 1) (Finite 0)
    = (Some (Returned ReachedReportTime), integ')
    /\ pendingReturnCode integ' = TstopReturn (codes scenarioEnv)
    /\ Rlt (previousTimeReturned integ') (Finite 2)
    /\ Rlt (previousTimeReturned integ') (eventTimeInUse (Finite 0))
    /\ fst (stepTo scenarioEnv 1 integ' (Finite 2) (Finite 0))
       = Some (Returned EndOfSimulation)
    /\ stepCalls (snd (stepTo scenarioEnv 1 integ' (Finite 2) (Finite 0)))
       = stepCalls integ'.
Proof.
  assert (E : exists s,
             stepTo scenarioEnv 1 stopAtReportInteg (Finite 1) (Finite 0)
             = (Some (Returned ReachedReportTime), s)
             /\ pendingReturnCode s = TstopReturn (codes scenarioEnv)
             /\ Rlt (previousTimeReturned s) (Finite 2)
             /\ Rlt (previousTimeReturned s) (eventTimeInUse (Finite 0)))
    by (eexists; vm_compute; repeat split; reflexivity).
  destruct E as (s & E & P & A & B). exists s.
  destruct (stop_time_is_deferred scenarioEnv 1 stopAtReportInteg (Finite 1)
              (Finite 0) _ s 0 (Finite 2) (Finite 0) E (or_introl eq_refl)
              P A B) as (R1 & R2 & _).
  repeat split; assumption.
Defined.

(** A pending report with a vector of two components, then a step to 2. *)
Lemma stepTo_keeps_dimension_witness :
  (length (savedY pendingInteg) = 0%nat
   \/ length (savedY pendingInteg) = length (sY (advancedState pendingInteg)))
  /\ length (sY (advancedState
                   (snd (stepTo scenarioEnv 3 pendingInteg (Finite 2) (Finite 0)))))
     = 2%nat.
Proof.
  split; [left; reflexivity|].
  exact (proj1 (stepTo_keeps_dimension scenarioEnv 3 pendingInteg (Finite 2)
                  (Finite 0) (or_introl eq_refl))).
Defined.

(** No event: 0 and -5 are the same request. *)
Lemma no_event_scheduled_witness :
  Rle (Finite 0) (Finite 0)
  /\ ceiling (Finite 1) (Finite 0) = Finite 1
  /\ stepTo scenarioEnv 3 twoStepInteg (Finite 1) (Finite (-5))
     = stepTo scenarioEnv 3 twoStepInteg (Finite 1) (Finite 0).
Proof.
  destruct (no_event_scheduled scenarioEnv 3 twoStepInteg (Finite 1) (Finite 0)
              eq_refl) as (A & B & _).
  split; [reflexivity|]. split; [exact A|]. exact (B (Finite (-5)) eq_refl).
Defined.

(** A user stop time of 10: it is sent, and stepTo will use NormalTstop. *)
Lemma stop_time_sent_iff_tstop_mode_witness :
  isTstopMode
    (stepMode
       (core (initializeIntegrationParameters scenarioSetup
                (rep0 finalTimeInteg)))) = true
  /\ In (configure (setStopTime (Finite 10)))
       (commands (initializeIntegrationParameters scenarioSetup
                    (rep0 finalTimeInteg))).
Proof.
  destruct (stop_time_sent_iff_tstop_mode scenarioSetup (rep0 finalTimeInteg))
    as (sent & C & I & _).
  split; [reflexivity|].
  rewrite C. apply in_or_app. left. apply (proj2 I). reflexivity.
Defined.

(** A state at time -1, which the small system cannot realize, and a system
    that cannot realize Stage::Acceleration. *)
Lemma initialization_fails_before_solver_init_witness :
  realize (system scenarioEnv) (state0 (-1) [1%Q] 0) StageVelocity = Threw
  /\ fst (methodInitialize scenarioEnv scenarioSetup (rep0 idleInteg)
            (state0 (-1) [1%Q] 0))
     = Some SystemException
  /\ realize (system noAccelerationEnv) (state0 0 [1%Q] 0) StageVelocity
     = Val (derivs (state0 0 [1%Q] 0))
  /\ RecoverableError (codes noAccelerationEnv)
     <> Success (codes noAccelerationEnv)
  /\ fst (methodInitialize noAccelerationEnv scenarioSetup (rep0 idleInteg)
            (state0 0 [1%Q] 0))
     = Some (InitializationFailed FailedToCalculateYdot)
  /\ commands (snd (methodInitialize noAccelerationEnv scenarioSetup
                      (rep0 idleInteg) (state0 0 [1%Q] 0)))
     = [].
Proof.
  assert (N : RecoverableError (codes noAccelerationEnv)
              <> Success (codes noAccelerationEnv)) by discriminate.
  destruct (proj1 (initialization_fails_before_solver_init scenarioEnv
                     scenarioSetup (rep0 idleInteg) (state0 (-1) [1%Q] 0))
              eq_refl) as (A & _).
  destruct (proj2 (initialization_fails_before_solver_init noAccelerationEnv
                     scenarioSetup (rep0 idleInteg) (state0 0 [1%Q] 0))
              _ eq_refl eq_refl N) as (B & C & _).
  split; [reflexivity|]. split; [exact A|]. split; [reflexivity|].
  split; [exact N|]. split; [exact B | exact C].
Defined.

(** A successful initialization at time 0 with nothing set by the user and
    projection off. *)
Lemma successful_initialization_trace_witness :
  fst (methodInitialize scenarioEnv scenarioSetup (rep0 idleInteg)
         (state0 0 [1%Q] 0)) = None
  /\ commands (snd (methodInitialize scenarioEnv scenarioSetup (rep0 idleInteg)
                      (state0 0 [1%Q] 0)))
     = [configure (rootInit 0); configure projDefine;
        configure (setNonlinConvCoef (1 # 100)); configure (lapackDense 1);
        initCPodes (Finite 0) [1%Q] [1%Q] (Finite (1 # 1000))
          (Finite (1 # 1000))].
Proof.
  split; [reflexivity|].
  destruct (successful_initialization_trace scenarioEnv scenarioSetup
              (rep0 idleInteg) (state0 0 [1%Q] 0) eq_refl)
    as (c & ydot & _ & Y & C).
  rewrite C. vm_compute in Y. inversion Y. reflexivity.
Defined.


(** The report at 1 leaves the raw result pending. *)
Lemma pending_iff_boundary_outcome_witness :
  exists integ',
    startOfContinuousInterval tieInteg = false
    /\ stepTo scenarioEnv 1 tieInteg (Finite 1) (Finite 1)
       = (Some (Returned ReachedReportTime), integ')
    /\ pendingReturnCode integ' <> -1.
Proof.
  assert (E : exists s,
             stepTo scenarioEnv 1 tieInteg (Finite 1) (Finite 1)
             = (Some (Returned ReachedReportTime), s))
    by (eexists; vm_compute; reflexivity).
  destruct E as [s E]. exists s. split; [reflexivity|]. split; [exact E|].
  destruct (pending_iff_boundary_outcome scenarioEnv 1 tieInteg (Finite 1)
              (Finite 1) _ s eq_refl E) as (I & _).
  apply (proj2 I). left. reflexivity.
Defined.

(** The first call after the interval start returns the start outcome, the
    second does not. *)
Lemma start_outcome_iff_flag_witness :
  startOfContinuousInterval startInteg = true
  /\ fst (stepTo scenarioEnv 3 startInteg (Finite 1) (Finite 0))
     = Some (Returned StartOfContinuousInterval)
  /\ fst (stepTo scenarioEnv 3
            (snd (stepTo scenarioEnv 3 startInteg (Finite 1) (Finite 0)))
            (Finite 1) (Finite 0))
     <> Some (Returned StartOfContinuousInterval).
Proof.
  destruct (start_outcome_iff_flag scenarioEnv 3 startInteg (Finite 1)
              (Finite 0)) as (I & _ & N).
  split; [reflexivity|]. split; [exact (proj2 I eq_refl) | exact N].
Defined.
